(** * Cura material and variant lookup tables

    A shallow embedding of [cura/Machines/MaterialManager.py] and
    [cura/Machines/VariantManager.py]: the two lookup tables that are built
    once from the metadata of the container registry and then queried, with
    lazy loading of the containers.

    Python dictionaries are finite maps ([gmap]) keyed by strings; an
    exception is an explicit [Raise] result, and every function that mutates
    an object returns the object after the call, also when it raises. *)

From Stdlib Require Import QArith Qround Qabs Lqa.
From stdpp Require Import gmap strings list fin_maps pretty.
Close Scope Q_scope.
Open Scope string_scope.
Set Warnings "-register-all".

(** ** Python values and exceptions *)

Inductive PyError : Type :=
  | KeyError       (* d[k] on a missing key *)
  | TypeError      (* None[k] *)
  | RuntimeError.  (* raise RuntimeError(...) *)

Inductive Result (A : Type) : Type :=
  | Ok (a : A)
  | Raise (e : PyError).
Arguments Ok {A} a.
Arguments Raise {A} e.

Definition is_Raise {A} (r : Result A) : Prop :=
  match r with Raise _ => True | Ok _ => False end.

(** A metadata record: a dict from field names to strings. *)
Abbreviation Metadata := (gmap string string).

(** An [InstanceContainer] is an object of the registry; only its identity
    matters here. *)
Inductive InstanceContainer : Type :=
  | ContainerObj (addr : nat).

#[global] Instance InstanceContainer_eq_dec : EqDecision InstanceContainer.
Proof. solve_decision. Defined.

(** A Python [float] that is neither [nan] nor infinite is a rational number;
    [round(x)] with one argument is the nearest integer, a tie going to the
    even one, and is exact. *)
Abbreviation float := Q.

Definition round (x : float) : Z :=
  let f := Qfloor x in
  match Qcompare (x - inject_Z f) (1 # 2) with
  | Lt => f
  | Gt => (f + 1)%Z
  | Eq => if Z.even f then f else (f + 1)%Z
  end.

(** [str(n)] for an [int]. *)
Definition str (n : Z) : string := pretty n.

(** A result [c] as the result [Some c] of a query that may find nothing. *)
Definition found {A} (r : Result A) : Result (option A) :=
  match r with
  | Ok a => Ok (Some a)
  | Raise e => Raise e
  end.

(** ** Statements that read or raise, over the object [S] they mutate *)

Definition M (S A : Type) : Type := S -> Result A * S.

Definition ret {S A} (a : A) : M S A := fun s => (Ok a, s).
Definition raise {S A} (e : PyError) : M S A := fun s => (Raise e, s).
Definition bind {S A B} (m : M S A) (k : A -> M S B) : M S B :=
  fun s => match m s with
           | (Ok a, s') => k a s'
           | (Raise e, s') => (Raise e, s')
           end.
Definition get {S} : M S S := fun s => (Ok s, s).
Definition put {S} (s : S) : M S unit := fun _ => (Ok tt, s).

Notation "x <- m ;; k" := (bind m (fun x => k))
  (at level 100, m at next level, right associativity).

(** [d[k]]: [KeyError] when the key is missing. *)
Definition getitem {S V} (d : gmap string V) (k : string) : M S V :=
  match d !! k with
  | Some v => ret v
  | None => raise KeyError
  end.

(** [for x in l: body], stopping at the first exception. *)
Fixpoint for_each {A S} (body : A -> M S unit) (l : list A) : M S unit :=
  match l with
  | [] => ret tt
  | x :: l' => bind (body x) (fun _ => for_each body l')
  end.

(** ** The container registry (UM.Settings.ContainerRegistry)

    The registry is an object outside this repository; the managers use two
    of its methods. [find_calls] records the ids that
    [findInstanceContainers] was called with, the latest first. *)

Record ContainerRegistry : Type := mkContainerRegistry {
  containers_metadata : string -> list Metadata;
  instance_containers : string -> list InstanceContainer;
  find_calls : list string
}.

Definition findContainersMetadata (reg : ContainerRegistry) (type : string)
  : list Metadata :=
  containers_metadata reg type.

Definition findInstanceContainers (reg : ContainerRegistry) (id : string)
  : list InstanceContainer * ContainerRegistry :=
  (instance_containers reg id,
   mkContainerRegistry (containers_metadata reg) (instance_containers reg)
                       (id :: find_calls reg)).

(** ** cura/Machines/MaterialManager.py *)

Module MaterialManager.

(** class MaterialNode. Every node object is held by exactly one slot of one
    dict, so assigning to a field of a node is replacing the node in that
    slot. *)
Inductive MaterialNode : Type := mkMaterialNode {
  metadata : option Metadata;
  container : option InstanceContainer;
  material_map : gmap string MaterialNode;
  children_map : gmap string MaterialNode
}.

(** MaterialNode.__init__ *)
Definition MaterialNode_init (metadata : option Metadata) : MaterialNode :=
  mkMaterialNode metadata None ∅ ∅.

Definition set_container (node : MaterialNode) (c : InstanceContainer)
  : MaterialNode :=
  mkMaterialNode (metadata node) (Some c) (material_map node) (children_map node).

Definition set_material_map (node : MaterialNode)
    (m : gmap string MaterialNode) : MaterialNode :=
  mkMaterialNode (metadata node) (container node) m (children_map node).

Definition set_children_map (node : MaterialNode)
    (m : gmap string MaterialNode) : MaterialNode :=
  mkMaterialNode (metadata node) (container node) (material_map node) m.

(** class MaterialManager *)
Record MaterialManager : Type := mkMaterialManager {
  _container_registry : ContainerRegistry;
  _guid_to_root_materials_map : gmap string MaterialNode;
  _diameter_machine_variant_material_map
    : gmap string (gmap string MaterialNode);
  _default_machine_definition_id : string
}.

(** MaterialManager.__init__ *)
Definition init (container_registry : ContainerRegistry) : MaterialManager :=
  mkMaterialManager container_registry ∅ ∅ "fdmprinter".

Definition set_registry (self : MaterialManager) (reg : ContainerRegistry)
  : MaterialManager :=
  mkMaterialManager reg (_guid_to_root_materials_map self)
    (_diameter_machine_variant_material_map self)
    (_default_machine_definition_id self).

Definition set_guid_map (self : MaterialManager)
    (m : gmap string MaterialNode) : MaterialManager :=
  mkMaterialManager (_container_registry self) m
    (_diameter_machine_variant_material_map self)
    (_default_machine_definition_id self).

Definition set_diameter_map (self : MaterialManager)
    (m : gmap string (gmap string MaterialNode)) : MaterialManager :=
  mkMaterialManager (_container_registry self)
    (_guid_to_root_materials_map self) m
    (_default_machine_definition_id self).

(** [not variant_name]: the field is missing ([None]) or the empty string. *)
Definition falsy (v : option string) : bool :=
  match v with
  | None => true
  | Some EmptyString => true
  | Some (String _ _) => false
  end.

(** Body of the first loop of [initialize] (Table #1, lines 37-48). *)
Definition add_root_material (material_metadata : Metadata)
  : M MaterialManager unit :=
  material_id <- getitem material_metadata "id" ;;
  if decide (material_id = "empty_material") then ret tt
  else
    guid <- getitem material_metadata "GUID" ;;
    let base_file := material_metadata !! "base_file" in
    if decide (Some material_id = base_file) then
      self <- get ;;
      match _guid_to_root_materials_map self !! guid with
      | None =>
          put (set_guid_map self
                 (<[guid := MaterialNode_init (Some material_metadata)]>
                    (_guid_to_root_materials_map self)))
      | Some _ => ret tt
      end
    else ret tt.

(** [node.metadata["id"]] *)
Definition node_id {S} (node : MaterialNode) : M S string :=
  match metadata node with
  | None => raise TypeError
  | Some md => getitem md "id"
  end.

(** Lines 63-87 of [initialize]: where the record goes in the tree. The dicts
    and nodes on the path are created when missing, then the leaf is stored;
    [dmvm] is the tree before, the result is the tree after. *)
Definition insert_material (material_metadata : Metadata)
    (root_material_id definition approximate_diameter : string)
    (dmvm : gmap string (gmap string MaterialNode))
  : Result unit * gmap string (gmap string MaterialNode) :=
  let dmvm1 :=
    match dmvm !! approximate_diameter with
    | None => <[approximate_diameter := ∅]> dmvm
    | Some _ => dmvm
    end in
  let machine_variant_material_map :=
    default ∅ (dmvm1 !! approximate_diameter) in
  let mvmm1 :=
    match machine_variant_material_map !! definition with
    | None => <[definition := MaterialNode_init None]>
                machine_variant_material_map
    | Some _ => machine_variant_material_map
    end in
  let machine_node := default (MaterialNode_init None) (mvmm1 !! definition) in
  let variant_name := material_metadata !! "variant_name" in
  if falsy variant_name then
    let machine_node' :=
      set_material_map machine_node
        (<[root_material_id := MaterialNode_init (Some material_metadata)]>
           (material_map machine_node)) in
    (Ok tt, <[approximate_diameter := <[definition := machine_node']> mvmm1]> dmvm1)
  else
    let variant_name := default EmptyString variant_name in
    let children1 :=
      match children_map machine_node !! variant_name with
      | None => <[variant_name := MaterialNode_init None]>
                  (children_map machine_node)
      | Some _ => children_map machine_node
      end in
    let variant_node :=
      default (MaterialNode_init None) (children1 !! variant_name) in
    match material_map variant_node !! root_material_id with
    | None =>
        let variant_node' :=
          set_material_map variant_node
            (<[root_material_id := MaterialNode_init (Some material_metadata)]>
               (material_map variant_node)) in
        let machine_node' :=
          set_children_map machine_node
            (<[variant_name := variant_node']> children1) in
        (Ok tt,
         <[approximate_diameter := <[definition := machine_node']> mvmm1]> dmvm1)
    | Some _ =>
        let machine_node' := set_children_map machine_node children1 in
        (Raise RuntimeError,
         <[approximate_diameter := <[definition := machine_node']> mvmm1]> dmvm1)
    end.

(** Body of the second loop of [initialize] (Table #2, lines 53-87). *)
Definition add_material (material_metadata : Metadata)
  : M MaterialManager unit :=
  material_id <- getitem material_metadata "id" ;;
  if decide (material_id = "empty_material") then ret tt
  else
    material_guid <- getitem material_metadata "GUID" ;;
    self <- get ;;
    root_node <- getitem (_guid_to_root_materials_map self) material_guid ;;
    root_material_id <- node_id root_node ;;
    definition <- getitem material_metadata "definition" ;;
    approximate_diameter <- getitem material_metadata "approximate_diameter" ;;
    fun self =>
      let '(r, dmvm') :=
        insert_material material_metadata root_material_id definition
          approximate_diameter (_diameter_machine_variant_material_map self) in
      (r, set_diameter_map self dmvm').

(** MaterialManager.initialize *)
Definition initialize : M MaterialManager unit :=
  self <- get ;;
  let material_metadata_list :=
    findContainersMetadata (_container_registry self) "material" in
  _ <- for_each add_root_material material_metadata_list ;;
  for_each add_material material_metadata_list.

(** MaterialManager._getContainerOnNode: the result, the registry and the
    node after the call. *)
Definition _getContainerOnNode (reg : ContainerRegistry) (node : MaterialNode)
  : Result InstanceContainer * ContainerRegistry * MaterialNode :=
  match container node with
  | Some c => (Ok c, reg, node)
  | None =>
      match metadata node with
      | None => (Raise TypeError, reg, node)
      | Some md =>
          match md !! "id" with
          | None => (Raise KeyError, reg, node)
          | Some container_id =>
              let '(container_list, reg') :=
                findInstanceContainers reg container_id in
              match container_list with
              | [] => (Raise RuntimeError, reg', node)
              | c :: _ => (Ok c, reg', set_container node c)
              end
          end
      end
  end.

(** The bucket of a diameter and the machine node of a query, lines 137-141
    and 175-181: the node of the machine, else the node of the default
    machine. The key under which the node was found comes with it. *)
Definition find_machine_node (self : MaterialManager)
    (machine_variant_material_map : gmap string MaterialNode)
    (machine_definition_id : string) : option (string * MaterialNode) :=
  match machine_variant_material_map !! machine_definition_id with
  | Some machine_node => Some (machine_definition_id, machine_node)
  | None =>
      match machine_variant_material_map
              !! _default_machine_definition_id self with
      | Some machine_node =>
          Some (_default_machine_definition_id self, machine_node)
      | None => None
      end
  end.

(** Lines 142-143 and 182-183. *)
Definition find_variant_node (machine_node : option (string * MaterialNode))
    (variant_name : option string) : option MaterialNode :=
  match machine_node, variant_name with
  | Some (_, machine_node), Some variant_name =>
      children_map machine_node !! variant_name
  | _, _ => None
  end.

(** MaterialManager.getAvailableMaterials. The local
    [material_id_metadata_dict] is a dict or [None]; so is the result. *)
Definition getAvailableMaterials (self : MaterialManager)
    (machine_definition_id : string) (variant_name : option string)
    (diameter : float) : option (gmap string (option Metadata)) :=
  let rounded_diameter := str (round diameter) in
  match _diameter_machine_variant_material_map self !! rounded_diameter with
  | None => Some ∅
  | Some machine_variant_material_map =>
      let machine_node :=
        find_machine_node self machine_variant_material_map
          machine_definition_id in
      let variant_node := find_variant_node machine_node variant_name in
      let material_id_metadata_dict : option (gmap string (option Metadata)) :=
        Some ∅ in
      let material_id_metadata_dict :=
        match variant_node with
        | Some variant_node => Some (metadata <$> material_map variant_node)
        | None => material_id_metadata_dict
        end in
      let material_id_metadata_dict :=
        match material_id_metadata_dict with
        | None =>
            match machine_node with
            | Some (_, machine_node) =>
                Some (metadata <$> material_map machine_node)
            | None => material_id_metadata_dict
            end
        | Some _ => material_id_metadata_dict
        end in
      material_id_metadata_dict
  end.

(** [_getContainerOnNode] assigns to a field of the node it is given. The
    node sits in the tree, so the tree after the call has the node after the
    call at the place of the node before. *)
Definition alter_machine_node (self : MaterialManager)
    (rounded_diameter machine_key : string)
    (f : MaterialNode -> MaterialNode) : MaterialManager :=
  set_diameter_map self
    (alter (alter f machine_key) rounded_diameter
       (_diameter_machine_variant_material_map self)).

Definition store_material (root_material_id : string)
    (material_node : MaterialNode) (node : MaterialNode) : MaterialNode :=
  set_material_map node
    (alter (fun _ => material_node) root_material_id (material_map node)).

Definition store_variant_material (self : MaterialManager)
    (rounded_diameter machine_key variant_name root_material_id : string)
    (material_node : MaterialNode) : MaterialManager :=
  alter_machine_node self rounded_diameter machine_key
    (fun machine_node =>
       set_children_map machine_node
         (alter (store_material root_material_id material_node)
            variant_name (children_map machine_node))).

Definition store_machine_material (self : MaterialManager)
    (rounded_diameter machine_key root_material_id : string)
    (material_node : MaterialNode) : MaterialManager :=
  alter_machine_node self rounded_diameter machine_key
    (store_material root_material_id material_node).

(** Lines 190-194 of [getMaterial]: the variant-specific material. *)
Definition get_variant_material (self : MaterialManager)
    (rounded_diameter : string) (machine_node : option (string * MaterialNode))
    (variant_name : option string) (root_material_id : string)
  : Result (option InstanceContainer) * MaterialManager :=
  match machine_node, variant_name with
  | Some (machine_key, machine_node), Some variant_name =>
      match children_map machine_node !! variant_name with
      | Some variant_node =>
          match material_map variant_node !! root_material_id with
          | Some material_node =>
              let '(r, reg', material_node') :=
                _getContainerOnNode (_container_registry self) material_node in
              let self' :=
                store_variant_material (set_registry self reg') rounded_diameter
                  machine_key variant_name root_material_id material_node' in
              (found r, self')
          | None => (Ok None, self)
          end
      | None => (Ok None, self)
      end
  | _, _ => (Ok None, self)
  end.

(** Lines 197-201 of [getMaterial]: the machine-specific material. *)
Definition get_machine_material (self : MaterialManager)
    (rounded_diameter : string) (machine_node : option (string * MaterialNode))
    (root_material_id : string)
  : Result (option InstanceContainer) * MaterialManager :=
  match machine_node with
  | Some (machine_key, machine_node) =>
      match material_map machine_node !! root_material_id with
      | Some material_node =>
          let '(r, reg', material_node') :=
            _getContainerOnNode (_container_registry self) material_node in
          let self' :=
            store_machine_material (set_registry self reg') rounded_diameter
              machine_key root_material_id material_node' in
          (found r, self')
      | None => (Ok None, self)
      end
  | None => (Ok None, self)
  end.

(** MaterialManager.getMaterial *)
Definition getMaterial (self : MaterialManager)
    (machine_definition_id : string) (variant_name : option string)
    (diameter : float) (root_material_id : string)
  : Result (option InstanceContainer) * MaterialManager :=
  let rounded_diameter := str (round diameter) in
  match _diameter_machine_variant_material_map self !! rounded_diameter with
  | None => (Ok None, self)
  | Some machine_variant_material_map =>
      let machine_node :=
        find_machine_node self machine_variant_material_map
          machine_definition_id in
      match get_variant_material self rounded_diameter machine_node
              variant_name root_material_id with
      | (Ok None, self') =>
          get_machine_material self' rounded_diameter machine_node
            root_material_id
      | (material, self') => (material, self')
      end
  end.

(** MaterialManager.getMaterialByGUID *)
Definition getMaterialByGUID (self : MaterialManager) (guid : string)
  : Result (option InstanceContainer) * MaterialManager :=
  match _guid_to_root_materials_map self !! guid with
  | Some node =>
      let '(r, reg', node') :=
        _getContainerOnNode (_container_registry self) node in
      let self' :=
        set_guid_map (set_registry self reg')
          (alter (fun _ => node') guid (_guid_to_root_materials_map self)) in
      (found r, self')
  | None => (Ok None, self)
  end.

End MaterialManager.

(** ** cura/Machines/VariantManager.py *)

Module VariantManager.

(** The dict [{"metadata": ..., "container": ...}] kept for a variant. *)
Record VariantDict : Type := mkVariantDict {
  metadata : Metadata;
  container : option InstanceContainer
}.

(** class VariantManager *)
Record VariantManager : Type := mkVariantManager {
  _container_registry : ContainerRegistry;
  _machine_to_variant_dict_map : gmap string (gmap string VariantDict);
  _exclude_variant_id_list : list string
}.

(** VariantManager.__init__ *)
Definition init (container_registry : ContainerRegistry) : VariantManager :=
  mkVariantManager container_registry ∅ ["empty_variant"].

Definition set_registry (self : VariantManager) (reg : ContainerRegistry)
  : VariantManager :=
  mkVariantManager reg (_machine_to_variant_dict_map self)
    (_exclude_variant_id_list self).

Definition set_variant_map (self : VariantManager)
    (m : gmap string (gmap string VariantDict)) : VariantManager :=
  mkVariantManager (_container_registry self) m (_exclude_variant_id_list self).

(** Body of the loop of [initialize] (lines 47-68). *)
Definition add_variant (variant_metadata : Metadata)
  : M VariantManager unit :=
  variant_id <- getitem variant_metadata "id" ;;
  self <- get ;;
  if decide (variant_id ∈ _exclude_variant_id_list self) then ret tt
  else
    variant_name <- getitem variant_metadata "name" ;;
    variant_definition <- getitem variant_metadata "definition" ;;
    _ <- (match _machine_to_variant_dict_map self !! variant_definition with
          | None =>
              put (set_variant_map self
                     (<[variant_definition := ∅]>
                        (_machine_to_variant_dict_map self)))
          | Some _ => ret tt
          end) ;;
    variant_type <- getitem variant_metadata "hardware_type" ;;
    self <- get ;;
    variant_dict <-
      getitem (_machine_to_variant_dict_map self) variant_definition ;;
    match variant_dict !! variant_name with
    | Some _ => raise RuntimeError
    | None =>
        put (set_variant_map self
               (<[variant_definition :=
                    <[variant_name := mkVariantDict variant_metadata None]>
                      variant_dict]>
                  (_machine_to_variant_dict_map self)))
    end.

(** VariantManager.initialize *)
Definition initialize : M VariantManager unit :=
  self <- get ;;
  let variant_metadata_list :=
    findContainersMetadata (_container_registry self) "variant" in
  for_each add_variant variant_metadata_list.

(** VariantManager.getVariantMetadata *)
Definition getVariantMetadata (self : VariantManager)
    (machine_type_name variant_name : string) (variant_type : option string)
  : Result (option Metadata) :=
  match _machine_to_variant_dict_map self !! machine_type_name with
  | None => Raise KeyError
  | Some machine_dict =>
      match machine_dict !! variant_name with
      | None => Ok None
      | Some variant_dict => Ok (Some (metadata variant_dict))
      end
  end.

(** VariantManager.getVariant: the result and the manager after the call. *)
Definition getVariant (self : VariantManager)
    (machine_type_name variant_name : string) (variant_type : option string)
  : Result (option InstanceContainer) * VariantManager :=
  match _machine_to_variant_dict_map self !! machine_type_name with
  | None => (Raise KeyError, self)
  | Some machine_dict =>
      match machine_dict !! variant_name with
      | None => (Ok None, self)
      | Some variant_dict =>
          match container variant_dict with
          | Some c => (Ok (Some c), self)
          | None =>
              match metadata variant_dict !! "id" with
              | None => (Raise KeyError, self)
              | Some variant_id =>
                  let '(variant_list, reg') :=
                    findInstanceContainers (_container_registry self)
                      variant_id in
                  match variant_list with
                  | [] => (Raise RuntimeError, set_registry self reg')
                  | c :: _ =>
                      (Ok (Some c),
                       set_variant_map (set_registry self reg')
                         (<[machine_type_name :=
                              <[variant_name :=
                                  mkVariantDict (metadata variant_dict) (Some c)]>
                                machine_dict]>
                            (_machine_to_variant_dict_map self)))
                  end
              end
          end
      end
  end.

End VariantManager.

(** ** Sample data *)

Definition record (fields : list (string * string)) : Metadata :=
  list_to_map fields.

Definition generic_pla : Metadata :=
  record [("id", "generic_pla"); ("GUID", "G1"); ("base_file", "generic_pla");
          ("definition", "fdmprinter"); ("approximate_diameter", "3")].

Definition generic_pla_um3_aa04 : Metadata :=
  record [("id", "generic_pla_um3_aa04"); ("GUID", "G1");
          ("base_file", "generic_pla"); ("definition", "ultimaker3");
          ("variant_name", "AA 0.4"); ("approximate_diameter", "3")].

(** A second machine-level record of the same material, machine and
    diameter as [generic_pla]. *)
Definition generic_pla_custom : Metadata :=
  record [("id", "generic_pla_custom"); ("GUID", "G1");
          ("base_file", "generic_pla"); ("definition", "fdmprinter");
          ("approximate_diameter", "3")].

(** A second record of the same material, machine, variant and diameter as
    [generic_pla_um3_aa04]. *)
Definition generic_pla_um3_aa04_custom : Metadata :=
  record [("id", "generic_pla_um3_aa04_custom"); ("GUID", "G1");
          ("base_file", "generic_pla"); ("definition", "ultimaker3");
          ("variant_name", "AA 0.4"); ("approximate_diameter", "3")].

(** A second variant record of the same machine and name as
    [ultimaker3_aa04]. *)
Definition ultimaker3_aa04_copy : Metadata :=
  record [("id", "ultimaker3_aa04_copy"); ("name", "AA 0.4");
          ("definition", "ultimaker3"); ("hardware_type", "nozzle")].

Definition ultimaker3_aa04 : Metadata :=
  record [("id", "ultimaker3_aa04"); ("name", "AA 0.4");
          ("definition", "ultimaker3"); ("hardware_type", "nozzle")].

(** A registry holding the given material and variant records, with one
    container per listed id. *)
Definition sample_registry (materials variants : list Metadata)
    (containers : list (string * InstanceContainer)) : ContainerRegistry :=
  mkContainerRegistry
    (fun type => if decide (type = "material") then materials
                 else if decide (type = "variant") then variants else [])
    (fun id => (filter (fun p => p.1 = id) containers).*2)
    [].

Definition sample_containers : list (string * InstanceContainer) :=
  [("generic_pla", ContainerObj 1); ("generic_pla_um3_aa04", ContainerObj 2);
   ("generic_pla_custom", ContainerObj 3); ("ultimaker3_aa04", ContainerObj 4)].

(** The binary64 values of the literals [2.84], [2.85] and [1.75]. *)
Definition float_2_84 : float := 799388933858263 # 281474976710656.
Definition float_2_85 : float := 6417629469002957 # 2251799813685248.
Definition float_1_75 : float := 7 # 4.

(** ** Reading the tables *)

Definition machine_node_at (self : MaterialManager.MaterialManager)
    (rounded_diameter machine_id : string)
  : option MaterialManager.MaterialNode :=
  MaterialManager._diameter_machine_variant_material_map self
    !! rounded_diameter ≫= (.!! machine_id).

Definition machine_material_at (self : MaterialManager.MaterialManager)
    (rounded_diameter machine_id root_material_id : string)
  : option MaterialManager.MaterialNode :=
  machine_node_at self rounded_diameter machine_id
    ≫= (fun n => MaterialManager.material_map n !! root_material_id).

Definition variant_node_at (self : MaterialManager.MaterialManager)
    (rounded_diameter machine_id variant_name : string)
  : option MaterialManager.MaterialNode :=
  machine_node_at self rounded_diameter machine_id
    ≫= (fun n => MaterialManager.children_map n !! variant_name).

Definition variant_material_at (self : MaterialManager.MaterialManager)
    (rounded_diameter machine_id variant_name root_material_id : string)
  : option MaterialManager.MaterialNode :=
  variant_node_at self rounded_diameter machine_id variant_name
    ≫= (fun n => MaterialManager.material_map n !! root_material_id).

Definition variant_at (self : VariantManager.VariantManager)
    (machine_id variant_name : string) : option VariantManager.VariantDict :=
  VariantManager._machine_to_variant_dict_map self
    !! machine_id ≫= (.!! variant_name).

(** The key of the machine node that a query for [machine_id] uses in the
    bucket [rounded_diameter]: its own, else the default machine's. *)
Definition machine_key_of (self : MaterialManager.MaterialManager)
    (rounded_diameter machine_id : string) : option string :=
  MaterialManager._diameter_machine_variant_material_map self
    !! rounded_diameter
    ≫= (fun bucket =>
          fst <$> MaterialManager.find_machine_node self bucket machine_id).

(** The leaf that [getMaterial] loads: the variant-specific one when there
    is one, else the machine-specific one. *)
Definition material_node_of (self : MaterialManager.MaterialManager)
    (machine_id : string) (variant_name : option string) (diameter : float)
    (root_material_id : string) : option MaterialManager.MaterialNode :=
  let key := str (round diameter) in
  match machine_key_of self key machine_id with
  | None => None
  | Some machine_key =>
      match variant_name
            ≫= (fun v => variant_material_at self key machine_key v
                           root_material_id) with
      | Some leaf => Some leaf
      | None => machine_material_at self key machine_key root_material_id
      end
  end.

(** Where that leaf sits: the bucket, the key of the machine node, the
    variant name for a variant-specific leaf, and the root material id. Two
    queries load the same node when they have the same place. *)
Definition material_path_of (self : MaterialManager.MaterialManager)
    (machine_id : string) (variant_name : option string) (diameter : float)
    (root_material_id : string)
  : option (string * string * option string * string) :=
  let key := str (round diameter) in
  match machine_key_of self key machine_id with
  | None => None
  | Some machine_key =>
      match variant_name
            ≫= (fun v => (fun _ => v)
                           <$> variant_material_at self key machine_key v
                                 root_material_id) with
      | Some v => Some (key, machine_key, Some v, root_material_id)
      | None =>
          (fun _ => (key, machine_key, None, root_material_id))
            <$> machine_material_at self key machine_key root_material_id
      end
  end.

Definition node_at_path (self : MaterialManager.MaterialManager)
    (path : string * string * option string * string)
  : option MaterialManager.MaterialNode :=
  match path with
  | (key, machine_key, Some v, root_material_id) =>
      variant_material_at self key machine_key v root_material_id
  | (key, machine_key, None, root_material_id) =>
      machine_material_at self key machine_key root_material_id
  end.

(** The id under which the container of a node is looked up. *)
Definition container_id (node : MaterialManager.MaterialNode) : option string :=
  MaterialManager.metadata node ≫= (.!! "id").

(** The node is not loaded and the registry has no container for it. *)
Definition lookup_fails (reg : ContainerRegistry)
    (node : MaterialManager.MaterialNode) : Prop :=
  MaterialManager.container node = None
  ∧ ∃ id, container_id node = Some id ∧ instance_containers reg id = [].

Definition variant_lookup_fails (reg : ContainerRegistry)
    (entry : VariantManager.VariantDict) : Prop :=
  VariantManager.container entry = None
  ∧ ∃ id, VariantManager.metadata entry !! "id" = Some id
          ∧ instance_containers reg id = [].

(** What a query adds to the record of the calls of the registry: nothing,
    or one lookup of the id of the node that it resolves, that node having
    no container yet. *)
Definition looked_up (reg reg' : ContainerRegistry)
    (node : option MaterialManager.MaterialNode) : Prop :=
  find_calls reg' = find_calls reg
  ∨ ∃ n id,
      node = Some n ∧ MaterialManager.container n = None
      ∧ container_id n = Some id
      ∧ find_calls reg' = id :: find_calls reg.

Definition variant_looked_up (reg reg' : ContainerRegistry)
    (entry : option VariantManager.VariantDict) : Prop :=
  find_calls reg' = find_calls reg
  ∨ ∃ e id,
      entry = Some e ∧ VariantManager.container e = None
      ∧ VariantManager.metadata e !! "id" = Some id
      ∧ find_calls reg' = id :: find_calls reg.

(** ** The life of a manager

    After [initialize] a manager is only queried. The registry is an object
    of its own: between two queries its containers may change, while the
    record of the calls made to it only grows by the calls of the manager. *)

Inductive material_later (self : MaterialManager.MaterialManager)
  : MaterialManager.MaterialManager -> Prop :=
  | later_now : material_later self self
  | later_getMaterial self' mid vn (d : float) rid :
      material_later self self' ->
      material_later self (MaterialManager.getMaterial self' mid vn d rid).2
  | later_getMaterialByGUID self' guid :
      material_later self self' ->
      material_later self (MaterialManager.getMaterialByGUID self' guid).2
  | later_registry self' reg :
      material_later self self' ->
      find_calls reg = find_calls (MaterialManager._container_registry self') ->
      material_later self (MaterialManager.set_registry self' reg).

Definition material_initialized (self : MaterialManager.MaterialManager)
  : Prop :=
  ∃ reg self0,
    MaterialManager.initialize (MaterialManager.init reg) = (Ok tt, self0)
    ∧ material_later self0 self.

Inductive variant_later (self : VariantManager.VariantManager)
  : VariantManager.VariantManager -> Prop :=
  | vlater_now : variant_later self self
  | vlater_getVariant self' m v t :
      variant_later self self' ->
      variant_later self (VariantManager.getVariant self' m v t).2
  | vlater_registry self' reg :
      variant_later self self' ->
      find_calls reg = find_calls (VariantManager._container_registry self') ->
      variant_later self (VariantManager.set_registry self' reg).

Definition variant_initialized (self : VariantManager.VariantManager) : Prop :=
  ∃ reg self0,
    VariantManager.initialize (VariantManager.init reg) = (Ok tt, self0)
    ∧ variant_later self0 self.

(** ** What holds of the tables of an initialized manager *)

Definition has_id (node : MaterialManager.MaterialNode) : Prop :=
  is_Some (container_id node).

Definition leaves_have_id (m : gmap string MaterialManager.MaterialNode)
  : Prop :=
  map_Forall (fun _ node => has_id node) m.

Definition machine_node_wf (machine_node : MaterialManager.MaterialNode)
  : Prop :=
  leaves_have_id (MaterialManager.material_map machine_node)
  ∧ map_Forall
      (fun _ variant_node =>
         leaves_have_id (MaterialManager.material_map variant_node))
      (MaterialManager.children_map machine_node).

Definition tree_wf (t : gmap string (gmap string MaterialManager.MaterialNode))
  : Prop :=
  map_Forall (fun _ bucket => map_Forall (fun _ n => machine_node_wf n) bucket) t.

Definition material_wf (self : MaterialManager.MaterialManager) : Prop :=
  MaterialManager._default_machine_definition_id self = "fdmprinter"
  ∧ leaves_have_id (MaterialManager._guid_to_root_materials_map self)
  ∧ tree_wf (MaterialManager._diameter_machine_variant_material_map self).

Definition variant_wf (self : VariantManager.VariantManager) : Prop :=
  map_Forall
    (fun _ machine_dict =>
       map_Forall
         (fun _ entry => is_Some (VariantManager.metadata entry !! "id"))
         machine_dict)
    (VariantManager._machine_to_variant_dict_map self).

(** ** A manager whose nodes have loaded at least the containers of another

    [leaf_le n n']: [n'] is the node [n], possibly with its container
    loaded since. [cache_le self self']: the two managers have the same
    buckets, machine nodes and leaves, and each leaf of [self'] is the leaf
    of [self], possibly loaded since. *)

Definition leaf_le (n n' : MaterialManager.MaterialNode) : Prop :=
  container_id n = container_id n'
  ∧ ∀ c, MaterialManager.container n = Some c →
         MaterialManager.container n' = Some c.

Definition cache_le (self self' : MaterialManager.MaterialManager) : Prop :=
  MaterialManager._default_machine_definition_id self
  = MaterialManager._default_machine_definition_id self'
  ∧ (∀ d m, is_Some (machine_node_at self d m)
            ↔ is_Some (machine_node_at self' d m))
  ∧ (∀ d m r, option_Forall2 leaf_le (machine_material_at self d m r)
                (machine_material_at self' d m r))
  ∧ (∀ d m v r, option_Forall2 leaf_le (variant_material_at self d m v r)
                  (variant_material_at self' d m v r))
  ∧ (∀ g, option_Forall2 leaf_le
            (MaterialManager._guid_to_root_materials_map self !! g)
            (MaterialManager._guid_to_root_materials_map self' !! g)).

Definition variant_le (e e' : VariantManager.VariantDict) : Prop :=
  VariantManager.metadata e = VariantManager.metadata e'
  ∧ ∀ c, VariantManager.container e = Some c →
         VariantManager.container e' = Some c.

Definition variant_cache_le (self self' : VariantManager.VariantManager)
  : Prop :=
  (∀ m, is_Some (VariantManager._machine_to_variant_dict_map self !! m)
        ↔ is_Some (VariantManager._machine_to_variant_dict_map self' !! m))
  ∧ ∀ m v, option_Forall2 variant_le (variant_at self m v)
             (variant_at self' m v).

(** ** Root materials

    A root material is a record other than "empty_material" whose id is its
    [base_file]; the root material of a GUID is the first such record of the
    list with that GUID. *)

Definition is_root_material (md : Metadata) : bool :=
  match md !! "id" with
  | Some material_id =>
      bool_decide (material_id ≠ "empty_material"
                   ∧ md !! "base_file" = Some material_id)
  | None => false
  end.

(** What the first loop of [initialize] reads of a record: its id and,
    unless it is "empty_material", its GUID. *)
Definition has_id_and_guid (md : Metadata) : Prop :=
  is_Some (md !! "id")
  ∧ (md !! "id" ≠ Some "empty_material" → is_Some (md !! "GUID")).

Definition first_root_material (guid : string) (l : list Metadata)
  : option Metadata :=
  head (filter (fun md => is_root_material md = true
                          ∧ md !! "GUID" = Some guid) l).

(** ** Sample managers *)

Definition generic_pla_ultimaker3 : Metadata :=
  record [("id", "generic_pla_ultimaker3"); ("GUID", "G1");
          ("base_file", "generic_pla"); ("definition", "ultimaker3");
          ("approximate_diameter", "3")].

(** [initialize] of a new manager on the given material records. *)
Definition sample_initialize (materials : list Metadata)
  : Result unit * MaterialManager.MaterialManager :=
  MaterialManager.initialize
    (MaterialManager.init (sample_registry materials [] sample_containers)).

Definition sample_manager1 : MaterialManager.MaterialManager :=
  (sample_initialize [generic_pla]).2.

Definition sample_manager : MaterialManager.MaterialManager :=
  (sample_initialize [generic_pla; generic_pla_um3_aa04]).2.

Definition sample_manager3 : MaterialManager.MaterialManager :=
  (sample_initialize
     [generic_pla; generic_pla_um3_aa04; generic_pla_ultimaker3]).2.

Definition sample_variant_initialize (variants : list Metadata)
  : Result unit * VariantManager.VariantManager :=
  VariantManager.initialize
    (VariantManager.init (sample_registry [] variants sample_containers)).

Definition sample_variant_manager : VariantManager.VariantManager :=
  (sample_variant_initialize [ultimaker3_aa04]).2.

(** ** The place of a record in the tree

    What lines 58-71 of [MaterialManager.initialize] read of a record to
    place its leaf: the bucket [approximate_diameter], the machine
    [definition], the variant name unless it is missing or empty, and the id
    of the node that the GUID table holds for the GUID of the record. *)

Definition variant_of (md : Metadata) : option string :=
  if MaterialManager.falsy (md !! "variant_name") then None
  else md !! "variant_name".

Definition root_material_id_of (self : MaterialManager.MaterialManager)
    (md : Metadata) : option string :=
  (md !! "GUID"
     ≫= (fun g => MaterialManager._guid_to_root_materials_map self !! g))
    ≫= container_id.

Definition place_of (self : MaterialManager.MaterialManager) (md : Metadata)
  : option (string * string * option string * string) :=
  md !! "approximate_diameter" ≫= fun ad =>
  md !! "definition" ≫= fun def =>
  root_material_id_of self md ≫= fun rid =>
  Some (ad, def, variant_of md, rid).

(** A record that [initialize] stores: it has an id other than
    "empty_material". *)
Definition stored (md : Metadata) : Prop :=
  ∃ material_id, md !! "id" = Some material_id
                 ∧ material_id ≠ "empty_material".

(** A property of every leaf of the tree, given with its place. *)
Definition tree_Forall
    (P : string * string * option string * string ->
         MaterialManager.MaterialNode -> Prop)
    (t : gmap string (gmap string MaterialManager.MaterialNode)) : Prop :=
  map_Forall
    (fun d bucket =>
       map_Forall
         (fun m machine_node =>
            map_Forall (fun rid n => P (d, m, None, rid) n)
              (MaterialManager.material_map machine_node)
            ∧ map_Forall
                (fun v variant_node =>
                   map_Forall (fun rid n => P (d, m, Some v, rid) n)
                     (MaterialManager.material_map variant_node))
                (MaterialManager.children_map machine_node))
         bucket)
    t.

(** Lines 71-87 of [MaterialManager.initialize] on the machine node alone:
    the result and the machine node after the leaf of the record was
    placed. *)
Definition place_leaf (material_metadata : Metadata)
    (root_material_id : string) (machine_node : MaterialManager.MaterialNode)
  : Result unit * MaterialManager.MaterialNode :=
  let variant_name := material_metadata !! "variant_name" in
  if MaterialManager.falsy variant_name then
    (Ok tt,
     MaterialManager.set_material_map machine_node
       (<[root_material_id :=
            MaterialManager.MaterialNode_init (Some material_metadata)]>
          (MaterialManager.material_map machine_node)))
  else
    let variant_name := default EmptyString variant_name in
    let children1 :=
      match MaterialManager.children_map machine_node !! variant_name with
      | None => <[variant_name := MaterialManager.MaterialNode_init None]>
                  (MaterialManager.children_map machine_node)
      | Some _ => MaterialManager.children_map machine_node
      end in
    let variant_node :=
      default (MaterialManager.MaterialNode_init None)
        (children1 !! variant_name) in
    match MaterialManager.material_map variant_node !! root_material_id with
    | None =>
        (Ok tt,
         MaterialManager.set_children_map machine_node
           (<[variant_name :=
                MaterialManager.set_material_map variant_node
                  (<[root_material_id :=
                       MaterialManager.MaterialNode_init
                         (Some material_metadata)]>
                     (MaterialManager.material_map variant_node))]>
              children1))
    | Some _ =>
        (Raise RuntimeError,
         MaterialManager.set_children_map machine_node children1)
    end.

#[global] Instance stored_dec (md : Metadata) : Decision (stored md).
Proof.
  unfold stored. destruct (md !! "id") as [material_id|].
  - destruct (decide (material_id = "empty_material")) as [Heq|Hne].
    + right. intros (x & Hx & Hnot). congruence.
    + left. by exists material_id.
  - right. by intros (x & Hx & _).
Defined.

(** The stored records of a list whose place is [path], in the order of the
    list. *)
Definition records_at (self : MaterialManager.MaterialManager)
    (path : string * string * option string * string) (l : list Metadata)
  : list Metadata :=
  filter (fun md => stored md ∧ place_of self md = Some path) l.

(** The place of a record as the list of all records determines it: the
    root material of its GUID is the first root material of the list with
    that GUID. *)
Definition root_id_in (l : list Metadata) (md : Metadata) : option string :=
  (md !! "GUID" ≫= (fun g => first_root_material g l)) ≫= (.!! "id").

Definition place_in (l : list Metadata) (md : Metadata)
  : option (string * string * option string * string) :=
  md !! "approximate_diameter" ≫= fun ad =>
  md !! "definition" ≫= fun def =>
  root_id_in l md ≫= fun rid =>
  Some (ad, def, variant_of md, rid).

Definition records_in (path : string * string * option string * string)
    (l : list Metadata) : list Metadata :=
  filter (fun md => stored md ∧ place_in l md = Some path) l.

(** A stored record of the bucket [key] and the machine [machine_id]. *)
Definition in_machine (key machine_id : string) (md : Metadata) : Prop :=
  stored md
  ∧ md !! "approximate_diameter" = Some key
  ∧ md !! "definition" = Some machine_id.

#[global] Instance in_machine_dec key machine_id md :
  Decision (in_machine key machine_id md).
Proof. unfold in_machine. apply _. Defined.

(** The record that [getMaterial] resolves, read off the list of records:
    the machine is [machine_id] when the bucket has a stored record of it,
    else "fdmprinter" when the bucket has a stored record of that; under
    that machine, the last record at the variant's place when there is one,
    else the last record at the machine's own place. *)
Definition machine_in (l : list Metadata) (key machine_id : string)
  : option string :=
  if decide (Exists (in_machine key machine_id) l) then Some machine_id
  else if decide (Exists (in_machine key "fdmprinter") l)
       then Some "fdmprinter"
       else None.

Definition resolve_in (l : list Metadata) (machine_id : string)
    (variant_name : option string) (diameter : float)
    (root_material_id : string) : option Metadata :=
  let key := str (round diameter) in
  machine_in l key machine_id ≫= fun machine_key =>
  match variant_name
        ≫= (fun v => last (records_in
                             (key, machine_key, Some v, root_material_id) l))
  with
  | Some md => Some md
  | None => last (records_in (key, machine_key, None, root_material_id) l)
  end.

(** ** The variant records

    A variant record that [VariantManager.initialize] stores has an id other
    than "empty_variant"; its key is its machine [definition] and its
    [name]. *)

Definition variant_stored (md : Metadata) : Prop :=
  ∃ variant_id, md !! "id" = Some variant_id
                ∧ variant_id ≠ "empty_variant".

#[global] Instance variant_stored_dec (md : Metadata)
  : Decision (variant_stored md).
Proof.
  unfold variant_stored. destruct (md !! "id") as [variant_id|].
  - destruct (decide (variant_id = "empty_variant")) as [Heq|Hne].
    + right. intros (x & Hx & Hnot). congruence.
    + left. by exists variant_id.
  - right. by intros (x & Hx & _).
Defined.

Definition variant_key (md : Metadata) : option (string * string) :=
  md !! "definition" ≫= fun def =>
  md !! "name" ≫= fun name => Some (def, name).

Definition variants_at (key : string * string) (l : list Metadata)
  : list Metadata :=
  filter (fun md => variant_stored md ∧ variant_key md = Some key) l.

(** A stored variant record of the machine [machine_id]. *)
Definition variant_of_machine (machine_id : string) (md : Metadata) : Prop :=
  variant_stored md
  ∧ md !! "definition" = Some machine_id
  ∧ is_Some (md !! "name").

#[global] Instance variant_of_machine_dec machine_id md :
  Decision (variant_of_machine machine_id md).
Proof. unfold variant_of_machine. apply _. Defined.

(** ** More sample data *)

(** A variant record without [hardware_type]. *)
Definition ultimaker3_bb08_untyped : Metadata :=
  record [("id", "ultimaker3_bb08"); ("name", "BB 0.8");
          ("definition", "ultimaker3")].

Definition sample_materials : list Metadata :=
  [generic_pla; generic_pla_um3_aa04].

Definition sample_variant_path : string * string * option string * string :=
  ("3", "ultimaker3", Some "AA 0.4", "generic_pla").


(** ** The leaf of a query in a bucket

    The leaf that [getMaterial] loads when the bucket of its diameter is the
    one under [key]: below the machine node that the query uses there, the
    leaf of the variant when there is one, else the machine's own. *)

Definition material_node_in (self : MaterialManager.MaterialManager)
    (key machine_id : string) (variant_name : option string)
    (root_material_id : string) : option MaterialManager.MaterialNode :=
  match machine_key_of self key machine_id with
  | None => None
  | Some machine_key =>
      match variant_name
            ≫= (fun v => variant_material_at self key machine_key v
                           root_material_id) with
      | Some leaf => Some leaf
      | None => machine_material_at self key machine_key root_material_id
      end
  end.

(** A material for filament of 1.75 mm. *)
Definition generic_pla_175 : Metadata :=
  record [("id", "generic_pla_175"); ("GUID", "G2");
          ("base_file", "generic_pla_175"); ("definition", "fdmprinter");
          ("approximate_diameter", "2")].

(** A manager with the buckets "3" and "2". *)
Definition sample_manager_diameters : MaterialManager.MaterialManager :=
  (MaterialManager.initialize
     (MaterialManager.init
        (sample_registry [generic_pla; generic_pla_175] []
           (("generic_pla_175", ContainerObj 5) :: sample_containers)))).2.

(** The manager [sample_manager3] over a registry that also has a container
    for the machine-level record of "ultimaker3". *)
Definition sample_manager_both : MaterialManager.MaterialManager :=
  (MaterialManager.initialize
     (MaterialManager.init
        (sample_registry
           [generic_pla; generic_pla_um3_aa04; generic_pla_ultimaker3] []
           (("generic_pla_ultimaker3", ContainerObj 6)
              :: sample_containers)))).2.

(** A record of the default machine for a variant. *)
Definition generic_pla_fdm_aa04 : Metadata :=
  record [("id", "generic_pla_fdm_aa04"); ("GUID", "G1");
          ("base_file", "generic_pla"); ("definition", "fdmprinter");
          ("variant_name", "AA 0.4"); ("approximate_diameter", "3")].

Definition sample_manager_default : MaterialManager.MaterialManager :=
  (sample_initialize [generic_pla; generic_pla_fdm_aa04]).2.
(** * Properties *)

(** ** Diameter buckets *)

Lemma round_nearest (x : float) :
  (Qabs (x - inject_Z (round x)) <= 1 # 2)%Q.
Proof.
  unfold round.
  pose proof (Qfloor_le x) as Hlo.
  pose proof (Qlt_floor x) as Hhi.
  set (f := Qfloor x) in *.
  assert (Hf1 : (inject_Z (f + 1) == inject_Z f + 1)%Q)
    by (rewrite inject_Z_plus; reflexivity).
  rewrite Hf1 in Hhi.
  destruct (Qcompare (x - inject_Z f) (1 # 2)) eqn:Hc.
  - apply Qeq_alt in Hc. destruct (Z.even f).
    + apply Qabs_case; intros _; rewrite ?Hc; lra.
    + rewrite Hf1. apply Qabs_case; intros _; lra.
  - apply Qlt_alt in Hc. apply Qabs_case; intros _; lra.
  - apply Qgt_alt in Hc. rewrite Hf1. apply Qabs_case; intros _; lra.
Qed.


Lemma getMaterial_bucket self mid vn (d d' : float) rid :
  str (round d) = str (round d') →
  MaterialManager.getMaterial self mid vn d rid
  = MaterialManager.getMaterial self mid vn d' rid.
Proof. intros H. unfold MaterialManager.getMaterial. by rewrite H. Qed.

Lemma getAvailableMaterials_bucket self mid vn (d d' : float) :
  str (round d) = str (round d') →
  MaterialManager.getAvailableMaterials self mid vn d
  = MaterialManager.getAvailableMaterials self mid vn d'.
Proof. intros H. unfold MaterialManager.getAvailableMaterials. by rewrite H. Qed.

Lemma no_bucket self mid vn (d : float) rid :
  MaterialManager._diameter_machine_variant_material_map self
    !! str (round d) = None →
  MaterialManager.getMaterial self mid vn d rid = (Ok None, self)
  ∧ MaterialManager.getAvailableMaterials self mid vn d = Some ∅.
Proof.
  intros H. unfold MaterialManager.getMaterial,
    MaterialManager.getAvailableMaterials. by rewrite H.
Qed.

(** ** The variant table *)

(** C10. The [variant_type] argument of [getVariantMetadata] and
    [getVariant] has no effect on the result. *)
Theorem variant_type_ignored self machine_type_name variant_name
    (t1 t2 : option string) :
  VariantManager.getVariantMetadata self machine_type_name variant_name t1
  = VariantManager.getVariantMetadata self machine_type_name variant_name t2
  ∧ VariantManager.getVariant self machine_type_name variant_name t1
    = VariantManager.getVariant self machine_type_name variant_name t2.
Proof. split; reflexivity. Qed.

Lemma getVariantMetadata_unknown_machine self machine_type_name variant_name t :
  VariantManager._machine_to_variant_dict_map self !! machine_type_name = None →
  VariantManager.getVariantMetadata self machine_type_name variant_name t
  = Raise KeyError
  ∧ VariantManager.getVariant self machine_type_name variant_name t
    = (Raise KeyError, self).
Proof.
  intros H. unfold VariantManager.getVariantMetadata,
    VariantManager.getVariant. by rewrite H.
Qed.

Lemma getVariantMetadata_unknown_variant self machine_type_name variant_name t
    machine_dict :
  VariantManager._machine_to_variant_dict_map self !! machine_type_name
  = Some machine_dict →
  machine_dict !! variant_name = None →
  VariantManager.getVariantMetadata self machine_type_name variant_name t
  = Ok None
  ∧ VariantManager.getVariant self machine_type_name variant_name t
    = (Ok None, self).
Proof.
  intros H1 H2. unfold VariantManager.getVariantMetadata,
    VariantManager.getVariant. by rewrite H1, H2.
Qed.

(** C3. After [initialize] on the single variant "AA 0.4" of "ultimaker3",
    a query for a variant name that the machine does not have returns
    [None], but a query for the machine "ultimaker2", which has no entry,
    raises [KeyError] in [getVariantMetadata] and in [getVariant]. *)
Theorem getVariant_unknown_machine_raises :
  (sample_variant_initialize [ultimaker3_aa04]).1 = Ok tt
  ∧ VariantManager.getVariantMetadata sample_variant_manager
      "ultimaker3" "BB 0.8" None = Ok None
  ∧ (VariantManager.getVariant sample_variant_manager
       "ultimaker3" "BB 0.8" None).1 = Ok None
  ∧ VariantManager.getVariantMetadata sample_variant_manager
      "ultimaker2" "AA 0.4" None = Raise KeyError
  ∧ (VariantManager.getVariant sample_variant_manager
       "ultimaker2" "AA 0.4" None).1 = Raise KeyError.
Proof. repeat split; vm_compute; reflexivity. Qed.

(** ** The material tables: what a query reads *)

Lemma getAvailableMaterials_variant self mid vn (d : float) bucket vnode :
  MaterialManager._diameter_machine_variant_material_map self
    !! str (round d) = Some bucket →
  MaterialManager.find_variant_node
    (MaterialManager.find_machine_node self bucket mid) vn = Some vnode →
  MaterialManager.getAvailableMaterials self mid vn d
  = Some (MaterialManager.metadata <$> MaterialManager.material_map vnode).
Proof.
  intros Hb Hv. unfold MaterialManager.getAvailableMaterials.
  by rewrite Hb, Hv.
Qed.

Lemma getAvailableMaterials_no_variant self mid vn (d : float) bucket :
  MaterialManager._diameter_machine_variant_material_map self
    !! str (round d) = Some bucket →
  MaterialManager.find_variant_node
    (MaterialManager.find_machine_node self bucket mid) vn = None →
  MaterialManager.getAvailableMaterials self mid vn d = Some ∅.
Proof.
  intros Hb Hv. unfold MaterialManager.getAvailableMaterials.
  by rewrite Hb, Hv.
Qed.

(** C2. After [initialize] on the single record [generic_pla] of the machine
    "fdmprinter", the machine node of bucket "3" holds that material in its
    material map, and [getAvailableMaterials("fdmprinter", None, 2.85)]
    returns the empty dict. *)
Theorem getAvailableMaterials_skips_machine_map :
  (sample_initialize [generic_pla]).1 = Ok tt
  ∧ (fun n => MaterialManager.metadata <$> MaterialManager.material_map n)
      <$> machine_node_at sample_manager1 "3" "fdmprinter"
    = Some {[ "generic_pla" := Some generic_pla ]}
  ∧ MaterialManager.getAvailableMaterials sample_manager1 "fdmprinter" None
      float_2_85 = Some ∅
  ∧ MaterialManager.getAvailableMaterials sample_manager1 "ultimaker2" None
      float_2_85 = Some ∅.
Proof. repeat split; compute_done. Qed.

Lemma insert_material_machine_level md rid def ad t :
  MaterialManager.falsy (md !! "variant_name") = true →
  (MaterialManager.insert_material md rid def ad t).1 = Ok tt.
Proof. intros H. unfold MaterialManager.insert_material. by rewrite H. Qed.

Lemma insert_material_variant_duplicate md rid def ad t bucket mn v vnode leaf :
  md !! "variant_name" = Some v →
  MaterialManager.falsy (Some v) = false →
  t !! ad = Some bucket →
  bucket !! def = Some mn →
  MaterialManager.children_map mn !! v = Some vnode →
  MaterialManager.material_map vnode !! rid = Some leaf →
  (MaterialManager.insert_material md rid def ad t).1 = Raise RuntimeError.
Proof.
  intros Hv Hf Hb Hm Hvn Hleaf. unfold MaterialManager.insert_material.
  rewrite Hv, Hf, Hb. simpl. rewrite Hb. simpl. rewrite Hm. simpl.
  rewrite Hm. simpl. rewrite Hvn. simpl. rewrite Hvn. simpl.
  by rewrite Hleaf.
Qed.

(** C1. [initialize] on two machine-level records of the same material, the
    same machine and the same diameter returns without an error, and the
    leaf of the first record is replaced by the leaf of the second; two such
    variant-level records, and two variant records of the same machine and
    name, raise [RuntimeError]. *)
Theorem machine_material_overwritten :
  (sample_initialize [generic_pla]).1 = Ok tt
  ∧ MaterialManager.metadata
      <$> machine_material_at (sample_initialize [generic_pla]).2
            "3" "fdmprinter" "generic_pla"
    = Some (Some generic_pla)
  ∧ (sample_initialize [generic_pla; generic_pla_custom]).1 = Ok tt
  ∧ MaterialManager.metadata
      <$> machine_material_at
            (sample_initialize [generic_pla; generic_pla_custom]).2
            "3" "fdmprinter" "generic_pla"
    = Some (Some generic_pla_custom)
  ∧ (sample_initialize
       [generic_pla; generic_pla_um3_aa04; generic_pla_um3_aa04_custom]).1
    = Raise RuntimeError
  ∧ (sample_variant_initialize [ultimaker3_aa04; ultimaker3_aa04_copy]).1
    = Raise RuntimeError.
Proof. repeat split; compute_done. Qed.

(** ** Stepping through statements *)

Lemma bind_inv {S A B} (m : M S A) (k : A → M S B) s r s' :
  bind m k s = (r, s') →
  (∃ a s1, m s = (Ok a, s1) ∧ k a s1 = (r, s'))
  ∨ (∃ e, m s = (Raise e, s') ∧ r = Raise e).
Proof.
  unfold bind. destruct (m s) as [[a|e] s1]; intros H.
  - left. eauto.
  - right. inversion H; subst. eauto.
Qed.

Lemma for_each_preserves {A S} (P : S → Prop) (body : A → M S unit) l :
  (∀ x s r s', P s → body x s = (r, s') → P s') →
  ∀ s r s', P s → for_each body l s = (r, s') → P s'.
Proof.
  intros Hbody. induction l as [|x l IH]; intros s r s' Hs H; simpl in H.
  - inversion H; by subst.
  - apply bind_inv in H as [(a & s1 & H1 & H2)|(e & H1 & ->)]; eauto.
Qed.

(** ** What one round of each loop of [initialize] does *)

Lemma add_root_material_inv md s r s' :
  MaterialManager.add_root_material md s = (r, s') →
  s' = s
  ∨ (∃ mid g,
       r = Ok tt ∧ md !! "id" = Some mid ∧ mid ≠ "empty_material"
       ∧ md !! "base_file" = Some mid ∧ md !! "GUID" = Some g
       ∧ MaterialManager._guid_to_root_materials_map s !! g = None
       ∧ s' = MaterialManager.set_guid_map s
                (<[g := MaterialManager.MaterialNode_init (Some md)]>
                   (MaterialManager._guid_to_root_materials_map s))).
Proof.
  unfold MaterialManager.add_root_material, bind, getitem, get, put, ret, raise.
  intros H. repeat (case_match; simplify_eq/=); eauto 10.
Qed.

Lemma add_material_inv md s r s' :
  MaterialManager.add_material md s = (r, s') →
  s' = s
  ∨ (∃ mid g root rid def ad t,
       md !! "id" = Some mid ∧ mid ≠ "empty_material"
       ∧ md !! "GUID" = Some g
       ∧ MaterialManager._guid_to_root_materials_map s !! g = Some root
       ∧ container_id root = Some rid
       ∧ md !! "definition" = Some def
       ∧ md !! "approximate_diameter" = Some ad
       ∧ MaterialManager.insert_material md rid def ad
           (MaterialManager._diameter_machine_variant_material_map s) = (r, t)
       ∧ s' = MaterialManager.set_diameter_map s t).
Proof.
  unfold MaterialManager.add_material, MaterialManager.node_id, container_id,
    bind, getitem, get, put, ret, raise.
  intros H. repeat (case_match; simplify_eq/=); eauto.
  right. do 7 eexists. repeat split; eauto.
  by match goal with H : MaterialManager.metadata _ = _ |- _ => rewrite H end.
Qed.

(** ** Every leaf of an initialized manager has an id *)

Lemma map_Forall_alter {V} (P : string → V → Prop) (f : V → V) i
    (m : gmap string V) :
  map_Forall P m →
  (∀ x, m !! i = Some x → P i x → P i (f x)) →
  map_Forall P (alter f i m).
Proof.
  intros Hm Hf j y. rewrite lookup_alter. case_decide as Hij.
  - subst j. destruct (m !! i) as [x|] eqn:Hx; simpl; [|done].
    intros [= <-]. apply Hf; [done|]. by apply Hm.
  - apply Hm.
Qed.

Lemma init_node_wf : machine_node_wf (MaterialManager.MaterialNode_init None).
Proof. split; apply map_Forall_empty. Qed.

Lemma insert_material_wf md rid def ad t r t' :
  has_id (MaterialManager.MaterialNode_init (Some md)) →
  tree_wf t →
  MaterialManager.insert_material md rid def ad t = (r, t') →
  tree_wf t'.
Proof.
  intros Hleaf Ht. unfold MaterialManager.insert_material.
  set (t1 := match t !! ad with None => <[ad:=∅]> t | Some _ => t end).
  assert (Ht1 : tree_wf t1).
  { subst t1. destruct (t !! ad); [done|].
    apply map_Forall_insert_2; [apply map_Forall_empty|done]. }
  set (b := default ∅ (t1 !! ad)).
  assert (Hb : map_Forall (λ _ n, machine_node_wf n) b).
  { subst b. destruct (t1 !! ad) as [b|] eqn:E; simpl;
      [by eapply Ht1|apply map_Forall_empty]. }
  set (b1 := match b !! def with
             | None => <[def:=MaterialManager.MaterialNode_init None]> b
             | Some _ => b end).
  assert (Hb1 : map_Forall (λ _ n, machine_node_wf n) b1).
  { subst b1. destruct (b !! def); [done|].
    apply map_Forall_insert_2; [apply init_node_wf|done]. }
  set (mn := default (MaterialManager.MaterialNode_init None) (b1 !! def)).
  assert (Hmn : machine_node_wf mn).
  { subst mn. destruct (b1 !! def) as [n|] eqn:E; simpl;
      [by eapply Hb1|apply init_node_wf]. }
  destruct Hmn as [Hmm Hch].
  destruct (MaterialManager.falsy (md !! "variant_name")).
  { intros [= <- <-]. apply map_Forall_insert_2; [|done].
    apply map_Forall_insert_2; [|done].
    split; [|done]. simpl. by apply map_Forall_insert_2. }
  set (vn := default EmptyString (md !! "variant_name")).
  set (ch1 := match MaterialManager.children_map mn !! vn with
              | None => <[vn:=MaterialManager.MaterialNode_init None]>
                          (MaterialManager.children_map mn)
              | Some _ => MaterialManager.children_map mn end).
  assert (Hch1 : map_Forall
            (λ _ v, leaves_have_id (MaterialManager.material_map v)) ch1).
  { subst ch1. destruct (MaterialManager.children_map mn !! vn); [done|].
    apply map_Forall_insert_2; [apply map_Forall_empty|done]. }
  set (v := default (MaterialManager.MaterialNode_init None) (ch1 !! vn)).
  assert (Hv : leaves_have_id (MaterialManager.material_map v)).
  { subst v. destruct (ch1 !! vn) as [n|] eqn:E; simpl;
      [by eapply Hch1|apply map_Forall_empty]. }
  destruct (MaterialManager.material_map v !! rid); intros [= <- <-];
    (apply map_Forall_insert_2; [|done]);
    (apply map_Forall_insert_2; [|done]); split; simpl; try done.
  apply map_Forall_insert_2; [|done]. simpl.
  by apply map_Forall_insert_2.
Qed.

Lemma add_root_material_wf md s r s' :
  material_wf s → MaterialManager.add_root_material md s = (r, s') →
  material_wf s'.
Proof.
  intros Hs H.
  apply add_root_material_inv in H
    as [->|(mid & g & -> & Hid & _ & _ & _ & _ & ->)]; [done|].
  destruct Hs as (Hd & Hg & Ht). split; [done|]. split; [|done]. simpl.
  apply map_Forall_insert_2; [|done].
  unfold has_id, container_id. simpl. by rewrite Hid.
Qed.

Lemma add_material_wf md s r s' :
  material_wf s → MaterialManager.add_material md s = (r, s') →
  material_wf s'.
Proof.
  intros Hs H.
  apply add_material_inv in H
    as [->|(mid & g & root & rid & def & ad & t & Hid & _ & _ & _ & _ & _ & _
            & Hins & ->)]; [done|].
  destruct Hs as (Hd & Hg & Ht). split; [done|]. split; [done|]. simpl.
  eapply insert_material_wf; [|done|done].
  unfold has_id, container_id. simpl. by rewrite Hid.
Qed.

Lemma init_wf reg : material_wf (MaterialManager.init reg).
Proof. split; [done|]. split; apply map_Forall_empty. Qed.

Lemma initialize_wf reg r self :
  MaterialManager.initialize (MaterialManager.init reg) = (r, self) →
  material_wf self.
Proof.
  unfold MaterialManager.initialize. intros H.
  apply bind_inv in H as [(s0 & s1 & H1 & H)|(e & H1 & ->)];
    inversion H1; subst; clear H1.
  apply bind_inv in H as [(? & s1 & H1 & H)|(e & H1 & ->)].
  - eapply (for_each_preserves material_wf); [|..|exact H].
    + intros; by eapply add_material_wf.
    + eapply (for_each_preserves material_wf); [|apply init_wf|exact H1].
      intros; by eapply add_root_material_wf.
  - eapply (for_each_preserves material_wf); [|apply init_wf|exact H1].
    intros; by eapply add_root_material_wf.
Qed.

(** ** Loading the container of a node *)

Lemma getContainerOnNode_cached reg node c :
  MaterialManager.container node = Some c →
  MaterialManager._getContainerOnNode reg node = (Ok c, reg, node).
Proof. intros H. unfold MaterialManager._getContainerOnNode. by rewrite H. Qed.

Lemma getContainerOnNode_load reg node id :
  MaterialManager.container node = None →
  container_id node = Some id →
  MaterialManager._getContainerOnNode reg node
  = match instance_containers reg id with
    | [] => (Raise RuntimeError, (findInstanceContainers reg id).2, node)
    | c :: _ => (Ok c, (findInstanceContainers reg id).2,
                 MaterialManager.set_container node c)
    end.
Proof.
  unfold container_id, MaterialManager._getContainerOnNode. intros -> H.
  destruct (MaterialManager.metadata node) as [md|]; [|done]. simpl in H.
  rewrite H. simpl. by destruct (instance_containers reg id).
Qed.

Lemma getContainerOnNode_id reg node r reg' node' :
  MaterialManager._getContainerOnNode reg node = (r, reg', node') →
  container_id node' = container_id node
  ∧ MaterialManager.metadata node' = MaterialManager.metadata node.
Proof.
  unfold MaterialManager._getContainerOnNode.
  destruct (MaterialManager.container node); [by intros [= <- <- <-]|].
  destruct (MaterialManager.metadata node) as [md|] eqn:Hmd;
    [|by intros [= <- <- <-]].
  destruct (md !! "id") as [id|]; [|by intros [= <- <- <-]].
  simpl. destruct (instance_containers reg id); intros [= <- <- <-]; done.
Qed.

(** [getMaterial] in terms of the leaves of the tree. *)
Lemma getMaterial_unfold self mid vn (d : float) rid :
  MaterialManager.getMaterial self mid vn d rid
  = let key := str (round d) in
    match machine_key_of self key mid with
    | None => (Ok None, self)
    | Some mk =>
        match vn ≫= (λ v, (v,.) <$> variant_material_at self key mk v rid) with
        | Some (v, leaf) =>
            let '(r, reg', leaf') :=
              MaterialManager._getContainerOnNode
                (MaterialManager._container_registry self) leaf in
            (found r,
             MaterialManager.store_variant_material
               (MaterialManager.set_registry self reg') key mk v rid leaf')
        | None =>
            match machine_material_at self key mk rid with
            | Some leaf =>
                let '(r, reg', leaf') :=
                  MaterialManager._getContainerOnNode
                    (MaterialManager._container_registry self) leaf in
                (found r,
                 MaterialManager.store_machine_material
                   (MaterialManager.set_registry self reg') key mk rid leaf')
            | None => (Ok None, self)
            end
        end
    end.
Proof.
  unfold MaterialManager.getMaterial, machine_key_of, variant_material_at,
    variant_node_at, machine_material_at, machine_node_at,
    MaterialManager.find_machine_node,
    MaterialManager.get_variant_material,
    MaterialManager.get_machine_material.
  cbv zeta.
  destruct (MaterialManager._diameter_machine_variant_material_map self
              !! str (round d)) as [bucket|] eqn:Hb; simpl; [|done].
  destruct (bucket !! mid) as [mn|] eqn:Hm; simpl.
  - rewrite Hm. simpl. destruct vn as [v|]; simpl.
    + destruct (MaterialManager.children_map mn !! v) as [vnode|]; simpl.
      * destruct (MaterialManager.material_map vnode !! rid) as [leaf|]; simpl.
        -- destruct (MaterialManager._getContainerOnNode _ leaf)
             as [[[c|e] reg'] leaf']; done.
        -- destruct (MaterialManager.material_map mn !! rid); done.
      * destruct (MaterialManager.material_map mn !! rid); done.
    + destruct (MaterialManager.material_map mn !! rid); done.
  - destruct (bucket !! MaterialManager._default_machine_definition_id self)
      as [mn|] eqn:Hdef; simpl; [|done].
    rewrite Hdef. simpl. destruct vn as [v|]; simpl.
    + destruct (MaterialManager.children_map mn !! v) as [vnode|]; simpl.
      * destruct (MaterialManager.material_map vnode !! rid) as [leaf|]; simpl.
        -- destruct (MaterialManager._getContainerOnNode _ leaf)
             as [[[c|e] reg'] leaf']; done.
        -- destruct (MaterialManager.material_map mn !! rid); done.
      * destruct (MaterialManager.material_map mn !! rid); done.
    + destruct (MaterialManager.material_map mn !! rid); done.
Qed.

(** ** Reading the tree after a node was stored back *)

Lemma machine_node_at_alter self key mk f d m :
  machine_node_at (MaterialManager.alter_machine_node self key mk f) d m
  = if decide (d = key ∧ m = mk) then f <$> machine_node_at self d m
    else machine_node_at self d m.
Proof.
  unfold machine_node_at, MaterialManager.alter_machine_node. simpl.
  rewrite lookup_alter.
  destruct (decide (key = d)) as [->|Hd].
  - destruct (MaterialManager._diameter_machine_variant_material_map self !! d)
      as [bucket|]; simpl.
    + rewrite lookup_alter. destruct (decide (mk = m)) as [->|Hm].
      * by rewrite decide_True.
      * rewrite decide_False; [done|]. intros [_ ->]. done.
    + by case_decide.
  - rewrite decide_False; [done|]. intros [-> _]. done.
Qed.

Lemma machine_material_at_store_machine self key mk rid n d m r :
  machine_material_at
    (MaterialManager.store_machine_material self key mk rid n) d m r
  = if decide (d = key ∧ m = mk ∧ r = rid)
    then (λ _, n) <$> machine_material_at self d m r
    else machine_material_at self d m r.
Proof.
  unfold machine_material_at, MaterialManager.store_machine_material.
  rewrite machine_node_at_alter.
  destruct (decide (d = key ∧ m = mk)) as [[-> ->]|Hne].
  - destruct (machine_node_at self key mk) as [mn|]; simpl.
    + rewrite lookup_alter. destruct (decide (rid = r)) as [->|Hr].
      * by rewrite decide_True.
      * rewrite decide_False; [done|]. intros (_ & _ & ->). done.
    + by case_decide.
  - rewrite decide_False; [done|]. intros (-> & -> & _). by apply Hne.
Qed.

Lemma variant_node_at_store_machine self key mk rid n d m v :
  variant_node_at
    (MaterialManager.store_machine_material self key mk rid n) d m v
  = variant_node_at self d m v.
Proof.
  unfold variant_node_at, MaterialManager.store_machine_material.
  rewrite machine_node_at_alter. case_decide; [|done].
  by destruct (machine_node_at self d m).
Qed.

Lemma variant_material_at_store_machine self key mk rid n d m v r :
  variant_material_at
    (MaterialManager.store_machine_material self key mk rid n) d m v r
  = variant_material_at self d m v r.
Proof.
  unfold variant_material_at. by rewrite variant_node_at_store_machine.
Qed.

Lemma machine_material_at_store_variant self key mk vn rid n d m r :
  machine_material_at
    (MaterialManager.store_variant_material self key mk vn rid n) d m r
  = machine_material_at self d m r.
Proof.
  unfold machine_material_at, MaterialManager.store_variant_material.
  rewrite machine_node_at_alter. case_decide; [|done].
  by destruct (machine_node_at self d m).
Qed.

Lemma variant_material_at_store_variant self key mk vn rid n d m v r :
  variant_material_at
    (MaterialManager.store_variant_material self key mk vn rid n) d m v r
  = if decide (d = key ∧ m = mk ∧ v = vn ∧ r = rid)
    then (λ _, n) <$> variant_material_at self d m v r
    else variant_material_at self d m v r.
Proof.
  unfold variant_material_at, variant_node_at,
    MaterialManager.store_variant_material.
  rewrite machine_node_at_alter.
  destruct (decide (d = key ∧ m = mk)) as [[-> ->]|Hne].
  - destruct (machine_node_at self key mk) as [mn|]; simpl.
    + rewrite lookup_alter. destruct (decide (vn = v)) as [->|Hv].
      * destruct (MaterialManager.children_map mn !! v) as [vnode|]; simpl.
        -- rewrite lookup_alter. destruct (decide (rid = r)) as [->|Hr].
           ++ by rewrite decide_True.
           ++ rewrite decide_False; [done|]. intros (_ & _ & _ & ->). done.
        -- by case_decide.
      * rewrite decide_False; [done|]. intros (_ & _ & -> & _). done.
    + by case_decide.
  - rewrite decide_False; [done|]. intros (-> & -> & _). by apply Hne.
Qed.

Lemma machine_node_at_is_Some_alter self key mk f d m :
  is_Some (machine_node_at (MaterialManager.alter_machine_node self key mk f)
             d m)
  ↔ is_Some (machine_node_at self d m).
Proof.
  rewrite machine_node_at_alter. case_decide; [|done].
  by rewrite fmap_is_Some.
Qed.

Lemma machine_key_of_spec self key mid :
  machine_key_of self key mid
  = if decide (is_Some (machine_node_at self key mid)) then Some mid
    else if decide (is_Some (machine_node_at self key
                    (MaterialManager._default_machine_definition_id self)))
         then Some (MaterialManager._default_machine_definition_id self)
         else None.
Proof.
  unfold machine_key_of, machine_node_at, MaterialManager.find_machine_node.
  destruct (MaterialManager._diameter_machine_variant_material_map self !! key)
    as [bucket|]; simpl; [|done].
  destruct (bucket !! mid) as [mn|]; simpl; [done|].
  by destruct (bucket !! _).
Qed.

(** ** Loaded containers stay loaded *)

Lemma leaf_le_refl n : leaf_le n n.
Proof. by split. Qed.

Lemma leaf_le_trans n1 n2 n3 : leaf_le n1 n2 → leaf_le n2 n3 → leaf_le n1 n3.
Proof. intros [H1 H2] [H3 H4]. split; [congruence|eauto]. Qed.

Lemma option_leaf_le_refl (o : option MaterialManager.MaterialNode) :
  option_Forall2 leaf_le o o.
Proof. destruct o; constructor. apply leaf_le_refl. Qed.

Lemma option_leaf_le_trans (o1 o2 o3 : option MaterialManager.MaterialNode) :
  option_Forall2 leaf_le o1 o2 → option_Forall2 leaf_le o2 o3 →
  option_Forall2 leaf_le o1 o3.
Proof.
  intros H1 H2. destruct H1; inversion H2; subst; constructor.
  by eapply leaf_le_trans.
Qed.

Lemma cache_le_refl self : cache_le self self.
Proof.
  split; [done|]. split; [done|].
  repeat split; intros; apply option_leaf_le_refl.
Qed.

Lemma cache_le_trans s1 s2 s3 : cache_le s1 s2 → cache_le s2 s3 → cache_le s1 s3.
Proof.
  intros (Hd & Hm & Hmm & Hvm & Hg) (Hd' & Hm' & Hmm' & Hvm' & Hg').
  split; [congruence|]. split; [intros; by rewrite Hm|].
  repeat split; intros; eapply option_leaf_le_trans; eauto.
Qed.

Lemma getContainerOnNode_leaf_le reg node r reg' node' :
  MaterialManager._getContainerOnNode reg node = (r, reg', node') →
  leaf_le node node'.
Proof.
  intros H. split; [symmetry; by eapply getContainerOnNode_id|].
  intros c Hc. rewrite (getContainerOnNode_cached _ _ _ Hc) in H.
  by inversion H; subst.
Qed.

Lemma cache_le_store_variant self reg key mk v rid leaf leaf' :
  variant_material_at self key mk v rid = Some leaf →
  leaf_le leaf leaf' →
  cache_le self
    (MaterialManager.store_variant_material
       (MaterialManager.set_registry self reg) key mk v rid leaf').
Proof.
  intros Hleaf Hle. split; [done|]. split.
  { intros d m. unfold MaterialManager.store_variant_material.
    by rewrite machine_node_at_is_Some_alter. }
  split.
  { intros d m r. rewrite machine_material_at_store_variant.
    apply option_leaf_le_refl. }
  split; [|intros g; apply option_leaf_le_refl].
  intros d m v' r. rewrite variant_material_at_store_variant.
  case_decide as Heq; [|apply option_leaf_le_refl].
  destruct Heq as (-> & -> & -> & ->).
  change (variant_material_at (MaterialManager.set_registry self reg))
    with (variant_material_at self).
  rewrite Hleaf. by constructor.
Qed.

Lemma cache_le_store_machine self reg key mk rid leaf leaf' :
  machine_material_at self key mk rid = Some leaf →
  leaf_le leaf leaf' →
  cache_le self
    (MaterialManager.store_machine_material
       (MaterialManager.set_registry self reg) key mk rid leaf').
Proof.
  intros Hleaf Hle. split; [done|]. split.
  { intros d m. unfold MaterialManager.store_machine_material.
    by rewrite machine_node_at_is_Some_alter. }
  split.
  2:{ split; [|intros g; apply option_leaf_le_refl].
      intros d m v r. rewrite variant_material_at_store_machine.
      apply option_leaf_le_refl. }
  intros d m r. rewrite machine_material_at_store_machine.
  case_decide as Heq; [|apply option_leaf_le_refl].
  destruct Heq as (-> & -> & ->).
  change (machine_material_at (MaterialManager.set_registry self reg))
    with (machine_material_at self).
  rewrite Hleaf. by constructor.
Qed.

Lemma getMaterial_cache_le self mid vn (d : float) rid :
  cache_le self (MaterialManager.getMaterial self mid vn d rid).2.
Proof.
  rewrite getMaterial_unfold. cbv zeta.
  destruct (machine_key_of self (str (round d)) mid) as [mk|];
    [|apply cache_le_refl].
  destruct vn as [v|]; simpl.
  - destruct (variant_material_at self (str (round d)) mk v rid)
      as [leaf|] eqn:Hv; simpl.
    + destruct (MaterialManager._getContainerOnNode _ leaf)
        as [[r reg'] leaf'] eqn:Hc. simpl.
      eapply cache_le_store_variant; [done|].
      by eapply getContainerOnNode_leaf_le.
    + destruct (machine_material_at self (str (round d)) mk rid)
        as [leaf|] eqn:Hm; [|apply cache_le_refl].
      destruct (MaterialManager._getContainerOnNode _ leaf)
        as [[r reg'] leaf'] eqn:Hc. simpl.
      eapply cache_le_store_machine; [done|].
      by eapply getContainerOnNode_leaf_le.
  - destruct (machine_material_at self (str (round d)) mk rid)
      as [leaf|] eqn:Hm; [|apply cache_le_refl].
    destruct (MaterialManager._getContainerOnNode _ leaf)
      as [[r reg'] leaf'] eqn:Hc. simpl.
    eapply cache_le_store_machine; [done|].
    by eapply getContainerOnNode_leaf_le.
Qed.

Lemma getMaterialByGUID_cache_le self guid :
  cache_le self (MaterialManager.getMaterialByGUID self guid).2.
Proof.
  unfold MaterialManager.getMaterialByGUID.
  destruct (MaterialManager._guid_to_root_materials_map self !! guid)
    as [node|] eqn:Hg; [|apply cache_le_refl].
  destruct (MaterialManager._getContainerOnNode _ node)
    as [[r reg'] node'] eqn:Hc. simpl.
  split; [done|]. split; [done|].
  split; [intros; apply option_leaf_le_refl|].
  split; [intros; apply option_leaf_le_refl|].
  intros g. simpl. rewrite lookup_alter. case_decide as Heq.
  - subst g. rewrite Hg. constructor. by eapply getContainerOnNode_leaf_le.
  - apply option_leaf_le_refl.
Qed.

Lemma later_cache_le self self' : material_later self self' → cache_le self self'.
Proof.
  induction 1 as [|s' mid vn d rid _ IH|s' g _ IH|s' reg _ IH Hreg].
  - apply cache_le_refl.
  - eapply cache_le_trans; [exact IH|apply getMaterial_cache_le].
  - eapply cache_le_trans; [exact IH|apply getMaterialByGUID_cache_le].
  - eapply cache_le_trans; [exact IH|]. split; [done|]. split; [done|].
    repeat split; intros; apply option_leaf_le_refl.
Qed.

(** ** The leaves of an initialized manager *)

Lemma wf_machine_material self d m r n :
  material_wf self → machine_material_at self d m r = Some n → has_id n.
Proof.
  intros (_ & _ & Ht). unfold machine_material_at, machine_node_at.
  destruct (_ !! d) as [bucket|] eqn:Hb; simpl; [|done].
  destruct (bucket !! m) as [mn|] eqn:Hm; simpl; [|done].
  intros Hn. destruct (Ht _ _ Hb _ _ Hm) as [Hmm _]. by eapply Hmm.
Qed.

Lemma wf_variant_material self d m v r n :
  material_wf self → variant_material_at self d m v r = Some n → has_id n.
Proof.
  intros (_ & _ & Ht).
  unfold variant_material_at, variant_node_at, machine_node_at.
  destruct (_ !! d) as [bucket|] eqn:Hb; simpl; [|done].
  destruct (bucket !! m) as [mn|] eqn:Hm; simpl; [|done].
  destruct (MaterialManager.children_map mn !! v) as [vn|] eqn:Hv; simpl;
    [|done].
  intros Hn. destruct (Ht _ _ Hb _ _ Hm) as [_ Hch].
  by eapply (Hch _ _ Hv).
Qed.

Lemma initialized_leaves self :
  material_initialized self →
  MaterialManager._default_machine_definition_id self = "fdmprinter"
  ∧ (∀ g n, MaterialManager._guid_to_root_materials_map self !! g = Some n →
            has_id n)
  ∧ (∀ d m r n, machine_material_at self d m r = Some n → has_id n)
  ∧ (∀ d m v r n, variant_material_at self d m v r = Some n → has_id n).
Proof.
  intros (reg & self0 & Hinit & Hlater).
  apply initialize_wf in Hinit.
  apply later_cache_le in Hlater as (Hd & _ & Hmm & Hvm & Hg).
  split; [rewrite <-Hd; apply Hinit|].
  split; [|split].
  - intros g n Hn. specialize (Hg g). rewrite Hn in Hg.
    inversion Hg as [n0 ? [Hid _] Hn0|]; subst.
    unfold has_id. rewrite <-Hid.
    destruct Hinit as (_ & Hgw & _). by eapply Hgw.
  - intros d m r n Hn. specialize (Hmm d m r). rewrite Hn in Hmm.
    inversion Hmm as [n0 ? [Hid _] Hn0|]; subst.
    unfold has_id. rewrite <-Hid. by eapply wf_machine_material.
  - intros d m v r n Hn. specialize (Hvm d m v r). rewrite Hn in Hvm.
    inversion Hvm as [n0 ? [Hid _] Hn0|]; subst.
    unfold has_id. rewrite <-Hid. by eapply wf_variant_material.
Qed.

(** ** The default machine *)

Lemma machine_key_of_unknown self key mid :
  machine_node_at self key mid = None →
  machine_key_of self key mid
  = machine_key_of self key
      (MaterialManager._default_machine_definition_id self).
Proof.
  intros H. rewrite !machine_key_of_spec, H.
  rewrite decide_False; [|by intros [? ?]]. by case_decide.
Qed.

Lemma getMaterial_unknown_machine self mid vn (d : float) rid :
  machine_node_at self (str (round d)) mid = None →
  MaterialManager.getMaterial self mid vn d rid
  = MaterialManager.getMaterial self
      (MaterialManager._default_machine_definition_id self) vn d rid.
Proof.
  intros H. rewrite !getMaterial_unfold. cbv zeta.
  by rewrite (machine_key_of_unknown _ _ _ H).
Qed.

Lemma getAvailableMaterials_unknown_machine self mid vn (d : float) :
  machine_node_at self (str (round d)) mid = None →
  MaterialManager.getAvailableMaterials self mid vn d
  = MaterialManager.getAvailableMaterials self
      (MaterialManager._default_machine_definition_id self) vn d.
Proof.
  unfold machine_node_at, MaterialManager.getAvailableMaterials,
    MaterialManager.find_machine_node.
  destruct (_ !! str (round d)) as [bucket|]; simpl; [|done].
  intros ->. by destruct (bucket !! _).
Qed.

(** For a machine without a node in the bucket, both queries do what they
    do for the default machine; a material that the default machine holds
    without a variant is what [getMaterial] loads. *)
Lemma unknown_machine_uses_default self machine_id variant_name (d : float)
    root_material_id bucket :
  material_initialized self →
  MaterialManager._diameter_machine_variant_material_map self
    !! str (round d) = Some bucket →
  bucket !! machine_id = None →
  MaterialManager.getMaterial self machine_id variant_name d root_material_id
  = MaterialManager.getMaterial self "fdmprinter" variant_name d
      root_material_id
  ∧ MaterialManager.getAvailableMaterials self machine_id variant_name d
    = MaterialManager.getAvailableMaterials self "fdmprinter" variant_name d
  ∧ ∀ leaf,
      machine_material_at self (str (round d)) "fdmprinter" root_material_id
      = Some leaf →
      MaterialManager.getMaterial self machine_id None d root_material_id
      = let '(r, reg', leaf') :=
          MaterialManager._getContainerOnNode
            (MaterialManager._container_registry self) leaf in
        (found r,
         MaterialManager.store_machine_material
           (MaterialManager.set_registry self reg') (str (round d))
           "fdmprinter" root_material_id leaf').
Proof.
  intros Hinit Hb Hm.
  destruct (initialized_leaves _ Hinit) as (Hdef & _).
  assert (Hnone : machine_node_at self (str (round d)) machine_id = None).
  { unfold machine_node_at. by rewrite Hb. }
  split; [|split].
  - rewrite <-Hdef. by apply getMaterial_unknown_machine.
  - rewrite <-Hdef. by apply getAvailableMaterials_unknown_machine.
  - intros leaf Hleaf. rewrite getMaterial_unfold. cbv zeta.
    rewrite (machine_key_of_unknown _ _ _ Hnone), Hdef.
    rewrite machine_key_of_spec.
    assert (is_Some (machine_node_at self (str (round d)) "fdmprinter")) as Hs.
    { unfold machine_material_at in Hleaf.
      destruct (machine_node_at self (str (round d)) "fdmprinter");
        [by eexists|done]. }
    rewrite decide_True; [|done]. simpl. by rewrite Hleaf.
Qed.

Lemma pair_with_result {A S} (x : Result A * S) (r : Result A) :
  x.1 = r → x = (r, x.2).
Proof. destruct x. simpl. by intros ->. Qed.

Lemma sample_initialized l :
  (sample_initialize l).1 = Ok tt →
  material_initialized (sample_initialize l).2.
Proof.
  intros H. exists (sample_registry l [] sample_containers),
    (sample_initialize l).2.
  split; [by apply pair_with_result|apply later_now].
Qed.

Lemma sample_manager_initialized : material_initialized sample_manager.
Proof. apply sample_initialized. vm_compute. reflexivity. Qed.

Lemma sample_manager3_initialized : material_initialized sample_manager3.
Proof. apply sample_initialized. vm_compute. reflexivity. Qed.

Lemma sample_variant_manager_initialized :
  variant_initialized sample_variant_manager.
Proof.
  exists (sample_registry [] [ultimaker3_aa04] sample_containers),
    sample_variant_manager.
  split; [|apply vlater_now]. apply pair_with_result.
  vm_compute. reflexivity.
Qed.

(** C5. After [initialize] on the single record [generic_pla] of the machine
    "fdmprinter", the bucket "3" of the diameter 2.85 has no machine node
    for "custom_printer", and the node of "fdmprinter" holds the material in
    its material map. [getMaterial] for "custom_printer" finds the material
    there and returns its container, but [getAvailableMaterials] for
    "custom_printer" returns the empty dict, with or without a variant
    name. With a second record of "fdmprinter" for the variant "AA 0.4",
    [getAvailableMaterials] for "custom_printer" lists that record under the
    variant name, and still nothing without it. *)
Theorem unknown_machine_lists_nothing :
  (sample_initialize [generic_pla]).1 = Ok tt
  ∧ str (round float_2_85) = "3"
  ∧ machine_node_at sample_manager1 "3" "custom_printer" = None
  ∧ (fun n => MaterialManager.metadata <$> MaterialManager.material_map n)
      <$> machine_node_at sample_manager1 "3" "fdmprinter"
    = Some {[ "generic_pla" := Some generic_pla ]}
  ∧ (MaterialManager.getMaterial sample_manager1 "custom_printer" None
       float_2_85 "generic_pla").1 = Ok (Some (ContainerObj 1))
  ∧ MaterialManager.getAvailableMaterials sample_manager1 "custom_printer"
      None float_2_85 = Some ∅
  ∧ MaterialManager.getAvailableMaterials sample_manager1 "custom_printer"
      (Some "AA 0.4") float_2_85 = Some ∅
  ∧ (sample_initialize [generic_pla; generic_pla_fdm_aa04]).1 = Ok tt
  ∧ machine_node_at sample_manager_default "3" "custom_printer" = None
  ∧ (fun n => MaterialManager.metadata <$> MaterialManager.material_map n)
      <$> machine_node_at sample_manager_default "3" "fdmprinter"
    = Some {[ "generic_pla" := Some generic_pla ]}
  ∧ MaterialManager.getAvailableMaterials sample_manager_default
      "custom_printer" (Some "AA 0.4") float_2_85
    = Some {[ "generic_pla" := Some generic_pla_fdm_aa04 ]}
  ∧ MaterialManager.getAvailableMaterials sample_manager_default
      "custom_printer" None float_2_85 = Some ∅.
Proof. repeat split; compute_done. Qed.

(** ** The variant-specific material comes first *)

Example getMaterial_sample_variant :
  (MaterialManager.getMaterial sample_manager3 "ultimaker3" (Some "AA 0.4")
     float_2_85 "generic_pla").1 = Ok (Some (ContainerObj 2))
  ∧ (MaterialManager.getMaterial sample_manager3 "ultimaker3" None
       float_2_85 "generic_pla").1 = Raise RuntimeError
  ∧ (MaterialManager.getMaterial sample_manager3 "ultimaker2_plus" None
       float_2_85 "generic_pla").1 = Ok (Some (ContainerObj 1)).
Proof. vm_compute. repeat split; reflexivity. Qed.

(** ** The GUID table *)

Lemma add_root_material_ok md s s' :
  MaterialManager.add_root_material md s = (Ok tt, s') →
  MaterialManager._container_registry s' = MaterialManager._container_registry s
  ∧ ∀ g,
      MaterialManager._guid_to_root_materials_map s' !! g
      = match MaterialManager._guid_to_root_materials_map s !! g with
        | Some node => Some node
        | None =>
            if decide (is_root_material md = true ∧ md !! "GUID" = Some g)
            then Some (MaterialManager.MaterialNode_init (Some md))
            else None
        end.
Proof.
  unfold MaterialManager.add_root_material, is_root_material,
    bind, getitem, get, put, ret, raise.
  destruct (md !! "id") as [mid|] eqn:Hid; [|done].
  destruct (decide (mid = "empty_material")) as [Hs|Hs].
  { intros [= <-]. split; [done|]. intros g.
    destruct (_ !! g); [done|]. rewrite decide_False; [done|].
    intros [H _]. apply bool_decide_eq_true in H as [? _]. done. }
  destruct (md !! "GUID") as [guid|] eqn:Hguid; [|done].
  destruct (decide (Some mid = md !! "base_file")) as [Hb|Hb].
  - destruct (MaterialManager._guid_to_root_materials_map s !! guid)
      as [node|] eqn:Hg; intros [= <-]; (split; [done|]); intros g.
    + destruct (decide (g = guid)) as [->|Hne]; [by rewrite Hg|].
      destruct (_ !! g); [done|]. rewrite decide_False; [done|].
      intros [_ [= ->]]. done.
    + simpl. destruct (decide (g = guid)) as [->|Hne].
      * rewrite lookup_insert_eq, Hg. rewrite decide_True; [done|].
        split; [|done]. apply bool_decide_eq_true. by split.
      * rewrite lookup_insert_ne by done.
        destruct (_ !! g); [done|]. rewrite decide_False; [done|].
        intros [_ [= ->]]. done.
  - intros [= <-]. split; [done|]. intros g.
    destruct (_ !! g); [done|]. rewrite decide_False; [done|].
    intros [H _]. apply bool_decide_eq_true in H as [_ H]. by rewrite H in Hb.
Qed.

Lemma for_each_add_root_material l s s' :
  for_each MaterialManager.add_root_material l s = (Ok tt, s') →
  MaterialManager._container_registry s' = MaterialManager._container_registry s
  ∧ ∀ g,
      MaterialManager._guid_to_root_materials_map s' !! g
      = match MaterialManager._guid_to_root_materials_map s !! g with
        | Some node => Some node
        | None => (λ md, MaterialManager.MaterialNode_init (Some md))
                    <$> first_root_material g l
        end.
Proof.
  revert s. induction l as [|md l IH]; intros s H; simpl in H.
  - inversion H; subst. split; [done|]. intros g. by destruct (_ !! g).
  - apply bind_inv in H as [([] & s1 & H1 & H)|(e & H1 & [=])].
    apply add_root_material_ok in H1 as [Hr1 H1].
    apply IH in H as [Hr H]. split; [congruence|]. intros g.
    rewrite H, H1. unfold first_root_material. rewrite filter_cons.
    destruct (MaterialManager._guid_to_root_materials_map s !! g); [done|].
    by destruct (decide (is_root_material md = true ∧ md !! "GUID" = Some g)).
Qed.

Lemma add_material_frame md s r s' :
  MaterialManager.add_material md s = (r, s') →
  MaterialManager._container_registry s' = MaterialManager._container_registry s
  ∧ MaterialManager._guid_to_root_materials_map s'
    = MaterialManager._guid_to_root_materials_map s.
Proof.
  intros H. apply add_material_inv in H as [->|H]; [done|].
  destruct H as (? & ? & ? & ? & ? & ? & ? & _ & _ & _ & _ & _ & _ & _ & _ & ->).
  done.
Qed.

Lemma for_each_add_material_frame l s r s' :
  for_each MaterialManager.add_material l s = (r, s') →
  MaterialManager._container_registry s' = MaterialManager._container_registry s
  ∧ MaterialManager._guid_to_root_materials_map s'
    = MaterialManager._guid_to_root_materials_map s.
Proof.
  intros H.
  eapply (for_each_preserves
            (λ x, MaterialManager._container_registry x
                  = MaterialManager._container_registry s
                  ∧ MaterialManager._guid_to_root_materials_map x
                    = MaterialManager._guid_to_root_materials_map s));
    [|split; reflexivity|exact H].
  intros md x r0 x' [Hx1 Hx2] Hbody.
  apply add_material_frame in Hbody as [? ?]. split; congruence.
Qed.

Lemma first_root_material_id g l md :
  first_root_material g l = Some md →
  is_root_material md = true ∧ md !! "GUID" = Some g ∧ md ∈ l
  ∧ ∃ mid, md !! "id" = Some mid ∧ mid ≠ "empty_material"
           ∧ md !! "base_file" = Some mid.
Proof.
  unfold first_root_material. intros H. apply head_Some_elem_of in H.
  apply list_elem_of_filter in H as [[Hroot Hg] Hin].
  repeat split; try done. unfold is_root_material in Hroot.
  destruct (md !! "id") as [mid|]; [|done].
  apply bool_decide_eq_true in Hroot as [? ?]. eauto.
Qed.

Lemma getMaterialByGUID_unknown self g :
  MaterialManager._guid_to_root_materials_map self !! g = None →
  MaterialManager.getMaterialByGUID self g = (Ok None, self).
Proof. intros H. unfold MaterialManager.getMaterialByGUID. by rewrite H. Qed.

Lemma getMaterialByGUID_result self g node :
  MaterialManager._guid_to_root_materials_map self !! g = Some node →
  (MaterialManager.getMaterialByGUID self g).1
  = found (MaterialManager._getContainerOnNode
             (MaterialManager._container_registry self) node).1.1.
Proof.
  intros H. unfold MaterialManager.getMaterialByGUID. rewrite H.
  by destruct (MaterialManager._getContainerOnNode _ node) as [[r reg'] node'].
Qed.

Lemma add_root_material_total md s :
  has_id_and_guid md → (MaterialManager.add_root_material md s).1 = Ok tt.
Proof.
  intros [[mid Hid] Hguid].
  unfold MaterialManager.add_root_material, bind, getitem, get, put, ret, raise.
  rewrite Hid. simpl. case_decide as Hs; [done|].
  destruct Hguid as [g Hg]; [congruence|]. rewrite Hg. simpl.
  case_decide; [|done]. simpl. by destruct (_ !! g).
Qed.

Lemma for_each_add_root_material_total l s :
  Forall has_id_and_guid l →
  (for_each MaterialManager.add_root_material l s).1 = Ok tt.
Proof.
  intros Hl. revert s. induction Hl as [|md l Hmd _ IH]; intros s; [done|].
  simpl. unfold bind.
  pose proof (add_root_material_total md s Hmd) as H.
  destruct (MaterialManager.add_root_material md s) as [[[]|e] s1];
    [apply IH|done].
Qed.

(** C6. On records that all have an id and, unless "empty_material", a GUID,
    the first loop of [initialize] raises nothing, whichever records share a
    GUID, and afterwards the GUID table holds, for each GUID, a new node for
    the first record of the list that is not "empty_material", has its own
    id as [base_file] and has that GUID, and nothing for a GUID without such
    a record. [getMaterialByGUID] then returns [None] for a GUID without
    such a record, and for the others the first container that the registry
    has for the id of that first record. *)
Theorem guid_index_first_root reg r self :
  Forall has_id_and_guid (findContainersMetadata reg "material") →
  MaterialManager.initialize (MaterialManager.init reg) = (r, self) →
  (for_each MaterialManager.add_root_material
     (findContainersMetadata reg "material") (MaterialManager.init reg)).1
  = Ok tt
  ∧ ∀ g,
    MaterialManager._guid_to_root_materials_map self !! g
    = (λ md, MaterialManager.MaterialNode_init (Some md))
        <$> first_root_material g (findContainersMetadata reg "material")
    ∧ (is_Some (MaterialManager._guid_to_root_materials_map self !! g)
       ↔ ∃ md, md ∈ findContainersMetadata reg "material"
               ∧ is_root_material md = true ∧ md !! "GUID" = Some g)
    ∧ match first_root_material g (findContainersMetadata reg "material") with
      | None => MaterialManager.getMaterialByGUID self g = (Ok None, self)
      | Some md =>
          ∃ mid, md !! "id" = Some mid
                 ∧ (MaterialManager.getMaterialByGUID self g).1
                   = match instance_containers reg mid with
                     | [] => Raise RuntimeError
                     | c :: _ => Ok (Some c)
                     end
      end.
Proof.
  intros Hrecords Hinit.
  pose proof (for_each_add_root_material_total _ (MaterialManager.init reg)
                Hrecords) as Hpass1.
  split; [done|]. intros g.
  unfold MaterialManager.initialize in Hinit.
  apply bind_inv in Hinit as [(s0 & s0' & Hget & Hinit)|(e & Hget & _)];
    [|by inversion Hget].
  inversion Hget; subst s0 s0'; clear Hget. simpl in Hinit.
  destruct (for_each MaterialManager.add_root_material _ _) as [r1 s1] eqn:H1.
  simpl in Hpass1. subst r1.
  apply bind_inv in Hinit as [([] & s1' & H1' & H2)|(e & H1' & _)];
    [|by rewrite H1 in H1'].
  rewrite H1 in H1'. inversion H1'; subst s1'; clear H1'.
  apply for_each_add_root_material in H1 as [Hreg1 Hguid1].
  apply for_each_add_material_frame in H2 as [Hreg2 Hguid2].
  assert (Hlookup :
    MaterialManager._guid_to_root_materials_map self !! g
    = (λ md, MaterialManager.MaterialNode_init (Some md))
        <$> first_root_material g (findContainersMetadata reg "material")).
  { rewrite Hguid2, Hguid1. simpl. by rewrite lookup_empty. }
  split; [done|]. split.
  { rewrite Hlookup, fmap_is_Some. unfold first_root_material. split.
    - intros [md Hmd]. apply head_Some_elem_of in Hmd.
      apply list_elem_of_filter in Hmd as [[? ?] ?]. eauto.
    - intros (md & Hin & Hroot & Hg).
      assert (md ∈ filter (λ md, is_root_material md = true
                                 ∧ md !! "GUID" = Some g)
                     (findContainersMetadata reg "material")) as Hf
        by (apply list_elem_of_filter; eauto).
      destruct (filter _ _) as [|x xs]; [by apply elem_of_nil in Hf|].
      by eexists. }
  destruct (first_root_material g _) as [md|] eqn:Hfirst.
  - apply first_root_material_id in Hfirst
      as (_ & _ & _ & mid & Hid & _ & _).
    exists mid. split; [done|].
    rewrite (getMaterialByGUID_result _ _ _ Hlookup).
    rewrite (getContainerOnNode_load _ _ mid);
      [|done|by unfold container_id; simpl; rewrite Hid].
    rewrite Hreg2, Hreg1. simpl. by destruct (instance_containers reg mid).
  - by apply getMaterialByGUID_unknown.
Qed.

Lemma guid_index_first_root_witness :
  MaterialManager._guid_to_root_materials_map sample_manager !! "G1"
  = (λ md, MaterialManager.MaterialNode_init (Some md))
      <$> first_root_material "G1" [generic_pla; generic_pla_um3_aa04].
Proof.
  refine (proj1 (proj2 (guid_index_first_root
                   (sample_registry [generic_pla; generic_pla_um3_aa04] []
                      sample_containers)
                   (sample_initialize [generic_pla; generic_pla_um3_aa04]).1
                   sample_manager _ _) "G1")).
  - repeat constructor; try (by eexists); intros _; by eexists.
  - unfold sample_manager, sample_initialize.
    by destruct (MaterialManager.initialize _).
Defined.

Example first_root_material_sample :
  first_root_material "G1" [generic_pla_um3_aa04; generic_pla; generic_pla_custom]
  = Some generic_pla
  ∧ first_root_material "G2" [generic_pla_um3_aa04; generic_pla] = None.
Proof. split; compute_done. Qed.

(** ** Storing back a node that did not change *)

Lemma set_registry_same self :
  MaterialManager.set_registry self (MaterialManager._container_registry self)
  = self.
Proof. by destruct self. Qed.

Lemma alter_machine_node_same self key mk f :
  (∀ mn, machine_node_at self key mk = Some mn → f mn = mn) →
  MaterialManager.alter_machine_node self key mk f = self.
Proof.
  intros Hf. unfold MaterialManager.alter_machine_node.
  rewrite alter_id; [by destruct self|].
  intros bucket Hb. apply alter_id. intros mn Hm. apply Hf.
  unfold machine_node_at. rewrite Hb. done.
Qed.

Lemma store_material_same rid leaf node :
  MaterialManager.material_map node !! rid = Some leaf →
  MaterialManager.store_material rid leaf node = node.
Proof.
  intros H. unfold MaterialManager.store_material.
  rewrite alter_id; [by destruct node|]. intros x Hx. congruence.
Qed.

Lemma store_machine_material_same self key mk rid leaf :
  machine_material_at self key mk rid = Some leaf →
  MaterialManager.store_machine_material self key mk rid leaf = self.
Proof.
  intros H. apply alter_machine_node_same. intros mn Hmn.
  apply store_material_same. unfold machine_material_at in H.
  by rewrite Hmn in H.
Qed.

Lemma store_variant_material_same self key mk v rid leaf :
  variant_material_at self key mk v rid = Some leaf →
  MaterialManager.store_variant_material self key mk v rid leaf = self.
Proof.
  intros H. apply alter_machine_node_same. intros mn Hmn.
  unfold variant_material_at, variant_node_at in H. rewrite Hmn in H.
  simpl in H. rewrite alter_id; [by destruct mn|].
  intros vnode Hv. apply store_material_same. rewrite Hv in H. done.
Qed.

(** The tables after a call that only touched the registry. *)
Lemma store_machine_material_tables self reg key mk rid leaf :
  machine_material_at self key mk rid = Some leaf →
  MaterialManager.store_machine_material
    (MaterialManager.set_registry self reg) key mk rid leaf
  = MaterialManager.set_registry self reg.
Proof. intros H. by apply store_machine_material_same. Qed.

Lemma store_variant_material_tables self reg key mk v rid leaf :
  variant_material_at self key mk v rid = Some leaf →
  MaterialManager.store_variant_material
    (MaterialManager.set_registry self reg) key mk v rid leaf
  = MaterialManager.set_registry self reg.
Proof. intros H. by apply store_variant_material_same. Qed.

(** ** What [_getContainerOnNode] returns *)

Lemma getContainerOnNode_spec reg node id :
  container_id node = Some id →
  let out := MaterialManager._getContainerOnNode reg node in
  (is_Raise out.1.1 ↔ lookup_fails reg node)
  ∧ (is_Raise out.1.1 → out.1.1 = Raise RuntimeError ∧ out.2 = node)
  ∧ (∀ c, out.1.1 = Ok c → MaterialManager.container out.2 = Some c)
  ∧ (∀ c, MaterialManager.container node = Some c → out = (Ok c, reg, node)).
Proof.
  intros Hid. cbv zeta.
  destruct (MaterialManager.container node) as [c|] eqn:Hc.
  - rewrite (getContainerOnNode_cached _ _ _ Hc). simpl.
    split; [|split; [done|split]].
    + split; [done|]. intros [? _]. congruence.
    + intros c' [= <-]. done.
    + intros c' [= <-]. done.
  - rewrite (getContainerOnNode_load _ _ _ Hc Hid).
    destruct (instance_containers reg id) as [|c l] eqn:Hl; simpl.
    + split; [|done]. split; [|done]. intros _. split; [done|]. eauto.
    + split; [|split; [done|split; [|done]]].
      * split; [done|]. intros [_ (id' & Hid' & Hl')].
        rewrite Hid in Hid'. inversion Hid'; subst. congruence.
      * intros c' [= <-]. done.
Qed.

(** ** [getMaterial] in terms of the leaf it loads *)

Lemma machine_key_of_cache_le s s' key mid :
  cache_le s s' → machine_key_of s' key mid = machine_key_of s key mid.
Proof.
  intros (Hd & Hm & _). rewrite !machine_key_of_spec, <-Hd.
  destruct (decide (is_Some (machine_node_at s key mid))) as [H|H].
  - rewrite decide_True; [done|]. by apply Hm.
  - rewrite decide_False; [|by rewrite <-Hm].
    destruct (decide (is_Some (machine_node_at s key
                (MaterialManager._default_machine_definition_id s)))) as [H'|H'].
    + rewrite decide_True; [done|]. by apply Hm.
    + rewrite decide_False; [done|]. by rewrite <-Hm.
Qed.

Lemma getMaterial_none self mid vn (d : float) rid :
  material_node_of self mid vn d rid = None →
  MaterialManager.getMaterial self mid vn d rid = (Ok None, self).
Proof.
  unfold material_node_of. rewrite getMaterial_unfold. cbv zeta.
  destruct (machine_key_of self (str (round d)) mid) as [mk|]; [|done].
  destruct vn as [v|]; simpl.
  - destruct (variant_material_at self (str (round d)) mk v rid); [done|].
    simpl. by intros ->.
  - by intros ->.
Qed.

Lemma getMaterial_via_node self mid vn (d : float) rid leaf :
  material_node_of self mid vn d rid = Some leaf →
  let loaded :=
    MaterialManager._getContainerOnNode
      (MaterialManager._container_registry self) leaf in
  let out := MaterialManager.getMaterial self mid vn d rid in
  out.1 = found loaded.1.1
  ∧ (loaded.2 = leaf → out.2 = MaterialManager.set_registry self loaded.1.2)
  ∧ material_node_of out.2 mid vn d rid = Some loaded.2
  ∧ MaterialManager._container_registry out.2 = loaded.1.2.
Proof.
  intros Hleaf. cbv zeta.
  pose proof (getMaterial_cache_le self mid vn d rid) as Hle.
  unfold material_node_of in *. cbv zeta in *.
  rewrite (machine_key_of_cache_le _ _ _ _ Hle).
  rewrite getMaterial_unfold. cbv zeta.
  destruct (machine_key_of self (str (round d)) mid) as [mk|]; [|done].
  assert (∀ reg' leaf',
    machine_material_at self (str (round d)) mk rid = Some leaf →
    vn ≫= (λ v, variant_material_at self (str (round d)) mk v rid) = None →
    match vn ≫= (λ v, variant_material_at
                        (MaterialManager.store_machine_material
                           (MaterialManager.set_registry self reg')
                           (str (round d)) mk rid leaf')
                        (str (round d)) mk v rid) with
    | Some leaf0 => Some leaf0
    | None => machine_material_at
                (MaterialManager.store_machine_material
                   (MaterialManager.set_registry self reg')
                   (str (round d)) mk rid leaf') (str (round d)) mk rid
    end = Some leaf') as Hmachine.
  { intros reg' leaf' Hm Hv.
    rewrite machine_material_at_store_machine.
    rewrite decide_True by done.
    change (machine_material_at (MaterialManager.set_registry self reg'))
      with (machine_material_at self). rewrite Hm. simpl.
    destruct vn as [v|]; simpl in *; [|done].
    rewrite variant_material_at_store_machine.
    change (variant_material_at (MaterialManager.set_registry self reg'))
      with (variant_material_at self). by rewrite Hv. }
  destruct (vn ≫= (λ v, variant_material_at self (str (round d)) mk v rid))
    as [vleaf|] eqn:Hv.
  - inversion Hleaf; subst vleaf; clear Hleaf.
    destruct vn as [v|]; simpl in Hv; [|done]. simpl. rewrite Hv. simpl.
    destruct (MaterialManager._getContainerOnNode _ leaf)
      as [[r reg'] leaf'] eqn:Hc. simpl.
    split; [done|]. split; [|split; [|done]].
    + intros ->. by apply store_variant_material_tables.
    + rewrite variant_material_at_store_variant.
      rewrite decide_True by done.
      change (variant_material_at (MaterialManager.set_registry self reg'))
        with (variant_material_at self). by rewrite Hv.
  - assert (vn ≫= (λ v, (v,.) <$> variant_material_at self (str (round d))
                                   mk v rid) = None) as ->.
    { destruct vn as [v|]; simpl in *; [|done]. by rewrite Hv. }
    rewrite Hleaf.
    destruct (MaterialManager._getContainerOnNode _ leaf)
      as [[r reg'] leaf'] eqn:Hc. simpl.
    split; [done|]. split; [|split; [|done]].
    + intros ->. by apply store_machine_material_tables.
    + by apply Hmachine.
Qed.

Lemma getContainerOnNode_calls reg node :
  looked_up reg (MaterialManager._getContainerOnNode reg node).1.2 (Some node).
Proof.
  unfold MaterialManager._getContainerOnNode, looked_up, container_id.
  destruct (MaterialManager.container node) eqn:Hc; [by left|].
  destruct (MaterialManager.metadata node) as [md|] eqn:Hmd; [|by left].
  destruct (md !! "id") as [id|] eqn:Hid; [|by left]. simpl.
  right. exists node, id. rewrite Hmd. simpl.
  destruct (instance_containers reg id); by repeat split.
Qed.

Lemma getMaterial_calls self mid vn (d : float) rid :
  looked_up (MaterialManager._container_registry self)
    (MaterialManager._container_registry
       (MaterialManager.getMaterial self mid vn d rid).2)
    (material_node_of self mid vn d rid).
Proof.
  destruct (material_node_of self mid vn d rid) as [leaf|] eqn:Hleaf.
  - destruct (getMaterial_via_node _ _ _ _ _ _ Hleaf) as (_ & _ & _ & ->).
    apply getContainerOnNode_calls.
  - rewrite getMaterial_none by done. by left.
Qed.

Lemma getMaterialByGUID_calls self guid :
  looked_up (MaterialManager._container_registry self)
    (MaterialManager._container_registry
       (MaterialManager.getMaterialByGUID self guid).2)
    (MaterialManager._guid_to_root_materials_map self !! guid).
Proof.
  unfold MaterialManager.getMaterialByGUID.
  destruct (MaterialManager._guid_to_root_materials_map self !! guid)
    as [node|]; [|by left].
  pose proof (getContainerOnNode_calls
                (MaterialManager._container_registry self) node) as H.
  by destruct (MaterialManager._getContainerOnNode _ node) as [[r reg'] node'].
Qed.

(** ** The variant table of an initialized manager *)

Lemma add_variant_wf md s r s' :
  variant_wf s → VariantManager.add_variant md s = (r, s') → variant_wf s'.
Proof.
  unfold VariantManager.add_variant, variant_wf,
    bind, getitem, get, put, ret, raise.
  intros Hwf H.
  destruct (md !! "id") as [vid|] eqn:Hid; [|by inversion H; subst].
  case_decide; [by inversion H; subst|].
  destruct (md !! "name") as [name|]; [|by inversion H; subst].
  destruct (md !! "definition") as [def|]; [|by inversion H; subst].
  set (s1 := match VariantManager._machine_to_variant_dict_map s !! def with
             | None => _ | Some _ => _ end) in H.
  assert (∃ s2, s1 s = (Ok tt, s2)
                ∧ map_Forall
                    (λ _ machine_dict,
                       map_Forall
                         (λ _ entry,
                            is_Some (VariantManager.metadata entry !! "id"))
                         machine_dict)
                    (VariantManager._machine_to_variant_dict_map s2))
    as (s2 & Hs1 & Hwf2).
  { subst s1. destruct (_ !! def).
    - by exists s.
    - eexists. split; [done|]. simpl.
      apply map_Forall_insert_2; [apply map_Forall_empty|done]. }
  rewrite Hs1 in H.
  destruct (md !! "hardware_type"); [|by inversion H; subst].
  destruct (VariantManager._machine_to_variant_dict_map s2 !! def)
    as [vd|] eqn:Hvd; [|by inversion H; subst].
  simpl in H. destruct (vd !! name); inversion H; subst; [done|]. simpl.
  apply map_Forall_insert_2; [|done].
  apply map_Forall_insert_2; [by simpl; rewrite Hid|].
  by eapply Hwf2.
Qed.

Lemma variant_initialize_wf reg r self :
  VariantManager.initialize (VariantManager.init reg) = (r, self) →
  variant_wf self.
Proof.
  unfold VariantManager.initialize. intros H.
  apply bind_inv in H as [(s0 & s1 & H1 & H)|(e & H1 & ->)];
    inversion H1; subst; clear H1.
  eapply (for_each_preserves variant_wf); [| |exact H].
  - intros; by eapply add_variant_wf.
  - unfold variant_wf. simpl. apply map_Forall_empty.
Qed.

Lemma variant_le_refl e : variant_le e e.
Proof. by split. Qed.

Lemma variant_cache_le_refl self : variant_cache_le self self.
Proof.
  split; [done|]. intros m v. destruct (variant_at self m v); constructor.
  apply variant_le_refl.
Qed.

Lemma variant_cache_le_trans s1 s2 s3 :
  variant_cache_le s1 s2 → variant_cache_le s2 s3 → variant_cache_le s1 s3.
Proof.
  intros [Hm H] [Hm' H']. split; [intros; by rewrite Hm|]. intros m v.
  specialize (H m v). specialize (H' m v).
  destruct H as [e1 e2 [H1 H2]|]; inversion H' as [? e3 [H3 H4]|]; subst;
    constructor. split; [congruence|eauto].
Qed.

Lemma variant_cache_le_registry self reg :
  variant_cache_le self (VariantManager.set_registry self reg).
Proof. apply (variant_cache_le_refl self). Qed.

(** [getVariant] on an entry of the table. *)
Lemma getVariant_entry self m v t entry id :
  variant_at self m v = Some entry →
  VariantManager.metadata entry !! "id" = Some id →
  let out := VariantManager.getVariant self m v t in
  (is_Raise out.1 ↔ variant_lookup_fails
                      (VariantManager._container_registry self) entry)
  ∧ (is_Raise out.1 →
     out.1 = Raise RuntimeError
     ∧ VariantManager._machine_to_variant_dict_map out.2
       = VariantManager._machine_to_variant_dict_map self)
  ∧ (∀ c, out.1 = Ok (Some c) →
          ∃ entry', variant_at out.2 m v = Some entry'
                    ∧ VariantManager.container entry' = Some c)
  ∧ (∀ c, VariantManager.container entry = Some c →
          out = (Ok (Some c), self))
  ∧ variant_cache_le self out.2.
Proof.
  unfold variant_at, VariantManager.getVariant. cbv zeta.
  destruct (VariantManager._machine_to_variant_dict_map self !! m)
    as [md|] eqn:Hm; simpl; [|done].
  intros Hv Hid. rewrite Hv.
  destruct (VariantManager.container entry) as [c|] eqn:Hc; simpl.
  { split; [split; [done|intros [? _]; congruence]|].
    split; [done|]. split.
    - intros c' [= <-]. exists entry. by rewrite Hm.
    - split; [by intros c' [= <-]|apply variant_cache_le_refl]. }
  rewrite Hid.
  destruct (instance_containers (VariantManager._container_registry self) id)
    as [|c l] eqn:Hl; simpl.
  { split; [split; [intros _; split; eauto|done]|].
    split; [done|]. split; [done|]. split; [done|].
    apply variant_cache_le_registry. }
  split.
  { split; [done|]. intros [_ (id' & Hid' & Hl')].
    rewrite Hid in Hid'. inversion Hid'; subst. congruence. }
  split; [done|]. split.
  { intros c' [= <-]. eexists. rewrite lookup_insert_eq. simpl.
    rewrite lookup_insert_eq. done. }
  split; [done|]. split.
  - intros m'. simpl. destruct (decide (m = m')) as [<-|Hne].
    + rewrite lookup_insert_eq, Hm. split; intros _; by eexists.
    + by rewrite lookup_insert_ne.
  - intros m' v'. unfold variant_at. simpl.
    destruct (decide (m = m')) as [<-|Hne].
    + rewrite lookup_insert_eq, Hm. simpl.
      destruct (decide (v = v')) as [<-|Hnv].
      * rewrite lookup_insert_eq, Hv. constructor. split; [done|].
        simpl. congruence.
      * rewrite lookup_insert_ne by done.
        destruct (md !! v'); constructor. apply variant_le_refl.
    + rewrite lookup_insert_ne by done.
      destruct (_ !! m') as [md'|]; simpl; [|constructor].
      destruct (md' !! v'); constructor. apply variant_le_refl.
Qed.

Lemma getVariant_no_entry self m v t :
  variant_at self m v = None →
  (VariantManager.getVariant self m v t).2 = self.
Proof.
  unfold variant_at, VariantManager.getVariant.
  destruct (VariantManager._machine_to_variant_dict_map self !! m)
    as [md|]; simpl; [|done].
  by intros ->.
Qed.

Lemma getVariant_cache_le self m v t :
  variant_cache_le self (VariantManager.getVariant self m v t).2.
Proof.
  destruct (variant_at self m v) as [entry|] eqn:He.
  - destruct (VariantManager.metadata entry !! "id") as [id|] eqn:Hid.
    + by apply (getVariant_entry self m v t entry id).
    + unfold variant_at in He. unfold VariantManager.getVariant.
      destruct (VariantManager._machine_to_variant_dict_map self !! m)
        as [md|]; simpl in *; [|done].
      rewrite He, Hid. destruct (VariantManager.container entry);
        apply variant_cache_le_refl.
  - rewrite getVariant_no_entry by done. apply variant_cache_le_refl.
Qed.

Lemma variant_later_cache_le self self' :
  variant_later self self' → variant_cache_le self self'.
Proof.
  induction 1 as [|s' m v t _ IH|s' reg _ IH Hreg].
  - apply variant_cache_le_refl.
  - eapply variant_cache_le_trans; [exact IH|apply getVariant_cache_le].
  - eapply variant_cache_le_trans; [exact IH|apply variant_cache_le_registry].
Qed.

Lemma variant_initialized_entries self m v entry :
  variant_initialized self → variant_at self m v = Some entry →
  is_Some (VariantManager.metadata entry !! "id").
Proof.
  intros (reg & self0 & Hinit & Hlater) He.
  apply variant_initialize_wf in Hinit.
  apply variant_later_cache_le in Hlater as [_ Hle].
  specialize (Hle m v). rewrite He in Hle.
  inversion Hle as [e0 ? [Hmd _] He0|]; subst. rewrite <-Hmd.
  symmetry in He0. unfold variant_at in He0.
  destruct (VariantManager._machine_to_variant_dict_map self0 !! m)
    as [md|] eqn:Hm; simpl in He0; [|done].
  by eapply (Hinit _ _ Hm).
Qed.

(** ** A failed lookup is the only error of loading a container *)

(** C7. In an initialized manager, [getMaterial], [getMaterialByGUID] and
    [getVariant] on an entry of the table raise exactly when the node they
    resolve has no container yet and the registry returns no container for
    the id of its metadata; the error is then [RuntimeError], and the
    tables, so the container slot of the node, are as before the call. *)
Theorem lookup_failure_is_fatal :
  (∀ self, material_initialized self →
     (∀ mid vn (d : float) rid,
        let out := MaterialManager.getMaterial self mid vn d rid in
        (is_Raise out.1
         ↔ ∃ node, material_node_of self mid vn d rid = Some node
                   ∧ lookup_fails (MaterialManager._container_registry self)
                       node)
        ∧ (is_Raise out.1 →
           out.1 = Raise RuntimeError
           ∧ MaterialManager._diameter_machine_variant_material_map out.2
             = MaterialManager._diameter_machine_variant_material_map self
           ∧ MaterialManager._guid_to_root_materials_map out.2
             = MaterialManager._guid_to_root_materials_map self))
     ∧ (∀ guid,
          let out := MaterialManager.getMaterialByGUID self guid in
          (is_Raise out.1
           ↔ ∃ node, MaterialManager._guid_to_root_materials_map self !! guid
                     = Some node
                     ∧ lookup_fails (MaterialManager._container_registry self)
                         node)
          ∧ (is_Raise out.1 →
             out.1 = Raise RuntimeError
             ∧ MaterialManager._diameter_machine_variant_material_map out.2
               = MaterialManager._diameter_machine_variant_material_map self
             ∧ MaterialManager._guid_to_root_materials_map out.2
               = MaterialManager._guid_to_root_materials_map self)))
  ∧ (∀ self, variant_initialized self →
       ∀ m v t entry,
         variant_at self m v = Some entry →
         let out := VariantManager.getVariant self m v t in
         (is_Raise out.1
          ↔ variant_lookup_fails (VariantManager._container_registry self)
              entry)
         ∧ (is_Raise out.1 →
            out.1 = Raise RuntimeError
            ∧ VariantManager._machine_to_variant_dict_map out.2
              = VariantManager._machine_to_variant_dict_map self)).
Proof.
  split.
  - intros self Hinit.
    destruct (initialized_leaves _ Hinit) as (_ & Hguid & Hmm & Hvm).
    split.
    + intros mid vn d rid. cbv zeta.
      destruct (material_node_of self mid vn d rid) as [leaf|] eqn:Hleaf.
      * assert (has_id leaf) as [id Hid].
        { unfold material_node_of in Hleaf. cbv zeta in Hleaf.
          destruct (machine_key_of self (str (round d)) mid) as [mk|];
            [|done].
          destruct vn as [v|]; simpl in Hleaf.
          - destruct (variant_material_at self (str (round d)) mk v rid)
              as [vleaf|] eqn:Hv; simpl in Hleaf.
            + inversion Hleaf; subst. by eapply Hvm.
            + by eapply Hmm.
          - by eapply Hmm. }
        destruct (getMaterial_via_node _ _ _ _ _ _ Hleaf) as (Hr & Hsame & _ & _).
        destruct (getContainerOnNode_spec
                    (MaterialManager._container_registry self) leaf id Hid)
          as (Hiff & Hraise & _).
        rewrite Hr.
        destruct (MaterialManager._getContainerOnNode _ leaf)
          as [[r reg'] leaf'] eqn:Hc. simpl in *.
        assert (is_Raise (found r) ↔ is_Raise r) as Hfound
          by (by destruct r).
        rewrite Hfound. split.
        -- rewrite Hiff. split; [eauto|]. by intros (node & [= <-] & H).
        -- intros Hr'. destruct (Hraise Hr') as [-> ->].
           rewrite Hsame by done. done.
      * rewrite getMaterial_none by done. simpl.
        split; [|done]. split; [done|]. by intros (? & ? & _).
    + intros guid. cbv zeta. unfold MaterialManager.getMaterialByGUID.
      destruct (MaterialManager._guid_to_root_materials_map self !! guid)
        as [node|] eqn:Hnode.
      * destruct (Hguid _ _ Hnode) as [id Hid].
        destruct (getContainerOnNode_spec
                    (MaterialManager._container_registry self) node id Hid)
          as (Hiff & Hraise & _).
        destruct (MaterialManager._getContainerOnNode _ node)
          as [[r reg'] node'] eqn:Hc. simpl in *.
        assert (is_Raise (found r) ↔ is_Raise r) as Hfound
          by (by destruct r).
        rewrite Hfound. split.
        -- rewrite Hiff. split; [eauto|]. by intros (n & [= <-] & H).
        -- intros Hr'. destruct (Hraise Hr') as [-> ->].
           split; [done|]. split; [done|].
           apply alter_id. intros x Hx. congruence.
      * simpl. split; [|done]. split; [done|]. by intros (? & ? & _).
  - intros self Hinit m v t entry He.
    destruct (variant_initialized_entries _ _ _ _ Hinit He) as [id Hid].
    destruct (getVariant_entry self m v t entry id He Hid)
      as (Hiff & Hraise & _).
    split; done.
Qed.

(** ** A loaded container is returned without a lookup *)

Lemma material_node_of_path self mid vn (d : float) rid :
  material_node_of self mid vn d rid
  = material_path_of self mid vn d rid ≫= node_at_path self.
Proof.
  unfold material_node_of, material_path_of. cbv zeta.
  destruct (machine_key_of self (str (round d)) mid) as [mk|]; [|done].
  destruct vn as [v|]; simpl.
  - destruct (variant_material_at self (str (round d)) mk v rid)
      as [leaf|] eqn:Hv; simpl; [done|].
    by destruct (machine_material_at self (str (round d)) mk rid) eqn:Hm.
  - by destruct (machine_material_at self (str (round d)) mk rid) eqn:Hm.
Qed.

Lemma material_path_of_cache_le s s' mid vn (d : float) rid :
  cache_le s s' →
  material_path_of s' mid vn d rid = material_path_of s mid vn d rid.
Proof.
  intros Hle. unfold material_path_of. cbv zeta.
  rewrite (machine_key_of_cache_le _ _ _ _ Hle).
  destruct (machine_key_of s (str (round d)) mid) as [mk|]; [|done].
  destruct Hle as (_ & _ & Hmm & Hvm & _).
  specialize (Hmm (str (round d)) mk rid).
  assert ((λ _, (str (round d), mk, @None string, rid))
            <$> machine_material_at s' (str (round d)) mk rid
          = (λ _, (str (round d), mk, None, rid))
              <$> machine_material_at s (str (round d)) mk rid) as Hm
    by (by destruct Hmm).
  destruct vn as [v|]; simpl; [|done].
  specialize (Hvm (str (round d)) mk v rid). by destruct Hvm.
Qed.

Lemma node_at_path_cache_le s s' path :
  cache_le s s' →
  option_Forall2 leaf_le (node_at_path s path) (node_at_path s' path).
Proof.
  intros (_ & _ & Hmm & Hvm & _).
  destruct path as [[[key mk] [v|]] rid]; simpl; [apply Hvm|apply Hmm].
Qed.

Lemma getContainerOnNode_ok reg node c reg' node' :
  MaterialManager._getContainerOnNode reg node = (Ok c, reg', node') →
  MaterialManager.container node' = Some c.
Proof.
  unfold MaterialManager._getContainerOnNode.
  destruct (MaterialManager.container node) eqn:Hc; [by intros [= <- <- <-]|].
  destruct (MaterialManager.metadata node) as [md|]; [|done].
  destruct (md !! "id") as [id|]; [|done]. simpl.
  destruct (instance_containers reg id); [done|]. by intros [= <- <- <-].
Qed.

Lemma getMaterial_ok self mid vn (d : float) rid c self1 :
  MaterialManager.getMaterial self mid vn d rid = (Ok (Some c), self1) →
  ∃ path leaf,
    material_path_of self mid vn d rid = Some path
    ∧ node_at_path self1 path = Some leaf
    ∧ MaterialManager.container leaf = Some c.
Proof.
  intros Hget.
  destruct (material_node_of self mid vn d rid) as [leaf|] eqn:Hleaf.
  2:{ rewrite getMaterial_none in Hget by done. by inversion Hget. }
  destruct (getMaterial_via_node _ _ _ _ _ _ Hleaf) as (Hr & _ & Hnode & _).
  rewrite Hget in Hr, Hnode. simpl in Hr, Hnode.
  destruct (MaterialManager._getContainerOnNode _ leaf)
    as [[r reg'] leaf'] eqn:Hc. simpl in *.
  destruct r as [c'|e]; [|done]. inversion Hr; subst c'.
  apply getContainerOnNode_ok in Hc.
  rewrite material_node_of_path in Hnode.
  pose proof (getMaterial_cache_le self mid vn d rid) as Hle.
  rewrite Hget in Hle. simpl in Hle.
  rewrite (material_path_of_cache_le _ _ _ _ _ _ Hle) in Hnode.
  destruct (material_path_of self mid vn d rid) as [path|]; [|done].
  simpl in Hnode. eauto.
Qed.

Lemma getMaterial_loaded self mid vn (d : float) rid path leaf c :
  material_path_of self mid vn d rid = Some path →
  node_at_path self path = Some leaf →
  MaterialManager.container leaf = Some c →
  MaterialManager.getMaterial self mid vn d rid = (Ok (Some c), self).
Proof.
  intros Hpath Hnode Hc.
  assert (material_node_of self mid vn d rid = Some leaf) as Hleaf
    by (by rewrite material_node_of_path, Hpath).
  destruct (getMaterial_via_node _ _ _ _ _ _ Hleaf) as (Hr & Hsame & _ & _).
  rewrite (getContainerOnNode_cached _ _ _ Hc) in Hr, Hsame. simpl in *.
  rewrite set_registry_same in Hsame.
  destruct (MaterialManager.getMaterial self mid vn d rid) as [r s].
  simpl in *. by rewrite Hr, Hsame.
Qed.

Lemma getVariant_ok self m v t c self1 :
  VariantManager.getVariant self m v t = (Ok (Some c), self1) →
  ∃ entry, variant_at self1 m v = Some entry
           ∧ VariantManager.container entry = Some c.
Proof.
  intros Hget.
  destruct (variant_at self m v) as [entry|] eqn:He.
  - destruct (VariantManager.metadata entry !! "id") as [id|] eqn:Hid.
    + destruct (getVariant_entry self m v t entry id He Hid)
        as (_ & _ & Hok & _).
      rewrite Hget in Hok. simpl in Hok. by apply Hok.
    + unfold variant_at in He. unfold VariantManager.getVariant in Hget.
      destruct (VariantManager._machine_to_variant_dict_map self !! m)
        as [md|] eqn:Hm; simpl in *; [|done].
      rewrite He, Hid in Hget.
      destruct (VariantManager.container entry) as [c'|] eqn:Hc; [|done].
      inversion Hget; subst. exists entry. unfold variant_at.
      by rewrite Hm.
  - unfold variant_at in He. unfold VariantManager.getVariant in Hget.
    destruct (VariantManager._machine_to_variant_dict_map self !! m)
      as [md|]; simpl in *; [|done].
    by rewrite He in Hget.
Qed.

Lemma getVariant_calls self m v t :
  variant_looked_up (VariantManager._container_registry self)
    (VariantManager._container_registry
       (VariantManager.getVariant self m v t).2)
    (variant_at self m v).
Proof.
  unfold variant_looked_up, variant_at, VariantManager.getVariant.
  destruct (VariantManager._machine_to_variant_dict_map self !! m)
    as [md|]; simpl; [|by left].
  destruct (md !! v) as [entry|]; [|by left].
  destruct (VariantManager.container entry) eqn:Hc; [by left|].
  destruct (VariantManager.metadata entry !! "id") as [id|] eqn:Hid;
    [|by left].
  right. exists entry, id. simpl.
  destruct (instance_containers _ id); by repeat split.
Qed.

Lemma getVariant_loaded self m v t entry c :
  variant_at self m v = Some entry →
  VariantManager.container entry = Some c →
  VariantManager.getVariant self m v t = (Ok (Some c), self).
Proof.
  unfold variant_at, VariantManager.getVariant.
  destruct (VariantManager._machine_to_variant_dict_map self !! m)
    as [md|]; simpl; [|done].
  by intros -> ->.
Qed.

Lemma option_Forall2_Some_l {A} (R : A → A → Prop) x o :
  option_Forall2 R (Some x) o → ∃ y, o = Some y ∧ R x y.
Proof. inversion 1; subst. eauto. Qed.

(** C8. When a call of [getMaterial], [getMaterialByGUID] or [getVariant]
    has returned a container, every later call that resolves the same node,
    whatever was queried and whatever happened to the registry in between,
    returns that same container and leaves the manager and its registry,
    with the record of the lookups, as they are: no further lookup is made
    for the node. A call makes at most one lookup, for the node it resolves
    and only when that node has no container yet. *)
Theorem loaded_container_is_reused :
  (∀ self mid vn (d : float) rid c self1,
     MaterialManager.getMaterial self mid vn d rid = (Ok (Some c), self1) →
     ∀ self2 mid' vn' (d' : float) rid',
       material_later self1 self2 →
       material_path_of self2 mid' vn' d' rid'
       = material_path_of self mid vn d rid →
       MaterialManager.getMaterial self2 mid' vn' d' rid'
       = (Ok (Some c), self2))
  ∧ (∀ self guid c self1,
       MaterialManager.getMaterialByGUID self guid = (Ok (Some c), self1) →
       ∀ self2,
         material_later self1 self2 →
         MaterialManager.getMaterialByGUID self2 guid = (Ok (Some c), self2))
  ∧ (∀ self m v t c self1,
       VariantManager.getVariant self m v t = (Ok (Some c), self1) →
       ∀ self2 t',
         variant_later self1 self2 →
         VariantManager.getVariant self2 m v t' = (Ok (Some c), self2))
  ∧ (∀ self mid vn (d : float) rid,
       looked_up (MaterialManager._container_registry self)
         (MaterialManager._container_registry
            (MaterialManager.getMaterial self mid vn d rid).2)
         (material_node_of self mid vn d rid))
  ∧ (∀ self guid,
       looked_up (MaterialManager._container_registry self)
         (MaterialManager._container_registry
            (MaterialManager.getMaterialByGUID self guid).2)
         (MaterialManager._guid_to_root_materials_map self !! guid))
  ∧ (∀ self m v t,
       variant_looked_up (VariantManager._container_registry self)
         (VariantManager._container_registry
            (VariantManager.getVariant self m v t).2)
         (variant_at self m v)).
Proof.
  split; [|split; [|split; [|split; [exact getMaterial_calls|
    split; [exact getMaterialByGUID_calls|exact getVariant_calls]]]]].
  - intros self mid vn d rid c self1 Hget self2 mid' vn' d' rid' Hlater Hpath.
    apply getMaterial_ok in Hget as (path & leaf & Hp & Hnode & Hc).
    apply later_cache_le in Hlater.
    pose proof (node_at_path_cache_le _ _ path Hlater) as Hle.
    rewrite Hnode in Hle.
    apply option_Forall2_Some_l in Hle as (leaf2 & Hnode2 & _ & Hc2).
    eapply getMaterial_loaded; [by rewrite Hpath|done|by apply Hc2].
  - intros self guid c self1 Hget self2 Hlater.
    apply later_cache_le in Hlater as (_ & _ & _ & _ & Hg).
    specialize (Hg guid).
    unfold MaterialManager.getMaterialByGUID in Hget.
    destruct (MaterialManager._guid_to_root_materials_map self !! guid)
      as [node|] eqn:Hnode; [|done].
    destruct (MaterialManager._getContainerOnNode _ node)
      as [[r reg'] node'] eqn:Hc.
    destruct r as [c'|e]; [|done]. inversion Hget; subst c' self1.
    clear Hget. apply getContainerOnNode_ok in Hc.
    simpl in Hg. rewrite lookup_alter, decide_True, Hnode in Hg by done.
    apply option_Forall2_Some_l in Hg as (node2 & Hnode2 & _ & Hc2).
    unfold MaterialManager.getMaterialByGUID. rewrite Hnode2.
    rewrite (getContainerOnNode_cached _ _ c) by (by apply Hc2). simpl.
    rewrite set_registry_same. f_equal.
    rewrite alter_id; [by destruct self2|]. intros x Hx. congruence.
  - intros self m v t c self1 Hget self2 t' Hlater.
    apply getVariant_ok in Hget as (entry & He & Hc).
    apply variant_later_cache_le in Hlater as [_ Hle].
    specialize (Hle m v). rewrite He in Hle.
    apply option_Forall2_Some_l in Hle as (entry2 & He2 & _ & Hc2).
    eapply getVariant_loaded; [done|by apply Hc2].
Qed.

Lemma lookup_failure_is_fatal_witness :
  material_initialized sample_manager3
  ∧ (MaterialManager.getMaterial sample_manager3 "ultimaker3" None float_2_85
       "generic_pla").1 = Raise RuntimeError.
Proof.
  split; [apply sample_manager3_initialized|].
  apply (proj1 (proj1 lookup_failure_is_fatal sample_manager3
                  sample_manager3_initialized)
           "ultimaker3" None float_2_85 "generic_pla").
  vm_compute. exact I.
Defined.

Lemma loaded_container_is_reused_witness :
  let first :=
    MaterialManager.getMaterial sample_manager "fdmprinter" None float_2_85
      "generic_pla" in
  first = (Ok (Some (ContainerObj 1)), first.2)
  ∧ MaterialManager.getMaterial first.2 "ultimaker2_plus" None float_2_84
      "generic_pla"
    = (Ok (Some (ContainerObj 1)), first.2).
Proof.
  cbv zeta.
  assert (MaterialManager.getMaterial sample_manager "fdmprinter" None
            float_2_85 "generic_pla"
          = (Ok (Some (ContainerObj 1)),
             (MaterialManager.getMaterial sample_manager "fdmprinter" None
                float_2_85 "generic_pla").2)) as Hfirst.
  { apply pair_with_result. vm_compute. reflexivity. }
  split; [exact Hfirst|].
  apply (proj1 loaded_container_is_reused sample_manager "fdmprinter" None
           float_2_85 "generic_pla" (ContainerObj 1) _ Hfirst).
  - apply later_now.
  - vm_compute. reflexivity.
Defined.

(** ** What a query returns for the leaf it resolves *)

Lemma getContainerOnNode_result reg node id :
  container_id node = Some id →
  (MaterialManager._getContainerOnNode reg node).1.1
  = match MaterialManager.container node with
    | Some c => Ok c
    | None =>
        match instance_containers reg id with
        | [] => Raise RuntimeError
        | c :: _ => Ok c
        end
    end.
Proof.
  intros Hid. destruct (MaterialManager.container node) as [c|] eqn:Hc.
  - by rewrite (getContainerOnNode_cached _ _ _ Hc).
  - rewrite (getContainerOnNode_load _ _ _ Hc Hid).
    by destruct (instance_containers reg id).
Qed.

Lemma getContainerOnNode_node reg node id :
  container_id node = Some id →
  (MaterialManager._getContainerOnNode reg node).2
  = match (MaterialManager._getContainerOnNode reg node).1.1 with
    | Ok c => MaterialManager.set_container node c
    | Raise _ => node
    end.
Proof.
  intros Hid. destruct (MaterialManager.container node) as [c|] eqn:Hc.
  - rewrite (getContainerOnNode_cached _ _ _ Hc). simpl.
    destruct node; simpl in *. by subst.
  - rewrite (getContainerOnNode_load _ _ _ Hc Hid).
    by destruct (instance_containers reg id).
Qed.

Lemma material_node_of_in self mid vn (d : float) rid :
  material_node_of self mid vn d rid
  = material_node_in self (str (round d)) mid vn rid.
Proof. reflexivity. Qed.

Lemma getMaterial_result self mid vn (d : float) rid leaf id :
  material_node_in self (str (round d)) mid vn rid = Some leaf →
  container_id leaf = Some id →
  (MaterialManager.getMaterial self mid vn d rid).1
  = match MaterialManager.container leaf with
    | Some c => Ok (Some c)
    | None =>
        match instance_containers (MaterialManager._container_registry self) id
        with
        | [] => Raise RuntimeError
        | c :: _ => Ok (Some c)
        end
    end.
Proof.
  intros Hleaf Hid. rewrite <-material_node_of_in in Hleaf.
  destruct (getMaterial_via_node _ _ _ _ _ _ Hleaf) as (-> & _).
  rewrite (getContainerOnNode_result _ _ _ Hid).
  destruct (MaterialManager.container leaf); [done|].
  by destruct (instance_containers _ id).
Qed.

Lemma sample_manager_both_initialized : material_initialized sample_manager_both.
Proof.
  eexists _, sample_manager_both. split; [|apply later_now].
  apply pair_with_result. vm_compute. reflexivity.
Qed.

(** C4. In an initialized manager, when the machine node of the query has a
    leaf for the material both under the variant and in its own material
    map, [getMaterial] returns the container of the leaf under the variant:
    the container that this leaf holds, else the first one that the registry
    has for the id of this leaf, which the leaf holds from then on, and it
    raises [RuntimeError] when the registry has none. The leaf of the
    machine stays as it is. When the machine node has a leaf in neither, or
    there is no machine node, [getMaterial] returns [None]. *)
Theorem variant_material_first self machine_id (d : float) root_material_id :
  (∀ variant_name mk vleaf mleaf,
     material_initialized self →
     machine_key_of self (str (round d)) machine_id = Some mk →
     variant_material_at self (str (round d)) mk variant_name root_material_id
     = Some vleaf →
     machine_material_at self (str (round d)) mk root_material_id
     = Some mleaf →
     let out :=
       MaterialManager.getMaterial self machine_id (Some variant_name) d
         root_material_id in
     ∃ id,
       container_id vleaf = Some id
       ∧ out.1
         = match MaterialManager.container vleaf with
           | Some c => Ok (Some c)
           | None =>
               match instance_containers
                       (MaterialManager._container_registry self) id with
               | [] => Raise RuntimeError
               | c :: _ => Ok (Some c)
               end
           end
       ∧ variant_material_at out.2 (str (round d)) mk variant_name
           root_material_id
         = Some match out.1 with
                | Ok (Some c) => MaterialManager.set_container vleaf c
                | _ => vleaf
                end
       ∧ machine_material_at out.2 (str (round d)) mk root_material_id
         = Some mleaf)
  ∧ (∀ variant_name,
       (∀ mk, machine_key_of self (str (round d)) machine_id = Some mk →
              variant_name
                ≫= (λ v, variant_material_at self (str (round d)) mk v
                           root_material_id) = None
              ∧ machine_material_at self (str (round d)) mk root_material_id
                = None) →
       MaterialManager.getMaterial self machine_id variant_name d
         root_material_id
       = (Ok None, self)).
Proof.
  split.
  - intros v mk vleaf mleaf Hinit Hmk Hv Hm. cbv zeta.
    destruct (initialized_leaves _ Hinit) as (_ & _ & _ & Hids).
    destruct (Hids _ _ _ _ _ Hv) as [id Hid].
    exists id. split; [done|].
    assert (MaterialManager.getMaterial self machine_id (Some v) d
              root_material_id
            = (let '(r, reg', leaf') :=
                 MaterialManager._getContainerOnNode
                   (MaterialManager._container_registry self) vleaf in
               (found r,
                MaterialManager.store_variant_material
                  (MaterialManager.set_registry self reg') (str (round d)) mk
                  v root_material_id leaf'))) as ->.
    { rewrite getMaterial_unfold. cbv zeta. rewrite Hmk. simpl.
      by rewrite Hv. }
    pose proof (getContainerOnNode_result
                  (MaterialManager._container_registry self) _ _ Hid) as Hr.
    pose proof (getContainerOnNode_node
                  (MaterialManager._container_registry self) _ _ Hid) as Hn.
    destruct (MaterialManager._getContainerOnNode _ vleaf) as [[r reg'] leaf'].
    simpl in Hr, Hn. simpl. split; [|split].
    + rewrite Hr. destruct (MaterialManager.container vleaf); [done|].
      by destruct (instance_containers _ id).
    + rewrite variant_material_at_store_variant, decide_True by done.
      change (variant_material_at (MaterialManager.set_registry self reg'))
        with (variant_material_at self).
      rewrite Hv, Hn. by destruct r.
    + by rewrite machine_material_at_store_variant.
  - intros vn H. rewrite getMaterial_unfold. cbv zeta.
    destruct (machine_key_of self (str (round d)) machine_id) as [mk|];
      [|done].
    destruct (H mk eq_refl) as [Hv Hm]. rewrite Hm.
    destruct vn as [v|]; simpl in *; [|done]. by rewrite Hv.
Qed.

Lemma variant_material_first_witness :
  material_initialized sample_manager_both
  ∧ (MaterialManager.getMaterial sample_manager_both "ultimaker3"
       (Some "AA 0.4") float_2_85 "generic_pla").1
    = Ok (Some (ContainerObj 2))
  ∧ machine_material_at
      (MaterialManager.getMaterial sample_manager_both "ultimaker3"
         (Some "AA 0.4") float_2_85 "generic_pla").2
      (str (round float_2_85)) "ultimaker3" "generic_pla"
    = Some (MaterialManager.MaterialNode_init (Some generic_pla_ultimaker3)).
Proof.
  pose proof sample_manager_both_initialized as Hinit.
  destruct (proj1 (variant_material_first sample_manager_both "ultimaker3"
                     float_2_85 "generic_pla")
              "AA 0.4" "ultimaker3"
              (MaterialManager.MaterialNode_init (Some generic_pla_um3_aa04))
              (MaterialManager.MaterialNode_init (Some generic_pla_ultimaker3))
              Hinit)
    as (id & Hid & Hr & _ & Hm); [vm_compute; reflexivity..|].
  split; [exact Hinit|]. split; [|exact Hm].
  rewrite Hr. vm_compute in Hid. injection Hid as <-.
  vm_compute. reflexivity.
Defined.

(** The same query without the variant name returns the container of the
    machine's own leaf. *)
Example getMaterial_sample_both :
  (MaterialManager.getMaterial sample_manager_both "ultimaker3"
     (Some "AA 0.4") float_2_85 "generic_pla").1 = Ok (Some (ContainerObj 2))
  ∧ (MaterialManager.getMaterial sample_manager_both "ultimaker3" None
       float_2_85 "generic_pla").1 = Ok (Some (ContainerObj 6)).
Proof. vm_compute. split; reflexivity. Qed.

(** ** The bucket that a query reads *)

(** [getAvailableMaterials] in terms of the leaves of the tree. *)
Lemma getAvailableMaterials_leaves self mid vn (d : float) :
  ∃ dict,
    MaterialManager.getAvailableMaterials self mid vn d = Some dict
    ∧ ∀ rid,
        dict !! rid
        = MaterialManager.metadata
            <$> (machine_key_of self (str (round d)) mid
                   ≫= λ mk, vn ≫= λ v,
                     variant_material_at self (str (round d)) mk v rid).
Proof.
  unfold MaterialManager.getAvailableMaterials, machine_key_of,
    variant_material_at, variant_node_at, machine_node_at,
    MaterialManager.find_machine_node, MaterialManager.find_variant_node.
  destruct (MaterialManager._diameter_machine_variant_material_map self
              !! str (round d)) as [bucket|] eqn:Hb; simpl.
  2:{ exists ∅. split; [done|]. intros rid. by rewrite lookup_empty. }
  destruct (bucket !! mid) as [mn|] eqn:Hm; simpl.
  - rewrite Hm. simpl. destruct vn as [v|]; simpl.
    + destruct (MaterialManager.children_map mn !! v) as [vnode|]; simpl.
      * eexists. split; [done|]. intros rid. by rewrite lookup_fmap.
      * exists ∅. split; [done|]. intros rid. by rewrite lookup_empty.
    + exists ∅. split; [done|]. intros rid. by rewrite lookup_empty.
  - destruct (bucket !! MaterialManager._default_machine_definition_id self)
      as [mn|] eqn:Hdef; simpl.
    + rewrite Hdef. simpl. destruct vn as [v|]; simpl.
      * destruct (MaterialManager.children_map mn !! v) as [vnode|]; simpl.
        -- eexists. split; [done|]. intros rid. by rewrite lookup_fmap.
        -- exists ∅. split; [done|]. intros rid. by rewrite lookup_empty.
      * exists ∅. split; [done|]. intros rid. by rewrite lookup_empty.
    + exists ∅. split; [done|]. intros rid. by rewrite lookup_empty.
Qed.

(** C9. [getMaterial] and [getAvailableMaterials] read the bucket under the
    key [str(round(diameter))], the decimal rendering of an integer nearest
    to the diameter. [getAvailableMaterials] lists the leaves of that bucket
    under the variant of the machine node it uses; [getMaterial] returns the
    container of the leaf of that bucket that the query resolves, that is
    the one the leaf holds, else the first one of the registry for its id,
    and [None] when the bucket has no such leaf or does not exist. Two
    diameters with the same key give the same results. The literals 2.84
    and 2.85 give the key "3" and 1.75 gives the key "2". *)
Theorem diameter_bucket_key self mid vn (d : float) rid :
  (Qabs (d - inject_Z (round d)) <= 1 # 2)%Q
  ∧ (∃ dict,
       MaterialManager.getAvailableMaterials self mid vn d = Some dict
       ∧ ∀ r,
           dict !! r
           = MaterialManager.metadata
               <$> (machine_key_of self (str (round d)) mid
                      ≫= λ mk, vn ≫= λ v,
                        variant_material_at self (str (round d)) mk v r))
  ∧ (∀ leaf id,
       material_node_in self (str (round d)) mid vn rid = Some leaf →
       container_id leaf = Some id →
       (MaterialManager.getMaterial self mid vn d rid).1
       = match MaterialManager.container leaf with
         | Some c => Ok (Some c)
         | None =>
             match instance_containers
                     (MaterialManager._container_registry self) id with
             | [] => Raise RuntimeError
             | c :: _ => Ok (Some c)
             end
         end)
  ∧ (material_node_in self (str (round d)) mid vn rid = None →
     MaterialManager.getMaterial self mid vn d rid = (Ok None, self))
  ∧ (MaterialManager._diameter_machine_variant_material_map self
       !! str (round d) = None →
     MaterialManager.getMaterial self mid vn d rid = (Ok None, self)
     ∧ MaterialManager.getAvailableMaterials self mid vn d = Some ∅)
  ∧ (∀ d' : float,
       str (round d') = str (round d) →
       MaterialManager.getMaterial self mid vn d' rid
       = MaterialManager.getMaterial self mid vn d rid
       ∧ MaterialManager.getAvailableMaterials self mid vn d'
         = MaterialManager.getAvailableMaterials self mid vn d)
  ∧ str (round float_2_84) = "3"
  ∧ str (round float_2_85) = "3"
  ∧ str (round float_1_75) = "2".
Proof.
  split; [apply round_nearest|].
  split; [apply getAvailableMaterials_leaves|].
  split; [intros leaf id; apply getMaterial_result|].
  split.
  { intros H. apply getMaterial_none. by rewrite material_node_of_in. }
  split; [apply no_bucket|].
  split.
  { intros d' H. split; [by apply getMaterial_bucket
                        |by apply getAvailableMaterials_bucket]. }
  by vm_compute.
Qed.

Lemma diameter_bucket_key_witness :
  (MaterialManager.getMaterial sample_manager_diameters "fdmprinter" None
     float_2_84 "generic_pla").1 = Ok (Some (ContainerObj 1))
  ∧ (MaterialManager.getMaterial sample_manager_diameters "fdmprinter" None
       float_2_85 "generic_pla").1 = Ok (Some (ContainerObj 1))
  ∧ (MaterialManager.getMaterial sample_manager_diameters "fdmprinter" None
       float_1_75 "generic_pla_175").1 = Ok (Some (ContainerObj 5)).
Proof.
  split; [|split].
  - rewrite (proj1 (proj2 (proj2 (diameter_bucket_key sample_manager_diameters
                                    "fdmprinter" None float_2_84
                                    "generic_pla")))
               (MaterialManager.MaterialNode_init (Some generic_pla))
               "generic_pla"); vm_compute; reflexivity.
  - rewrite (proj1 (proj2 (proj2 (diameter_bucket_key sample_manager_diameters
                                    "fdmprinter" None float_2_85
                                    "generic_pla")))
               (MaterialManager.MaterialNode_init (Some generic_pla))
               "generic_pla"); vm_compute; reflexivity.
  - rewrite (proj1 (proj2 (proj2 (diameter_bucket_key sample_manager_diameters
                                    "fdmprinter" None float_1_75
                                    "generic_pla_175")))
               (MaterialManager.MaterialNode_init (Some generic_pla_175))
               "generic_pla_175"); vm_compute; reflexivity.
Defined.

(** The buckets keep the two filaments apart: a material of bucket "2" is
    not found with a diameter of bucket "3", nor the other way round. *)
Example buckets_sample :
  (MaterialManager.getMaterial sample_manager_diameters "fdmprinter" None
     float_2_85 "generic_pla_175").1 = Ok None
  ∧ (MaterialManager.getMaterial sample_manager_diameters "fdmprinter" None
       float_1_75 "generic_pla").1 = Ok None.
Proof. vm_compute. split; reflexivity. Qed.


(** * Further properties *)

(** ** Every leaf of the tree after [initialize] *)

Lemma for_each_preserves_elem {A S} (P : S → Prop) (body : A → M S unit) l :
  (∀ x s r s', x ∈ l → P s → body x s = (r, s') → P s') →
  ∀ s r s', P s → for_each body l s = (r, s') → P s'.
Proof.
  induction l as [|x l IH]; intros Hbody s r s' Hs H; simpl in H.
  - inversion H; by subst.
  - apply bind_inv in H as [(a & s1 & H1 & H2)|(e & H1 & ->)].
    + eapply IH; [|eapply Hbody; [|exact Hs|exact H1]|exact H2].
      * intros x' ? ? ? Hx'. apply Hbody. by apply list_elem_of_further.
      * apply list_elem_of_here.
    + eapply Hbody; [apply list_elem_of_here|exact Hs|exact H1].
Qed.

Lemma tree_Forall_node_at self P path n :
  tree_Forall P (MaterialManager._diameter_machine_variant_material_map self) →
  node_at_path self path = Some n → P path n.
Proof.
  intros Ht. destruct path as [[[d m] [v|]] rid]; simpl;
    unfold variant_material_at, variant_node_at, machine_material_at,
      machine_node_at.
  - destruct (_ !! d) as [bucket|] eqn:Hb; simpl; [|done].
    destruct (bucket !! m) as [mn|] eqn:Hm; simpl; [|done].
    destruct (MaterialManager.children_map mn !! v) as [vn|] eqn:Hv; simpl;
      [|done].
    intros Hn. destruct (Ht _ _ Hb _ _ Hm) as [_ Hch].
    by apply (Hch _ _ Hv).
  - destruct (_ !! d) as [bucket|] eqn:Hb; simpl; [|done].
    destruct (bucket !! m) as [mn|] eqn:Hm; simpl; [|done].
    intros Hn. destruct (Ht _ _ Hb _ _ Hm) as [Hmm _]. by apply Hmm.
Qed.

Lemma insert_material_Forall P md rid def ad t r t' :
  P (ad, def, variant_of md, rid)
    (MaterialManager.MaterialNode_init (Some md)) →
  tree_Forall P t →
  MaterialManager.insert_material md rid def ad t = (r, t') →
  tree_Forall P t'.
Proof.
  intros Hleaf Ht. unfold MaterialManager.insert_material.
  set (t1 := match t !! ad with None => <[ad:=∅]> t | Some _ => t end).
  assert (Ht1 : tree_Forall P t1).
  { subst t1. destruct (t !! ad); [done|].
    apply map_Forall_insert_2; [apply map_Forall_empty|done]. }
  set (b := default ∅ (t1 !! ad)).
  assert (Hb : map_Forall
            (λ m mn,
               map_Forall (λ rid n, P (ad, m, None, rid) n)
                 (MaterialManager.material_map mn)
               ∧ map_Forall
                   (λ v vn, map_Forall (λ rid n, P (ad, m, Some v, rid) n)
                              (MaterialManager.material_map vn))
                   (MaterialManager.children_map mn)) b).
  { subst b. destruct (t1 !! ad) as [b|] eqn:E; simpl;
      [by eapply Ht1|apply map_Forall_empty]. }
  set (b1 := match b !! def with
             | None => <[def:=MaterialManager.MaterialNode_init None]> b
             | Some _ => b end).
  assert (Hb1 : map_Forall
            (λ m mn,
               map_Forall (λ rid n, P (ad, m, None, rid) n)
                 (MaterialManager.material_map mn)
               ∧ map_Forall
                   (λ v vn, map_Forall (λ rid n, P (ad, m, Some v, rid) n)
                              (MaterialManager.material_map vn))
                   (MaterialManager.children_map mn)) b1).
  { subst b1. destruct (b !! def); [done|].
    apply map_Forall_insert_2; [|done]. split; apply map_Forall_empty. }
  set (mn := default (MaterialManager.MaterialNode_init None) (b1 !! def)).
  assert (Hmn : map_Forall (λ rid n, P (ad, def, None, rid) n)
                  (MaterialManager.material_map mn)
                ∧ map_Forall
                    (λ v vn, map_Forall (λ rid n, P (ad, def, Some v, rid) n)
                               (MaterialManager.material_map vn))
                    (MaterialManager.children_map mn)).
  { subst mn. destruct (b1 !! def) as [n|] eqn:E; simpl;
      [by eapply Hb1|split; apply map_Forall_empty]. }
  destruct Hmn as [Hmm Hch]. unfold variant_of in Hleaf.
  destruct (MaterialManager.falsy (md !! "variant_name")) eqn:Hf.
  { intros [= <- <-]. apply map_Forall_insert_2; [|done].
    apply map_Forall_insert_2; [|done].
    split; [|done]. simpl. by apply map_Forall_insert_2. }
  assert (md !! "variant_name"
          = Some (default EmptyString (md !! "variant_name"))) as Hvn
    by (by destruct (md !! "variant_name")).
  rewrite Hvn in Hleaf.
  set (vn := default EmptyString (md !! "variant_name")) in *.
  set (ch1 := match MaterialManager.children_map mn !! vn with
              | None => <[vn:=MaterialManager.MaterialNode_init None]>
                          (MaterialManager.children_map mn)
              | Some _ => MaterialManager.children_map mn end).
  assert (Hch1 : map_Forall
            (λ v x, map_Forall (λ rid n, P (ad, def, Some v, rid) n)
                      (MaterialManager.material_map x)) ch1).
  { subst ch1. destruct (MaterialManager.children_map mn !! vn); [done|].
    apply map_Forall_insert_2; [apply map_Forall_empty|done]. }
  set (v := default (MaterialManager.MaterialNode_init None) (ch1 !! vn)).
  assert (Hv : map_Forall (λ rid n, P (ad, def, Some vn, rid) n)
                 (MaterialManager.material_map v)).
  { subst v. destruct (ch1 !! vn) as [n|] eqn:E; simpl;
      [by eapply Hch1|apply map_Forall_empty]. }
  destruct (MaterialManager.material_map v !! rid); intros [= <- <-];
    (apply map_Forall_insert_2; [|done]);
    (apply map_Forall_insert_2; [|done]); split; simpl; try done.
  apply map_Forall_insert_2; [|done]. simpl.
  by apply map_Forall_insert_2.
Qed.

Lemma place_of_guid s s' md :
  MaterialManager._guid_to_root_materials_map s
  = MaterialManager._guid_to_root_materials_map s' →
  place_of s md = place_of s' md.
Proof. intros H. unfold place_of, root_material_id_of. by rewrite H. Qed.

Lemma add_root_material_tables md s r s' :
  MaterialManager.add_root_material md s = (r, s') →
  MaterialManager._diameter_machine_variant_material_map s'
  = MaterialManager._diameter_machine_variant_material_map s
  ∧ MaterialManager._container_registry s'
    = MaterialManager._container_registry s
  ∧ (map_Forall (λ _ n, ∃ md', n = MaterialManager.MaterialNode_init (Some md'))
       (MaterialManager._guid_to_root_materials_map s) →
     map_Forall (λ _ n, ∃ md', n = MaterialManager.MaterialNode_init (Some md'))
       (MaterialManager._guid_to_root_materials_map s')).
Proof.
  intros H. apply add_root_material_inv in H
    as [->|(mid & g & _ & _ & _ & _ & _ & _ & ->)]; [done|].
  split; [done|]. split; [done|]. intros Hg. simpl.
  apply map_Forall_insert_2; [by eexists|done].
Qed.

Lemma first_loop_tables l s r s' :
  for_each MaterialManager.add_root_material l s = (r, s') →
  MaterialManager._diameter_machine_variant_material_map s'
  = MaterialManager._diameter_machine_variant_material_map s
  ∧ MaterialManager._container_registry s'
    = MaterialManager._container_registry s
  ∧ (map_Forall (λ _ n, ∃ md', n = MaterialManager.MaterialNode_init (Some md'))
       (MaterialManager._guid_to_root_materials_map s) →
     map_Forall (λ _ n, ∃ md', n = MaterialManager.MaterialNode_init (Some md'))
       (MaterialManager._guid_to_root_materials_map s')).
Proof.
  intros H.
  eapply (for_each_preserves
            (λ x, MaterialManager._diameter_machine_variant_material_map x
                  = MaterialManager._diameter_machine_variant_material_map s
                  ∧ MaterialManager._container_registry x
                    = MaterialManager._container_registry s
                  ∧ (map_Forall
                       (λ _ n, ∃ md',
                          n = MaterialManager.MaterialNode_init (Some md'))
                       (MaterialManager._guid_to_root_materials_map s) →
                     map_Forall
                       (λ _ n, ∃ md',
                          n = MaterialManager.MaterialNode_init (Some md'))
                       (MaterialManager._guid_to_root_materials_map x))));
    [|by repeat split|exact H].
  intros md x r0 x' (Hx1 & Hx2 & Hx3) Hbody.
  apply add_root_material_tables in Hbody as (? & ? & ?).
  split; [congruence|]. split; [congruence|]. auto.
Qed.

(** The two loops of [initialize], apart. *)
Lemma initialize_inv reg r self :
  MaterialManager.initialize (MaterialManager.init reg) = (r, self) →
  ∃ r1 s1,
    for_each MaterialManager.add_root_material
      (findContainersMetadata reg "material") (MaterialManager.init reg)
    = (r1, s1)
    ∧ ((∃ e, r1 = Raise e ∧ r = Raise e ∧ self = s1)
       ∨ (r1 = Ok tt
          ∧ for_each MaterialManager.add_material
              (findContainersMetadata reg "material") s1 = (r, self))).
Proof.
  unfold MaterialManager.initialize. intros H.
  apply bind_inv in H as [(s0 & s0' & Hget & H)|(e & Hget & _)];
    [|by inversion Hget].
  inversion Hget; subst s0 s0'; clear Hget. simpl in H.
  destruct (for_each MaterialManager.add_root_material _ _) as [r1 s1] eqn:H1.
  exists r1, s1. split; [done|].
  apply bind_inv in H as [([] & s1' & H1' & H2)|(e & H1' & ->)];
    rewrite H1 in H1'; inversion H1'; subst; eauto.
Qed.

Lemma add_material_leaves (l : list Metadata) s0 md s r s' :
  md ∈ l →
  MaterialManager._guid_to_root_materials_map s
  = MaterialManager._guid_to_root_materials_map s0
  ∧ tree_Forall
      (λ p n, ∃ md', md' ∈ l ∧ stored md' ∧ place_of s0 md' = Some p
                     ∧ n = MaterialManager.MaterialNode_init (Some md'))
      (MaterialManager._diameter_machine_variant_material_map s) →
  MaterialManager.add_material md s = (r, s') →
  MaterialManager._guid_to_root_materials_map s'
  = MaterialManager._guid_to_root_materials_map s0
  ∧ tree_Forall
      (λ p n, ∃ md', md' ∈ l ∧ stored md' ∧ place_of s0 md' = Some p
                     ∧ n = MaterialManager.MaterialNode_init (Some md'))
      (MaterialManager._diameter_machine_variant_material_map s').
Proof.
  intros Hin [Hg Ht] H.
  apply add_material_inv in H
    as [->|(mid & g & root & rid & def & ad & t & Hid & Hne & Hguid & Hroot
            & Hrid & Hdef & Had & Hins & ->)]; [done|].
  split; [done|]. simpl.
  eapply insert_material_Forall; [|exact Ht|exact Hins].
  exists md. split; [done|]. split; [by exists mid|]. split; [|done].
  unfold place_of, root_material_id_of. rewrite Had, Hdef, Hguid. simpl.
  rewrite <-Hg, Hroot. simpl. by rewrite Hrid.
Qed.

Lemma tree_leaves_from_records reg r self :
  MaterialManager.initialize (MaterialManager.init reg) = (r, self) →
  ∀ path n,
    node_at_path self path = Some n →
    ∃ md, md ∈ findContainersMetadata reg "material"
          ∧ stored md
          ∧ place_of self md = Some path
          ∧ n = MaterialManager.MaterialNode_init (Some md).
Proof.
  intros Hinit path n Hn.
  apply initialize_inv in Hinit
    as (r1 & s1 & H1 & [(e & -> & -> & ->)|[-> H2]]).
  - apply first_loop_tables in H1 as (Ht & _).
    destruct path as [[[d m] [v|]] rid]; simpl in Hn;
      unfold variant_material_at, variant_node_at, machine_material_at,
        machine_node_at in Hn; rewrite Ht in Hn; simpl in Hn;
      by rewrite lookup_empty in Hn.
  - apply first_loop_tables in H1 as (Ht & _).
    assert (MaterialManager._guid_to_root_materials_map self
            = MaterialManager._guid_to_root_materials_map s1
            ∧ tree_Forall
                (λ p n, ∃ md', md' ∈ findContainersMetadata reg "material"
                               ∧ stored md' ∧ place_of s1 md' = Some p
                               ∧ n = MaterialManager.MaterialNode_init
                                       (Some md'))
                (MaterialManager._diameter_machine_variant_material_map self))
      as [Hg Hall].
    { eapply (for_each_preserves_elem
                (λ s, MaterialManager._guid_to_root_materials_map s
                      = MaterialManager._guid_to_root_materials_map s1
                      ∧ tree_Forall _
                          (MaterialManager._diameter_machine_variant_material_map s)));
        [|split; [reflexivity|]|exact H2].
      - intros md s r0 s' Hin Hs Hbody. by eapply add_material_leaves.
      - rewrite Ht. apply map_Forall_empty. }
    destruct (tree_Forall_node_at _ _ _ _ Hall Hn) as (md & ? & ? & Hp & ->).
    exists md. repeat split; try done. by rewrite (place_of_guid _ s1).
Qed.

(** X1. Every leaf of the tree that [initialize] builds, also when it
    raises, is a new node for a stored record of the list, and sits at the
    place of that record: in the bucket of its [approximate_diameter], under
    the machine of its [definition], under its variant name if it has one,
    at the id of the root material of its GUID. *)
Theorem tree_leaves_are_records reg r self :
  MaterialManager.initialize (MaterialManager.init reg) = (r, self) →
  ∀ path n,
    node_at_path self path = Some n →
    ∃ md, md ∈ findContainersMetadata reg "material"
          ∧ stored md
          ∧ place_of self md = Some path
          ∧ n = MaterialManager.MaterialNode_init (Some md).
Proof. exact (tree_leaves_from_records reg r self). Qed.

Lemma initialize_is_lazy reg r self :
  MaterialManager.initialize (MaterialManager.init reg) = (r, self) →
  MaterialManager._container_registry self = reg
  ∧ (∀ g n, MaterialManager._guid_to_root_materials_map self !! g = Some n →
            MaterialManager.container n = None)
  ∧ (∀ path n, node_at_path self path = Some n →
               MaterialManager.container n = None).
Proof.
  intros Hinit. split; [|split].
  - apply initialize_inv in Hinit
      as (r1 & s1 & H1 & [(e & -> & -> & ->)|[-> H2]]);
      apply first_loop_tables in H1 as (_ & Hreg & _); [done|].
    apply for_each_add_material_frame in H2 as [Hreg2 _].
    simpl in Hreg. congruence.
  - intros g n Hn.
    assert (map_Forall
              (λ _ n, ∃ md', n = MaterialManager.MaterialNode_init (Some md'))
              (MaterialManager._guid_to_root_materials_map self)) as Hall.
    { apply initialize_inv in Hinit
        as (r1 & s1 & H1 & [(e & -> & -> & ->)|[-> H2]]);
        apply first_loop_tables in H1 as (_ & _ & Hg).
      - apply Hg, map_Forall_empty.
      - apply for_each_add_material_frame in H2 as [_ ->].
        apply Hg, map_Forall_empty. }
    by destruct (Hall _ _ Hn) as [md ->].
  - intros path n Hn.
    by destruct (tree_leaves_from_records _ _ _ Hinit _ _ Hn)
      as (md & _ & _ & _ & ->).
Qed.

(** X2. [initialize], also when it raises, makes no call of
    [findInstanceContainers] and leaves the registry as it is, and no node
    of the GUID table or of the tree has a container afterwards. *)
Theorem initialize_loads_nothing reg r self :
  MaterialManager.initialize (MaterialManager.init reg) = (r, self) →
  MaterialManager._container_registry self = reg
  ∧ (∀ g n, MaterialManager._guid_to_root_materials_map self !! g = Some n →
            MaterialManager.container n = None)
  ∧ (∀ path n, node_at_path self path = Some n →
               MaterialManager.container n = None).
Proof. exact (initialize_is_lazy reg r self). Qed.

(** ** Reading the tree after a record was placed *)

Lemma variant_of_Some md v :
  variant_of md = Some v →
  md !! "variant_name" = Some v
  ∧ MaterialManager.falsy (md !! "variant_name") = false.
Proof.
  unfold variant_of.
  destruct (MaterialManager.falsy (md !! "variant_name")) eqn:Hf; [done|].
  by intros ->.
Qed.

Lemma variant_of_None md :
  variant_of md = None → MaterialManager.falsy (md !! "variant_name") = true.
Proof.
  unfold variant_of.
  destruct (MaterialManager.falsy (md !! "variant_name")) eqn:Hf; [done|].
  intros H. by rewrite H in Hf.
Qed.

Lemma insert_material_place md rid def ad t :
  MaterialManager.insert_material md rid def ad t
  = let bucket := default ∅ (t !! ad) in
    let '(r, mn') :=
      place_leaf md rid
        (default (MaterialManager.MaterialNode_init None) (bucket !! def)) in
    (r, <[ad := <[def := mn']> bucket]> t).
Proof.
  unfold MaterialManager.insert_material, place_leaf. cbv zeta.
  destruct (t !! ad) as [b|] eqn:Hb; simpl.
  - rewrite Hb. simpl. destruct (b !! def) as [mn|] eqn:Hm; simpl.
    + rewrite Hm. simpl.
      destruct (MaterialManager.falsy (md !! "variant_name")); [done|].
      by destruct (MaterialManager.material_map _ !! rid).
    + rewrite lookup_insert_eq. simpl.
      destruct (MaterialManager.falsy (md !! "variant_name"));
        [by rewrite insert_insert_eq|].
      destruct (MaterialManager.material_map _ !! rid);
        by rewrite insert_insert_eq.
  - rewrite lookup_insert_eq. simpl. rewrite lookup_empty. simpl.
    rewrite lookup_insert_eq. simpl.
    destruct (MaterialManager.falsy (md !! "variant_name"));
      [by rewrite !insert_insert_eq|].
    destruct (MaterialManager.material_map _ !! rid);
      by rewrite !insert_insert_eq.
Qed.

Lemma machine_node_at_insert self ad def mn d m :
  machine_node_at
    (MaterialManager.set_diameter_map self
       (<[ad := <[def := mn]>
                  (default ∅
                     (MaterialManager._diameter_machine_variant_material_map
                        self !! ad))]>
          (MaterialManager._diameter_machine_variant_material_map self)))
    d m
  = if decide (d = ad ∧ m = def) then Some mn else machine_node_at self d m.
Proof.
  unfold machine_node_at. simpl.
  destruct (decide (d = ad)) as [->|Hd].
  - rewrite lookup_insert_eq. simpl.
    destruct (decide (m = def)) as [->|Hm].
    + rewrite lookup_insert_eq. by rewrite decide_True.
    + rewrite lookup_insert_ne by done.
      rewrite decide_False by (by intros [_ ?]).
      by destruct (_ !! ad).
  - rewrite lookup_insert_ne by done.
    by rewrite decide_False by (by intros [? _]).
Qed.

(** The leaves of the machine node after [place_leaf]. *)
Lemma place_leaf_spec md rid mn r mn' :
  place_leaf md rid mn = (r, mn') →
  let leaf := MaterialManager.MaterialNode_init (Some md) in
  let variant_leaf v k :=
    MaterialManager.children_map mn !! v
      ≫= (λ n, MaterialManager.material_map n !! k) in
  let variant_leaf' v k :=
    MaterialManager.children_map mn' !! v
      ≫= (λ n, MaterialManager.material_map n !! k) in
  match variant_of md with
  | None =>
      r = Ok tt
      ∧ (∀ k, MaterialManager.material_map mn' !! k
              = if decide (k = rid) then Some leaf
                else MaterialManager.material_map mn !! k)
      ∧ (∀ v k, variant_leaf' v k = variant_leaf v k)
  | Some vn =>
      (∀ k, MaterialManager.material_map mn' !! k
            = MaterialManager.material_map mn !! k)
      ∧ match variant_leaf vn rid with
        | Some _ =>
            r = Raise RuntimeError
            ∧ ∀ v k, variant_leaf' v k = variant_leaf v k
        | None =>
            r = Ok tt
            ∧ ∀ v k, variant_leaf' v k
                     = if decide (v = vn ∧ k = rid) then Some leaf
                       else variant_leaf v k
        end
  end.
Proof.
  unfold place_leaf, variant_of. cbv zeta.
  destruct (MaterialManager.falsy (md !! "variant_name")) eqn:Hf.
  { intros [= <- <-]. split; [done|]. split; [|done]. intros k. simpl.
    destruct (decide (k = rid)) as [->|Hk];
      [by rewrite lookup_insert_eq|by rewrite lookup_insert_ne]. }
  destruct (md !! "variant_name") as [vn|] eqn:Hvn; [|done]. simpl.
  destruct (MaterialManager.children_map mn !! vn) as [vnode|] eqn:Hv; simpl.
  - rewrite Hv. simpl.
    destruct (MaterialManager.material_map vnode !! rid) as [old|] eqn:Hold;
      intros [= <- <-]; (split; [done|]); (split; [done|]); intros v k; simpl.
    + destruct (decide (v = vn)) as [->|Hne]; [by rewrite Hv|done].
    + destruct (decide (v = vn)) as [->|Hne].
      * rewrite lookup_insert_eq. simpl.
        destruct (decide (k = rid)) as [->|Hk].
        -- rewrite lookup_insert_eq. by rewrite decide_True.
        -- rewrite lookup_insert_ne by done.
           rewrite decide_False by (by intros [_ ?]). by rewrite Hv.
      * rewrite lookup_insert_ne by done.
        by rewrite decide_False by (by intros [? _]).
  - rewrite lookup_insert_eq. simpl. rewrite lookup_empty.
    intros [= <- <-]. split; [done|]. split; [done|]. intros v k. simpl.
    destruct (decide (v = vn)) as [->|Hne].
    * rewrite lookup_insert_eq. simpl.
      destruct (decide (k = rid)) as [->|Hk].
      -- rewrite lookup_insert_eq. by rewrite decide_True.
      -- rewrite lookup_insert_ne by done. rewrite lookup_empty.
         rewrite decide_False by (by intros [_ ?]). by rewrite Hv.
    * rewrite !lookup_insert_ne by done.
      by rewrite decide_False by (by intros [? _]).
Qed.

(** The leaves of the tree after [insert_material]: a variant-specific
    record whose place is taken raises and changes no leaf; any other
    record becomes the leaf at its place and changes no other leaf. *)
Lemma insert_material_node_at self md rid def ad r t' :
  MaterialManager.insert_material md rid def ad
    (MaterialManager._diameter_machine_variant_material_map self) = (r, t') →
  let p := (ad, def, variant_of md, rid) in
  let self' := MaterialManager.set_diameter_map self t' in
  match variant_of md, node_at_path self p with
  | Some _, Some _ =>
      r = Raise RuntimeError
      ∧ ∀ q, node_at_path self' q = node_at_path self q
  | _, _ =>
      r = Ok tt
      ∧ ∀ q, node_at_path self' q
             = if decide (q = p)
               then Some (MaterialManager.MaterialNode_init (Some md))
               else node_at_path self q
  end.
Proof.
  rewrite insert_material_place. cbv zeta.
  set (mn := default (MaterialManager.MaterialNode_init None)
               (default ∅ (_ !! ad) !! def)).
  assert (mn = default (MaterialManager.MaterialNode_init None)
                 (machine_node_at self ad def)) as Hmn.
  { subst mn. unfold machine_node_at. by destruct (_ !! ad). }
  destruct (place_leaf md rid mn) as [r0 mn'] eqn:Hplace.
  intros [= <- <-].
  pose proof (place_leaf_spec _ _ _ _ _ Hplace) as Hspec. cbv zeta in Hspec.
  assert (∀ k, MaterialManager.material_map mn !! k
               = machine_material_at self ad def k) as Hmm.
  { intros k. rewrite Hmn. unfold machine_material_at.
    by destruct (machine_node_at self ad def). }
  assert (∀ v k, MaterialManager.children_map mn !! v
                   ≫= (λ n, MaterialManager.material_map n !! k)
                 = variant_material_at self ad def v k) as Hvm.
  { intros v k. rewrite Hmn. unfold variant_material_at, variant_node_at.
    by destruct (machine_node_at self ad def). }
  assert (∀ q,
    node_at_path
      (MaterialManager.set_diameter_map self
         (<[ad := <[def := mn']>
                    (default ∅
                       (MaterialManager._diameter_machine_variant_material_map
                          self !! ad))]>
            (MaterialManager._diameter_machine_variant_material_map self))) q
    = match q with
      | (d, m, Some v, k) =>
          if decide (d = ad ∧ m = def)
          then MaterialManager.children_map mn' !! v
                 ≫= (λ n, MaterialManager.material_map n !! k)
          else variant_material_at self d m v k
      | (d, m, None, k) =>
          if decide (d = ad ∧ m = def)
          then MaterialManager.material_map mn' !! k
          else machine_material_at self d m k
      end) as Hread.
  { intros [[[d m] [v|]] k]; simpl;
      unfold variant_material_at, variant_node_at, machine_material_at;
      rewrite machine_node_at_insert; by case_decide. }
  destruct (variant_of md) as [vn|] eqn:Hvo.
  - destruct Hspec as [Hsame Hspec]. simpl. rewrite <-Hvm.
    destruct (MaterialManager.children_map mn !! vn
                ≫= (λ n, MaterialManager.material_map n !! rid))
      as [old|] eqn:Hold.
    + destruct Hspec as [-> Hv]. split; [done|]. intros q. rewrite Hread.
      destruct q as [[[d m] [v|]] k]; simpl.
      * case_decide as Hdm; [|done]. destruct Hdm as [-> ->].
        by rewrite Hv, Hvm.
      * case_decide as Hdm; [|done]. destruct Hdm as [-> ->].
        by rewrite Hsame, Hmm.
    + destruct Hspec as [-> Hv]. split; [done|]. intros q. rewrite Hread.
      destruct q as [[[d m] [v|]] k]; simpl.
      * case_decide as Hdm.
        -- destruct Hdm as [-> ->]. rewrite Hv.
           destruct (decide (v = vn ∧ k = rid)) as [[-> ->]|Hne].
           ++ by rewrite decide_True.
           ++ rewrite decide_False; [by rewrite Hvm|].
              intros [= -> ->]. by apply Hne.
        -- rewrite decide_False; [done|]. intros [= -> -> _ _].
           by apply Hdm.
      * rewrite (decide_False (P := (_ = _))) by (by intros [=]).
        case_decide as Hdm; [|done]. destruct Hdm as [-> ->].
        by rewrite Hsame, Hmm.
  - destruct Hspec as (-> & Hm & Hv). split; [done|]. intros q.
    rewrite Hread. destruct q as [[[d m] [v|]] k]; simpl.
    + rewrite (decide_False (P := (_ = _))) by (by intros [=]).
      case_decide as Hdm; [|done]. destruct Hdm as [-> ->].
      by rewrite Hv, Hvm.
    + case_decide as Hdm.
      * destruct Hdm as [-> ->]. rewrite Hm.
        destruct (decide (k = rid)) as [->|Hne].
        -- by rewrite decide_True.
        -- rewrite decide_False; [by rewrite Hmm|]. intros [= ->]. done.
      * rewrite decide_False; [done|]. intros [= -> -> _]. by apply Hdm.
Qed.

(** One round of the second loop of [initialize], in terms of the place of
    the record. *)
Lemma add_material_spec md s :
  let out := MaterialManager.add_material md s in
  match md !! "id" with
  | None => out = (Raise KeyError, s)
  | Some mid =>
      if decide (mid = "empty_material") then out = (Ok tt, s)
      else
        match place_of s md with
        | None => is_Raise out.1 ∧ out.1 ≠ Raise RuntimeError ∧ out.2 = s
        | Some p =>
            MaterialManager._guid_to_root_materials_map out.2
            = MaterialManager._guid_to_root_materials_map s
            ∧ match variant_of md, node_at_path s p with
              | Some _, Some _ =>
                  out.1 = Raise RuntimeError
                  ∧ ∀ q, node_at_path out.2 q = node_at_path s q
              | _, _ =>
                  out.1 = Ok tt
                  ∧ ∀ q, node_at_path out.2 q
                         = if decide (q = p)
                           then Some (MaterialManager.MaterialNode_init
                                        (Some md))
                           else node_at_path s q
              end
        end
  end.
Proof.
  cbv zeta.
  unfold MaterialManager.add_material, MaterialManager.node_id, place_of,
    root_material_id_of, container_id, bind, getitem, get, ret, raise.
  destruct (md !! "id") as [mid|] eqn:Hid; [|done].
  case_decide; [done|].
  destruct (md !! "GUID") as [g|] eqn:Hg; simpl.
  2:{ destruct (md !! "approximate_diameter"); simpl; [|done].
      by destruct (md !! "definition"). }
  destruct (MaterialManager._guid_to_root_materials_map s !! g)
    as [root|] eqn:Hroot; simpl.
  2:{ destruct (md !! "approximate_diameter"); simpl; [|done].
      by destruct (md !! "definition"). }
  destruct (MaterialManager.metadata root) as [rmd|] eqn:Hrmd; simpl.
  2:{ destruct (md !! "approximate_diameter"); simpl; [|done].
      by destruct (md !! "definition"). }
  destruct (rmd !! "id") as [rid|] eqn:Hrid; simpl.
  2:{ destruct (md !! "approximate_diameter"); simpl; [|done].
      by destruct (md !! "definition"). }
  destruct (md !! "definition") as [def|] eqn:Hdef; simpl.
  2:{ by destruct (md !! "approximate_diameter"). }
  destruct (md !! "approximate_diameter") as [ad|] eqn:Had; simpl; [|done].
  destruct (MaterialManager.insert_material md rid def ad _) as [r t'] eqn:Hins.
  simpl. split; [done|].
  apply insert_material_node_at in Hins. cbv zeta in Hins.
  destruct (variant_of md) as [v|]; [|done].
  simpl in Hins. by destruct (variant_material_at s ad def v rid).
Qed.

(** ** The tree after the second loop of [initialize] *)

Lemma records_at_guid s s' q l :
  MaterialManager._guid_to_root_materials_map s
  = MaterialManager._guid_to_root_materials_map s' →
  records_at s q l = records_at s' q l.
Proof.
  intros H. unfold records_at. apply list_filter_iff. intros md.
  by rewrite (place_of_guid s s' md H).
Qed.

Lemma second_loop_tree l s s' :
  for_each MaterialManager.add_material l s = (Ok tt, s') →
  MaterialManager._guid_to_root_materials_map s'
  = MaterialManager._guid_to_root_materials_map s
  ∧ (∀ md, md ∈ l → stored md → is_Some (place_of s md))
  ∧ (∀ q, node_at_path s' q
          = match last (records_at s q l) with
            | Some md => Some (MaterialManager.MaterialNode_init (Some md))
            | None => node_at_path s q
            end)
  ∧ (∀ d m v k,
       (length (records_at s (d, m, Some v, k) l)
        + (if node_at_path s (d, m, Some v, k) is Some _ then 1 else 0)
        ≤ 1)%nat).
Proof.
  revert s. induction l as [|md l IH]; intros s H; simpl in H.
  { inversion H; subst. split; [done|]. split; [by intros ? ?%elem_of_nil|].
    split; [done|]. intros d m v k. simpl. case_match; lia. }
  apply bind_inv in H as [([] & s1 & H1 & H2)|(e & H1 & [=])].
  apply IH in H2 as (Hg2 & Hplace2 & Htree2 & Hcount2). clear IH.
  pose proof (add_material_spec md s) as Hspec. cbv zeta in Hspec.
  rewrite H1 in Hspec. simpl in Hspec.
  destruct (md !! "id") as [mid|] eqn:Hid; [|done].
  destruct (decide (mid = "empty_material")) as [Hs|Hs].
  { inversion Hspec; subst s1. clear Hspec.
    assert (¬ stored md) as Hns.
    { intros (x & Hx & Hne). congruence. }
    assert (∀ q, records_at s q (md :: l) = records_at s q l) as Hrec.
    { intros q. unfold records_at. rewrite filter_cons.
      rewrite decide_False; [done|]. by intros [? _]. }
    split; [done|]. split.
    { intros md' [->|Hin]%elem_of_cons Hst; [done|by apply Hplace2]. }
    split; [intros q; by rewrite Hrec|]. intros d m v k. by rewrite Hrec. }
  assert (stored md) as Hst by (by exists mid).
  destruct (place_of s md) as [p|] eqn:Hp; [|by destruct Hspec].
  destruct Hspec as [Hg1 Hspec].
  assert (∀ md', place_of s1 md' = place_of s md') as Hpl
    by (intros; by apply place_of_guid).
  assert (∀ q, records_at s1 q l = records_at s q l) as Hrec1
    by (intros; by apply records_at_guid).
  assert (∀ q, records_at s q (md :: l)
               = if decide (q = p) then md :: records_at s q l
                 else records_at s q l) as Hrec.
  { intros q. unfold records_at. rewrite filter_cons.
    destruct (decide (q = p)) as [->|Hne].
    - by rewrite decide_True.
    - rewrite decide_False; [done|]. intros [_ Hq]. congruence. }
  assert (Ok tt = Ok tt
          ∧ ∀ q, node_at_path s1 q
                 = if decide (q = p)
                   then Some (MaterialManager.MaterialNode_init (Some md))
                   else node_at_path s q) as [_ Hstep].
  { destruct (variant_of md); [|done].
    destruct (node_at_path s p); [by destruct Hspec|done]. }
  split; [congruence|]. split.
  { intros md' [->|Hin]%elem_of_cons Hst'; [by rewrite Hp|].
    rewrite <-Hpl. by apply Hplace2. }
  split.
  - intros q. rewrite Htree2, Hrec1, Hrec, Hstep.
    destruct (decide (q = p)) as [->|Hne]; [|done].
    rewrite last_cons. by destruct (last (records_at s p l)).
  - intros d m v k. rewrite Hrec.
    specialize (Hcount2 d m v k). rewrite Hrec1, Hstep in Hcount2.
    destruct (decide ((d, m, Some v, k) = p)) as [<-|Hne]; [|done].
    simpl in *.
    assert (variant_of md = Some v) as Hv.
    { unfold place_of in Hp.
      destruct (md !! "approximate_diameter"); simpl in Hp; [|done].
      destruct (md !! "definition"); simpl in Hp; [|done].
      destruct (root_material_id_of s md); simpl in Hp; [|done].
      by inversion Hp. }
    rewrite Hv in Hspec. simpl in Hspec.
    destruct (variant_material_at s d m v k); [by destruct Hspec|]. lia.
Qed.

Lemma place_of_in l s md :
  (∀ g, MaterialManager._guid_to_root_materials_map s !! g
        = (λ md, MaterialManager.MaterialNode_init (Some md))
            <$> first_root_material g l) →
  place_of s md = place_in l md.
Proof.
  intros Hg. unfold place_of, place_in, root_material_id_of, root_id_in.
  destruct (md !! "approximate_diameter"); simpl; [|done].
  destruct (md !! "definition"); simpl; [|done].
  destruct (md !! "GUID") as [g|]; simpl; [|done].
  rewrite Hg. by destruct (first_root_material g l).
Qed.

Lemma records_at_in l s q (l' : list Metadata) :
  (∀ g, MaterialManager._guid_to_root_materials_map s !! g
        = (λ md, MaterialManager.MaterialNode_init (Some md))
            <$> first_root_material g l) →
  filter (λ md, stored md ∧ place_of s md = Some q) l'
  = filter (λ md, stored md ∧ place_in l md = Some q) l'.
Proof.
  intros Hg. apply list_filter_iff. intros md.
  by rewrite (place_of_in l s md Hg).
Qed.

(** What a successful [initialize] leaves, in terms of the list of records. *)
Lemma initialize_ok_tree reg self :
  MaterialManager.initialize (MaterialManager.init reg) = (Ok tt, self) →
  let l := findContainersMetadata reg "material" in
  (∀ g, MaterialManager._guid_to_root_materials_map self !! g
        = (λ md, MaterialManager.MaterialNode_init (Some md))
            <$> first_root_material g l)
  ∧ (∀ md, md ∈ l → stored md → is_Some (place_in l md))
  ∧ (∀ q, node_at_path self q
          = (λ md, MaterialManager.MaterialNode_init (Some md))
              <$> last (records_in q l))
  ∧ (∀ d m v k, (length (records_in (d, m, Some v, k) l) ≤ 1)%nat).
Proof.
  intros Hinit. cbv zeta.
  apply initialize_inv in Hinit
    as (r1 & s1 & H1 & [(e & _ & [=] & _)|[-> H2]]).
  pose proof (first_loop_tables _ _ _ _ H1) as (Ht1 & _).
  apply for_each_add_root_material in H1 as [_ Hg1].
  assert (∀ g, MaterialManager._guid_to_root_materials_map s1 !! g
               = (λ md, MaterialManager.MaterialNode_init (Some md))
                   <$> first_root_material g
                         (findContainersMetadata reg "material")) as Hg.
  { intros g. rewrite Hg1. simpl. by rewrite lookup_empty. }
  apply second_loop_tree in H2 as (Hg2 & Hplace & Htree & Hcount).
  split; [intros g; by rewrite Hg2|]. split; [|split].
  - intros md Hin Hst. rewrite <-(place_of_in _ s1) by done. by apply Hplace.
  - intros q. rewrite Htree. unfold records_at, records_in.
    rewrite (records_at_in _ _ _ _ Hg).
    destruct (last _); [done|].
    destruct q as [[[d m] [v|]] k]; simpl;
      unfold variant_material_at, variant_node_at, machine_material_at,
        machine_node_at; rewrite Ht1; simpl; by rewrite lookup_empty.
  - intros d m v k. specialize (Hcount d m v k).
    unfold records_at in Hcount. rewrite (records_at_in _ _ _ _ Hg) in Hcount.
    unfold records_in. lia.
Qed.

(** X3. After a successful [initialize], the leaf at a place of the tree is
    a new node for the last stored record of the list with that place, and
    a place that no stored record has holds no leaf. *)
Theorem tree_holds_last_record reg self :
  MaterialManager.initialize (MaterialManager.init reg) = (Ok tt, self) →
  ∀ path,
    node_at_path self path
    = (λ md, MaterialManager.MaterialNode_init (Some md))
        <$> last (records_in path (findContainersMetadata reg "material")).
Proof. intros H. by apply initialize_ok_tree in H as (_ & _ & ? & _). Qed.

(** X4. [initialize] succeeds only when no two stored records with a
    variant name have the same place: the same bucket, machine, variant name
    and root material. *)
Theorem variant_places_are_unique reg self :
  MaterialManager.initialize (MaterialManager.init reg) = (Ok tt, self) →
  ∀ d m v k,
    (length (records_in (d, m, Some v, k)
               (findContainersMetadata reg "material")) ≤ 1)%nat.
Proof. intros H. by apply initialize_ok_tree in H as (_ & _ & _ & ?). Qed.

(** X5. [initialize] succeeds only when every stored record has a place:
    it has the fields [approximate_diameter], [definition] and [GUID], and
    the list has a root material with that GUID and an id. *)
Theorem stored_records_have_a_place reg self :
  MaterialManager.initialize (MaterialManager.init reg) = (Ok tt, self) →
  ∀ md, md ∈ findContainersMetadata reg "material" → stored md →
        is_Some (place_in (findContainersMetadata reg "material") md).
Proof. intros H. by apply initialize_ok_tree in H as (_ & ? & _). Qed.

(** ** The machine nodes after [initialize] *)

Lemma add_material_ok_machine md s s1 :
  MaterialManager.add_material md s = (Ok tt, s1) →
  ∀ d m, is_Some (machine_node_at s1 d m)
         ↔ is_Some (machine_node_at s d m) ∨ in_machine d m md.
Proof.
  unfold MaterialManager.add_material, MaterialManager.node_id, in_machine,
    stored, bind, getitem, get, ret, raise.
  destruct (md !! "id") as [mid|] eqn:Hid; [|done].
  case_decide as Hs.
  { intros [= <-] d m. split; [by left|].
    intros [?|[(x & [= <-] & Hx) _]]; done. }
  destruct (md !! "GUID") as [g|]; [|done].
  destruct (MaterialManager._guid_to_root_materials_map s !! g)
    as [root|]; [|done].
  destruct (MaterialManager.metadata root) as [rmd|]; [|done].
  destruct (rmd !! "id") as [rid|]; [|done].
  destruct (md !! "definition") as [def|]; [|done].
  destruct (md !! "approximate_diameter") as [ad|]; [|done].
  rewrite insert_material_place. cbv zeta.
  destruct (place_leaf _ _ _) as [r mn']. intros [= -> <-] d m.
  rewrite machine_node_at_insert. case_decide as Hdm.
  - destruct Hdm as [-> ->]. split; [|by eexists].
    intros _. right. split; [by exists mid|done].
  - split; [by left|]. intros [?|(_ & [= ->] & [= ->])]; [done|].
    by destruct Hdm.
Qed.

Lemma second_loop_machine_nodes l s s' :
  for_each MaterialManager.add_material l s = (Ok tt, s') →
  ∀ d m, is_Some (machine_node_at s' d m)
         ↔ is_Some (machine_node_at s d m) ∨ Exists (in_machine d m) l.
Proof.
  revert s. induction l as [|md l IH]; intros s H d m; simpl in H.
  { inversion H; subst. rewrite Exists_nil. tauto. }
  apply bind_inv in H as [([] & s1 & H1 & H2)|(e & H1 & [=])].
  rewrite (IH _ H2), (add_material_ok_machine _ _ _ H1), Exists_cons. tauto.
Qed.

Lemma initialize_ok_machine_key reg self key mid :
  MaterialManager.initialize (MaterialManager.init reg) = (Ok tt, self) →
  machine_key_of self key mid
  = machine_in (findContainersMetadata reg "material") key mid.
Proof.
  intros Hinit.
  assert (MaterialManager._default_machine_definition_id self = "fdmprinter")
    as Hdef by (by destruct (initialize_wf _ _ _ Hinit)).
  apply initialize_inv in Hinit
    as (r1 & s1 & H1 & [(e & _ & [=] & _)|[-> H2]]).
  apply first_loop_tables in H1 as (Ht1 & _).
  pose proof (second_loop_machine_nodes _ _ _ H2) as Hm.
  assert (∀ d m, is_Some (machine_node_at self d m)
                 ↔ Exists (in_machine d m)
                     (findContainersMetadata reg "material")) as Hm'.
  { intros d m. rewrite Hm. unfold machine_node_at at 1. rewrite Ht1.
    simpl. rewrite lookup_empty. simpl. split; [|by right].
    intros [[? ?]|?]; done. }
  rewrite machine_key_of_spec, Hdef. unfold machine_in.
  rewrite (decide_ext _ _ _ _ (Hm' key mid)).
  by rewrite (decide_ext _ _ _ _ (Hm' key "fdmprinter")).
Qed.

(** ** What the queries return after [initialize] *)

Lemma last_records_in_stored q l md :
  last (records_in q l) = Some md →
  md ∈ l ∧ stored md ∧ place_in l md = Some q.
Proof.
  intros H. apply last_Some_elem_of in H. unfold records_in in H.
  apply list_elem_of_filter in H as [[? ?] ?]. done.
Qed.

Lemma material_node_of_after_initialize reg self mid vn (d : float) rid :
  MaterialManager.initialize (MaterialManager.init reg) = (Ok tt, self) →
  material_node_of self mid vn d rid
  = (λ md, MaterialManager.MaterialNode_init (Some md))
      <$> resolve_in (findContainersMetadata reg "material") mid vn d rid.
Proof.
  intros Hinit. unfold material_node_of, resolve_in. cbv zeta.
  rewrite (initialize_ok_machine_key _ _ _ _ Hinit).
  destruct (machine_in _ _ mid) as [mk|]; simpl; [|done].
  pose proof (initialize_ok_tree _ _ Hinit) as (_ & _ & Htree & _).
  pose proof (Htree (str (round d), mk, None, rid)) as Hm. simpl in Hm.
  rewrite Hm. destruct vn as [v|]; simpl; [|done].
  pose proof (Htree (str (round d), mk, Some v, rid)) as Hv. simpl in Hv.
  rewrite Hv. by destruct (last (records_in (_, _, Some v, _) _)).
Qed.

(** X6. After a successful [initialize], [getMaterial] returns the
    container of the record that the list of records determines: under the
    queried machine if the bucket has a stored record of it, else under
    "fdmprinter", the last record at the place of the variant, else the last
    record at the machine's own place. It returns [None] when there is no
    such record; otherwise the first container that the registry has for
    the id of that record, and [RuntimeError] when it has none. *)
Theorem getMaterial_after_initialize reg self mid vn (d : float) rid :
  MaterialManager.initialize (MaterialManager.init reg) = (Ok tt, self) →
  match resolve_in (findContainersMetadata reg "material") mid vn d rid with
  | None => MaterialManager.getMaterial self mid vn d rid = (Ok None, self)
  | Some md =>
      ∃ id, md !! "id" = Some id
            ∧ (MaterialManager.getMaterial self mid vn d rid).1
              = match instance_containers reg id with
                | [] => Raise RuntimeError
                | c :: _ => Ok (Some c)
                end
  end.
Proof.
  intros Hinit.
  pose proof (material_node_of_after_initialize _ _ mid vn d rid Hinit)
    as Hnode.
  destruct (initialize_is_lazy _ _ _ Hinit) as (Hreg & _).
  destruct (resolve_in _ mid vn d rid) as [md|] eqn:Hres; simpl in Hnode.
  - assert (stored md) as (id & Hid & _).
    { unfold resolve_in in Hres. cbv zeta in Hres.
      destruct (machine_in _ _ mid) as [mk|]; simpl in Hres; [|done].
      destruct vn as [v|]; simpl in Hres.
      - destruct (last (records_in (_, _, Some v, _) _)) as [md'|] eqn:Hv.
        + inversion Hres; subst.
          by apply last_records_in_stored in Hv as (_ & ? & _).
        + by apply last_records_in_stored in Hres as (_ & ? & _).
      - by apply last_records_in_stored in Hres as (_ & ? & _). }
    exists id. split; [done|].
    destruct (getMaterial_via_node _ _ _ _ _ _ Hnode) as (-> & _).
    rewrite (getContainerOnNode_load _ _ id);
      [|done|by unfold container_id; simpl; rewrite Hid].
    rewrite Hreg. by destruct (instance_containers reg id).
  - by apply getMaterial_none.
Qed.

(** X7. After a successful [initialize], [getAvailableMaterials] returns a
    dict that holds, for a root material id, the metadata of the last stored
    record at the place of the queried variant under the resolved machine,
    and nothing else: without a variant name, the dict is empty. *)
Theorem getAvailableMaterials_after_initialize reg self mid vn (d : float) :
  MaterialManager.initialize (MaterialManager.init reg) = (Ok tt, self) →
  ∃ dict,
    MaterialManager.getAvailableMaterials self mid vn d = Some dict
    ∧ ∀ rid,
        dict !! rid
        = Some
            <$> (machine_in (findContainersMetadata reg "material")
                   (str (round d)) mid
                   ≫= λ mk, vn ≫= λ v,
                     last (records_in (str (round d), mk, Some v, rid)
                             (findContainersMetadata reg "material"))).
Proof.
  intros Hinit.
  destruct (getAvailableMaterials_leaves self mid vn d) as (dict & Hd & Hl).
  exists dict. split; [done|]. intros rid. rewrite Hl.
  rewrite (initialize_ok_machine_key _ _ _ _ Hinit).
  destruct (machine_in _ _ mid) as [mk|]; simpl; [|done].
  destruct vn as [v|]; simpl; [|done].
  pose proof (initialize_ok_tree _ _ Hinit) as (_ & _ & Htree & _).
  pose proof (Htree (str (round d), mk, Some v, rid)) as Hv. simpl in Hv.
  rewrite Hv. by destruct (last _).
Qed.

(** ** When [initialize] succeeds *)

Lemma initialize_unfold reg :
  MaterialManager.initialize (MaterialManager.init reg)
  = match for_each MaterialManager.add_root_material
            (findContainersMetadata reg "material") (MaterialManager.init reg)
    with
    | (Ok _, s1) =>
        for_each MaterialManager.add_material
          (findContainersMetadata reg "material") s1
    | (Raise e, s1) => (Raise e, s1)
    end.
Proof. reflexivity. Qed.

Lemma first_loop_reads_ids l s s' :
  for_each MaterialManager.add_root_material l s = (Ok tt, s') →
  Forall (λ md, is_Some (md !! "id")) l.
Proof.
  revert s. induction l as [|md l IH]; intros s H; [done|]. simpl in H.
  apply bind_inv in H as [([] & s1 & H1 & H2)|(e & H1 & [=])].
  constructor; [|by eapply IH].
  unfold MaterialManager.add_root_material, bind, getitem, raise in H1.
  by destruct (md !! "id").
Qed.

Lemma second_loop_total l s :
  Forall (λ md, is_Some (md !! "id")) l →
  (∀ md, md ∈ l → stored md → is_Some (place_of s md)) →
  (∀ d m v k,
     (length (records_at s (d, m, Some v, k) l)
      + (if node_at_path s (d, m, Some v, k) is Some _ then 1 else 0)
      ≤ 1)%nat) →
  (for_each MaterialManager.add_material l s).1 = Ok tt.
Proof.
  intros Hids. revert s.
  induction Hids as [|md l [mid Hid] _ IH]; intros s Hplace Hcount; [done|].
  simpl. unfold bind.
  pose proof (add_material_spec md s) as Hspec. cbv zeta in Hspec.
  destruct (MaterialManager.add_material md s) as [r s1] eqn:H1.
  rewrite Hid in Hspec. simpl in Hspec.
  destruct (decide (mid = "empty_material")) as [Hs|Hs].
  { inversion Hspec; subst r s1. apply IH.
    - intros md' Hin. apply Hplace. by apply list_elem_of_further.
    - intros d m v k. specialize (Hcount d m v k).
      assert (¬ stored md) as Hns
        by (intros (x & Hx & Hne); congruence).
      unfold records_at in *.
      rewrite filter_cons, decide_False in Hcount by (by intros [? _]).
      exact Hcount. }
  assert (stored md) as Hst by (by exists mid).
  destruct (Hplace md (list_elem_of_here _ _) Hst) as [p Hp].
  rewrite Hp in Hspec. destruct Hspec as [Hg Hspec].
  assert (∀ q, records_at s q (md :: l)
               = if decide (q = p) then md :: records_at s q l
                 else records_at s q l) as Hrec.
  { intros q. unfold records_at. rewrite filter_cons.
    destruct (decide (q = p)) as [->|Hne].
    - by rewrite decide_True.
    - rewrite decide_False; [done|]. intros [_ Hq]. congruence. }
  assert (r = Ok tt
          ∧ ∀ q, node_at_path s1 q
                 = if decide (q = p)
                   then Some (MaterialManager.MaterialNode_init (Some md))
                   else node_at_path s q) as [-> Hstep].
  { destruct (variant_of md) as [v|] eqn:Hv; [|done].
    destruct (node_at_path s p) as [old|] eqn:Hn; [|done]. exfalso.
    assert (∃ d m k, p = (d, m, Some v, k)) as (d & m & k & ->).
    { unfold place_of in Hp.
      destruct (md !! "approximate_diameter"); simpl in Hp; [|done].
      destruct (md !! "definition"); simpl in Hp; [|done].
      destruct (root_material_id_of s md); simpl in Hp; [|done].
      inversion Hp. rewrite Hv. eauto. }
    specialize (Hcount d m v k). rewrite Hrec, decide_True, Hn in Hcount
      by done. simpl in Hcount. lia. }
  apply IH.
  - intros md' Hin Hst'. rewrite (place_of_guid s1 s) by done.
    apply Hplace; [by apply list_elem_of_further|done].
  - intros d m v k. specialize (Hcount d m v k).
    rewrite (records_at_guid s1 s) by done. rewrite Hstep.
    rewrite Hrec in Hcount.
    destruct (decide ((d, m, Some v, k) = p)) as [<-|Hne]; [|done].
    simpl in Hcount. case_match; simpl; lia.
Qed.

(** X8. [initialize] succeeds exactly on a list of records that all have
    an id, whose stored records all have a place, and in which no two
    stored records with a variant name have the same place; records without
    a variant name may share a place. *)
Theorem initialize_succeeds_iff reg :
  let l := findContainersMetadata reg "material" in
  (MaterialManager.initialize (MaterialManager.init reg)).1 = Ok tt
  ↔ Forall (λ md, is_Some (md !! "id")) l
    ∧ (∀ md, md ∈ l → stored md → is_Some (place_in l md))
    ∧ (∀ d m v k, (length (records_in (d, m, Some v, k) l) ≤ 1)%nat).
Proof.
  cbv zeta. split.
  - intros Hok.
    destruct (MaterialManager.initialize _) as [r self] eqn:Hinit.
    simpl in Hok. subst r.
    pose proof (initialize_ok_tree _ _ Hinit) as (_ & Hplace & _ & Hcount).
    split; [|done].
    apply initialize_inv in Hinit
      as (r1 & s1 & H1 & [(e & _ & [=] & _)|[-> _]]).
    by eapply first_loop_reads_ids.
  - intros (Hids & Hplace & Hcount). rewrite initialize_unfold.
    assert (Forall has_id_and_guid (findContainersMetadata reg "material"))
      as Hwf.
    { apply Forall_forall. intros md Hin.
      rewrite Forall_forall in Hids. destruct (Hids md Hin) as [mid Hid].
      split; [by exists mid|]. intros Hne.
      destruct (Hplace md Hin) as [p Hp].
      { exists mid. split; [done|]. congruence. }
      unfold place_in, root_id_in in Hp.
      destruct (md !! "approximate_diameter"); simpl in Hp; [|done].
      destruct (md !! "definition"); simpl in Hp; [|done].
      by destruct (md !! "GUID"). }
    pose proof (for_each_add_root_material_total _ (MaterialManager.init reg)
                  Hwf) as Hpass1.
    destruct (for_each MaterialManager.add_root_material _ _)
      as [r1 s1] eqn:H1.
    simpl in Hpass1. subst r1.
    pose proof (first_loop_tables _ _ _ _ H1) as (Ht1 & _).
    apply for_each_add_root_material in H1 as [_ Hg1].
    assert (∀ g, MaterialManager._guid_to_root_materials_map s1 !! g
                 = (λ md, MaterialManager.MaterialNode_init (Some md))
                     <$> first_root_material g
                           (findContainersMetadata reg "material")) as Hg.
    { intros g. rewrite Hg1. simpl. by rewrite lookup_empty. }
    apply second_loop_total; [done| |].
    + intros md Hin Hst. rewrite (place_of_in _ s1) by done.
      by apply Hplace.
    + intros d m v k. unfold records_at.
      rewrite (records_at_in _ _ _ _ Hg).
      assert (node_at_path s1 (d, m, Some v, k) = None) as ->.
      { simpl. unfold variant_material_at, variant_node_at, machine_node_at.
        rewrite Ht1. simpl. by rewrite lookup_empty. }
      specialize (Hcount d m v k). unfold records_in in Hcount. lia.
Qed.

(** ** What the queries leave as it is *)

Lemma getMaterial_keeps_metadata self mid vn (d : float) rid q :
  MaterialManager.metadata
    <$> node_at_path (MaterialManager.getMaterial self mid vn d rid).2 q
  = MaterialManager.metadata <$> node_at_path self q.
Proof.
  rewrite getMaterial_unfold. cbv zeta.
  destruct (machine_key_of self (str (round d)) mid) as [mk|]; [|done].
  assert (∀ leaf,
    machine_material_at self (str (round d)) mk rid = Some leaf →
    MaterialManager.metadata
      <$> node_at_path
            (let '(r, reg', leaf') :=
               MaterialManager._getContainerOnNode
                 (MaterialManager._container_registry self) leaf in
             (found r,
              MaterialManager.store_machine_material
                (MaterialManager.set_registry self reg') (str (round d)) mk
                rid leaf')).2 q
    = MaterialManager.metadata <$> node_at_path self q) as Hmachine.
  { intros leaf Hleaf.
    destruct (MaterialManager._getContainerOnNode _ leaf)
      as [[r reg'] leaf'] eqn:Hc. simpl.
    apply getContainerOnNode_id in Hc as [_ Hmd].
    destruct q as [[[d' m'] [v'|]] k']; simpl.
    - by rewrite variant_material_at_store_machine.
    - rewrite machine_material_at_store_machine.
      case_decide as Heq; [|done]. destruct Heq as (-> & -> & ->).
      change (machine_material_at (MaterialManager.set_registry self reg'))
        with (machine_material_at self).
      rewrite Hleaf. simpl. by rewrite Hmd. }
  destruct vn as [v|]; simpl.
  - destruct (variant_material_at self (str (round d)) mk v rid)
      as [leaf|] eqn:Hv; simpl.
    + destruct (MaterialManager._getContainerOnNode _ leaf)
        as [[r reg'] leaf'] eqn:Hc. simpl.
      apply getContainerOnNode_id in Hc as [_ Hmd].
      destruct q as [[[d' m'] [v'|]] k']; simpl.
      * rewrite variant_material_at_store_variant.
        case_decide as Heq; [|done]. destruct Heq as (-> & -> & -> & ->).
        change (variant_material_at (MaterialManager.set_registry self reg'))
          with (variant_material_at self).
        rewrite Hv. simpl. by rewrite Hmd.
      * by rewrite machine_material_at_store_variant.
    + destruct (machine_material_at self (str (round d)) mk rid)
        as [leaf|] eqn:Hm; [|done]. by apply Hmachine.
  - destruct (machine_material_at self (str (round d)) mk rid)
      as [leaf|] eqn:Hm; [|done]. by apply Hmachine.
Qed.

Lemma getMaterialByGUID_keeps_tree self guid :
  MaterialManager._diameter_machine_variant_material_map
    (MaterialManager.getMaterialByGUID self guid).2
  = MaterialManager._diameter_machine_variant_material_map self.
Proof.
  unfold MaterialManager.getMaterialByGUID.
  destruct (_ !! guid) as [node|]; [|done].
  by destruct (MaterialManager._getContainerOnNode _ node) as [[r reg'] node'].
Qed.

Lemma node_at_path_tree s s' q :
  MaterialManager._diameter_machine_variant_material_map s
  = MaterialManager._diameter_machine_variant_material_map s' →
  node_at_path s q = node_at_path s' q.
Proof.
  intros H. destruct q as [[[d m] [v|]] k]; simpl;
    unfold variant_material_at, variant_node_at, machine_material_at,
      machine_node_at; by rewrite H.
Qed.

Lemma later_keeps_metadata self self' q :
  material_later self self' →
  MaterialManager.metadata <$> node_at_path self' q
  = MaterialManager.metadata <$> node_at_path self q.
Proof.
  induction 1 as [|s' mid vn d rid _ IH|s' g _ IH|s' reg _ IH Hreg].
  - done.
  - by rewrite getMaterial_keeps_metadata.
  - by rewrite (node_at_path_tree _ s') by apply getMaterialByGUID_keeps_tree.
  - by rewrite (node_at_path_tree _ s').
Qed.

(** X9. Queries never change what [getAvailableMaterials] returns: after
    any calls of [getMaterial] and [getMaterialByGUID], and whatever happens
    to the registry, it returns the dict it returned before. *)
Theorem getAvailableMaterials_is_stable self self' mid vn (d : float) :
  material_later self self' →
  MaterialManager.getAvailableMaterials self' mid vn d
  = MaterialManager.getAvailableMaterials self mid vn d.
Proof.
  intros Hlater.
  destruct (getAvailableMaterials_leaves self mid vn d) as (dict & -> & Hd).
  destruct (getAvailableMaterials_leaves self' mid vn d)
    as (dict' & -> & Hd').
  f_equal. apply map_eq. intros rid. rewrite Hd, Hd'.
  rewrite (machine_key_of_cache_le self self') by (by apply later_cache_le).
  destruct (machine_key_of self (str (round d)) mid) as [mk|]; simpl;
    [|done].
  destruct vn as [v|]; simpl; [|done].
  apply (later_keeps_metadata _ _ (str (round d), mk, Some v, rid) Hlater).
Qed.

(** X10. A material that [getAvailableMaterials] lists can be fetched:
    with the same machine, variant and diameter, [getMaterial] for a listed
    root material id resolves the leaf whose metadata was listed, and so
    returns its container or raises, never [None]. *)
Theorem listed_material_is_found self mid vn (d : float) dict rid mdo :
  MaterialManager.getAvailableMaterials self mid vn d = Some dict →
  dict !! rid = Some mdo →
  ∃ leaf,
    material_node_of self mid vn d rid = Some leaf
    ∧ MaterialManager.metadata leaf = mdo
    ∧ (MaterialManager.getMaterial self mid vn d rid).1
      = found (MaterialManager._getContainerOnNode
                 (MaterialManager._container_registry self) leaf).1.1
    ∧ (MaterialManager.getMaterial self mid vn d rid).1 ≠ Ok None.
Proof.
  intros Hget Hrid.
  destruct (getAvailableMaterials_leaves self mid vn d) as (dict' & Hd & Hl).
  rewrite Hget in Hd. inversion Hd; subst dict'. clear Hd.
  rewrite Hl in Hrid.
  destruct (machine_key_of self (str (round d)) mid) as [mk|] eqn:Hmk;
    simpl in Hrid; [|done].
  destruct vn as [v|]; simpl in Hrid; [|done].
  destruct (variant_material_at self (str (round d)) mk v rid)
    as [leaf|] eqn:Hv; simpl in Hrid; [|done].
  inversion Hrid; subst mdo. exists leaf.
  assert (material_node_of self mid (Some v) d rid = Some leaf) as Hnode.
  { unfold material_node_of. cbv zeta. rewrite Hmk. simpl. by rewrite Hv. }
  destruct (getMaterial_via_node _ _ _ _ _ _ Hnode) as (Hr & _).
  repeat split; try done. rewrite Hr.
  by destruct (MaterialManager._getContainerOnNode _ leaf) as [[[c|e] ?] ?].
Qed.

(** X11. The GUID table and the tree keep their containers apart:
    [getMaterialByGUID] changes no leaf of the tree and [getMaterial] changes
    no node of the GUID table, so a container loaded through one table is
    not loaded through the other. *)
Theorem tables_load_separately self :
  (∀ guid path,
     node_at_path (MaterialManager.getMaterialByGUID self guid).2 path
     = node_at_path self path)
  ∧ (∀ mid vn (d : float) rid,
       MaterialManager._guid_to_root_materials_map
         (MaterialManager.getMaterial self mid vn d rid).2
       = MaterialManager._guid_to_root_materials_map self).
Proof.
  split.
  - intros guid path. apply node_at_path_tree, getMaterialByGUID_keeps_tree.
  - intros mid vn d rid. rewrite getMaterial_unfold. cbv zeta.
    destruct (machine_key_of self (str (round d)) mid) as [mk|]; [|done].
    destruct (vn ≫= _) as [[v leaf]|].
    + by destruct (MaterialManager._getContainerOnNode _ leaf)
        as [[r reg'] leaf'].
    + destruct (machine_material_at self (str (round d)) mk rid)
        as [leaf|]; [|done].
      by destruct (MaterialManager._getContainerOnNode _ leaf)
        as [[r reg'] leaf'].
Qed.

(** ** The variant table after [initialize] *)

Lemma add_variant_spec md s :
  VariantManager._exclude_variant_id_list s = ["empty_variant"] →
  let out := VariantManager.add_variant md s in
  VariantManager._exclude_variant_id_list out.2 = ["empty_variant"]
  ∧ VariantManager._container_registry out.2
    = VariantManager._container_registry s
  ∧ match md !! "id" with
    | None => out = (Raise KeyError, s)
    | Some id =>
        if decide (id = "empty_variant") then out = (Ok tt, s)
        else
          match variant_key md with
          | None => out = (Raise KeyError, s)
          | Some (def, name) =>
              (∀ m, is_Some (VariantManager._machine_to_variant_dict_map
                               out.2 !! m)
                    ↔ m = def
                      ∨ is_Some (VariantManager._machine_to_variant_dict_map
                                   s !! m))
              ∧ match md !! "hardware_type", variant_at s def name with
                | None, _ =>
                    out.1 = Raise KeyError
                    ∧ ∀ m v, variant_at out.2 m v = variant_at s m v
                | Some _, Some _ =>
                    out.1 = Raise RuntimeError
                    ∧ ∀ m v, variant_at out.2 m v = variant_at s m v
                | Some _, None =>
                    out.1 = Ok tt
                    ∧ ∀ m v, variant_at out.2 m v
                             = if decide (m = def ∧ v = name)
                               then Some (VariantManager.mkVariantDict md None)
                               else variant_at s m v
                end
          end
    end.
Proof.
  intros Hex. cbv zeta.
  unfold VariantManager.add_variant, variant_key, bind, getitem, get, put,
    ret, raise.
  destruct (md !! "id") as [id|] eqn:Hid; [|done]. rewrite Hex.
  destruct (decide (id ∈ ["empty_variant"])) as [Hin|Hnin].
  { apply list_elem_of_singleton in Hin. subst id.
    by rewrite decide_True. }
  rewrite decide_False by (intros ->; apply Hnin, list_elem_of_here).
  destruct (md !! "name") as [name|] eqn:Hname.
  2:{ by destruct (md !! "definition"). }
  destruct (md !! "definition") as [def|] eqn:Hdef; [|done]. simpl.
  destruct (VariantManager._machine_to_variant_dict_map s !! def)
    as [vd|] eqn:Hvd; simpl.
  - assert (∀ m, is_Some (VariantManager._machine_to_variant_dict_map s !! m)
                 ↔ m = def
                   ∨ is_Some (VariantManager._machine_to_variant_dict_map s
                                !! m)) as Hdom.
    { intros m. split; [by right|]. intros [->|?]; [by eexists|done]. }
    destruct (md !! "hardware_type"); simpl; [|done].
    rewrite Hvd. simpl. unfold variant_at at 1. rewrite Hvd. simpl.
    destruct (vd !! name) as [old|] eqn:Hold; simpl; [done|].
    split; [done|]. split; [done|]. split.
    + intros m. destruct (decide (m = def)) as [->|Hne].
      * rewrite lookup_insert_eq. split; [by left|by eexists].
      * rewrite lookup_insert_ne by done. split; [by right|].
        by intros [?|?].
    + split; [done|]. intros m v. unfold variant_at. simpl.
      destruct (decide (m = def)) as [->|Hne].
      * rewrite lookup_insert_eq, Hvd. simpl.
        destruct (decide (v = name)) as [->|Hv].
        -- rewrite lookup_insert_eq. by rewrite decide_True.
        -- rewrite lookup_insert_ne by done.
           by rewrite decide_False by (by intros [_ ?]).
      * rewrite lookup_insert_ne by done.
        by rewrite decide_False by (by intros [? _]).
  - assert (∀ m v,
      variant_at
        (VariantManager.set_variant_map s
           (<[def:=∅]> (VariantManager._machine_to_variant_dict_map s))) m v
      = variant_at s m v) as Hsame.
    { intros m v. unfold variant_at. simpl.
      destruct (decide (m = def)) as [->|Hne].
      - by rewrite lookup_insert_eq, Hvd.
      - by rewrite lookup_insert_ne. }
    assert (∀ m,
      is_Some (<[def:=(∅ : gmap string VariantManager.VariantDict)]>
                 (VariantManager._machine_to_variant_dict_map s) !! m)
      ↔ m = def
        ∨ is_Some (VariantManager._machine_to_variant_dict_map s !! m))
      as Hdom.
    { intros m. destruct (decide (m = def)) as [->|Hne].
      - rewrite lookup_insert_eq. split; [by left|by eexists].
      - rewrite lookup_insert_ne by done. split; [by right|].
        by intros [?|?]. }
    destruct (md !! "hardware_type"); simpl; [|done].
    rewrite lookup_insert_eq. simpl. rewrite lookup_empty.
    unfold variant_at at 1. rewrite Hvd. simpl.
    split; [done|]. split; [done|]. split.
    + intros m. rewrite insert_insert_eq.
      destruct (decide (m = def)) as [->|Hne].
      * rewrite lookup_insert_eq. split; [by left|by eexists].
      * rewrite lookup_insert_ne by done. split; [by right|].
        by intros [?|?].
    + split; [done|]. intros m v. unfold variant_at. simpl.
      rewrite insert_insert_eq.
      destruct (decide (m = def)) as [->|Hne].
      * rewrite lookup_insert_eq. simpl.
        destruct (decide (v = name)) as [->|Hv].
        -- rewrite lookup_insert_eq. by rewrite decide_True.
        -- rewrite lookup_insert_ne by done. rewrite lookup_empty, Hvd.
           by rewrite decide_False by (by intros [_ ?]).
      * rewrite lookup_insert_ne by done.
        by rewrite decide_False by (by intros [? _]).
Qed.

Lemma variant_key_machine md m v :
  variant_stored md → variant_key md = Some (m, v) → variant_of_machine m md.
Proof.
  intros Hst Hk. split; [done|]. unfold variant_key in Hk.
  destruct (md !! "definition"); simpl in Hk; [|done].
  destruct (md !! "name"); simpl in Hk; [|done].
  inversion Hk; subst. split; [done|by eexists].
Qed.

Lemma variant_of_machine_key md m def name :
  variant_of_machine m md → variant_key md = Some (def, name) → m = def.
Proof.
  intros (_ & Hd & _) Hk. unfold variant_key in Hk. rewrite Hd in Hk.
  simpl in Hk. destruct (md !! "name"); simpl in Hk; [|done]. congruence.
Qed.

Lemma variant_loop_ok l s s' :
  VariantManager._exclude_variant_id_list s = ["empty_variant"] →
  for_each VariantManager.add_variant l s = (Ok tt, s') →
  VariantManager._container_registry s' = VariantManager._container_registry s
  ∧ (∀ md, md ∈ l → variant_stored md →
           is_Some (variant_key md) ∧ is_Some (md !! "hardware_type"))
  ∧ (∀ m v, variant_at s' m v
            = match head (variants_at (m, v) l) with
              | Some md => Some (VariantManager.mkVariantDict md None)
              | None => variant_at s m v
              end)
  ∧ (∀ m v, (length (variants_at (m, v) l)
             + (if variant_at s m v is Some _ then 1 else 0) ≤ 1)%nat)
  ∧ (∀ m, is_Some (VariantManager._machine_to_variant_dict_map s' !! m)
          ↔ is_Some (VariantManager._machine_to_variant_dict_map s !! m)
            ∨ Exists (variant_of_machine m) l).
Proof.
  revert s. induction l as [|md l IH]; intros s Hex H; simpl in H.
  { inversion H; subst. split; [done|]. split; [by intros ? ?%elem_of_nil|].
    split; [done|]. split.
    - intros m v. simpl. case_match; lia.
    - intros m. rewrite Exists_nil. tauto. }
  apply bind_inv in H as [([] & s1 & H1 & H2)|(e & H1 & [=])].
  pose proof (add_variant_spec md s Hex) as Hspec. cbv zeta in Hspec.
  rewrite H1 in Hspec. simpl in Hspec.
  destruct Hspec as (Hex1 & Hreg1 & Hspec).
  apply (IH _ Hex1) in H2 as (Hreg2 & Hkeys2 & Htab2 & Hcount2 & Hdom2).
  clear IH.
  destruct (md !! "id") as [id|] eqn:Hid; [|done].
  destruct (decide (id = "empty_variant")) as [Hs|Hs].
  { inversion Hspec; subst s1. clear Hspec.
    assert (¬ variant_stored md) as Hns
      by (intros (x & Hx & Hne); congruence).
    assert (∀ k, variants_at k (md :: l) = variants_at k l) as Hrec.
    { intros k. unfold variants_at. rewrite filter_cons.
      by rewrite decide_False by (by intros [? _]). }
    split; [done|]. split.
    { intros md' [->|Hin]%elem_of_cons Hst; [done|by apply Hkeys2]. }
    split; [intros m v; by rewrite Hrec|].
    split; [intros m v; by rewrite Hrec|].
    intros m. rewrite Hdom2, Exists_cons. split; [tauto|].
    intros [?|[[? _]|?]]; tauto. }
  assert (variant_stored md) as Hst by (by exists id).
  destruct (variant_key md) as [[def name]|] eqn:Hkey; [|done].
  destruct Hspec as [Hdom1 Hspec].
  destruct (md !! "hardware_type") as [ht|] eqn:Hht; [|by destruct Hspec].
  destruct (variant_at s def name) as [old|] eqn:Hold; [by destruct Hspec|].
  destruct Hspec as [_ Hstep].
  assert (∀ k, variants_at k (md :: l)
               = if decide (k = (def, name)) then md :: variants_at k l
                 else variants_at k l) as Hrec.
  { intros k. unfold variants_at. rewrite filter_cons.
    destruct (decide (k = (def, name))) as [->|Hne].
    - by rewrite decide_True.
    - rewrite decide_False; [done|]. intros [_ Hq]. congruence. }
  split; [congruence|]. split.
  { intros md' [->|Hin]%elem_of_cons Hst'; [|by apply Hkeys2].
    rewrite Hkey, Hht. split; by eexists. }
  split; [|split].
  - intros m v. rewrite Htab2, Hrec, Hstep.
    specialize (Hcount2 m v). rewrite Hstep in Hcount2.
    destruct (decide (m = def ∧ v = name)) as [[-> ->]|Hne].
    + rewrite decide_True by done. simpl.
      destruct (variants_at (def, name) l); [done|simpl in Hcount2; lia].
    + rewrite decide_False; [done|]. intros [= -> ->]. by apply Hne.
  - intros m v. rewrite Hrec. specialize (Hcount2 m v).
    rewrite Hstep in Hcount2.
    destruct (decide ((m, v) = (def, name))) as [[= -> ->]|Hne].
    + rewrite decide_True in Hcount2 by done. rewrite Hold. simpl in *. lia.
    + rewrite decide_False in Hcount2; [done|]. intros [-> ->]. done.
  - intros m. rewrite Hdom2, Hdom1, Exists_cons. split.
    + intros [[->|?]|?]; [|tauto..]. right. left.
      by apply (variant_key_machine _ _ name).
    + intros [?|[Hm|?]]; [tauto| |tauto].
      left. left. by eapply variant_of_machine_key.
Qed.

Lemma variant_loop_total l s :
  VariantManager._exclude_variant_id_list s = ["empty_variant"] →
  Forall (λ md, is_Some (md !! "id")) l →
  (∀ md, md ∈ l → variant_stored md →
         is_Some (variant_key md) ∧ is_Some (md !! "hardware_type")) →
  (∀ m v, (length (variants_at (m, v) l)
           + (if variant_at s m v is Some _ then 1 else 0) ≤ 1)%nat) →
  (for_each VariantManager.add_variant l s).1 = Ok tt.
Proof.
  intros Hex Hids. revert s Hex.
  induction Hids as [|md l [id Hid] _ IH]; intros s Hex Hkeys Hcount; [done|].
  simpl. unfold bind.
  pose proof (add_variant_spec md s Hex) as Hspec. cbv zeta in Hspec.
  destruct (VariantManager.add_variant md s) as [r s1] eqn:H1.
  simpl in Hspec. destruct Hspec as (Hex1 & _ & Hspec).
  rewrite Hid in Hspec.
  destruct (decide (id = "empty_variant")) as [Hs|Hs].
  { inversion Hspec; subst r s1. apply IH; [done| |].
    - intros md' Hin. apply Hkeys. by apply list_elem_of_further.
    - intros m v. specialize (Hcount m v).
      assert (¬ variant_stored md) as Hns
        by (intros (x & Hx & Hne); congruence).
      unfold variants_at in *.
      rewrite filter_cons, decide_False in Hcount by (by intros [? _]).
      exact Hcount. }
  assert (variant_stored md) as Hst by (by exists id).
  destruct (Hkeys md (list_elem_of_here _ _) Hst) as [[[def name] Hkey] [ht Hht]].
  rewrite Hkey, Hht in Hspec. destruct Hspec as [_ Hspec].
  assert (∀ k, variants_at k (md :: l)
               = if decide (k = (def, name)) then md :: variants_at k l
                 else variants_at k l) as Hrec.
  { intros k. unfold variants_at. rewrite filter_cons.
    destruct (decide (k = (def, name))) as [->|Hne].
    - by rewrite decide_True.
    - rewrite decide_False; [done|]. intros [_ Hq]. congruence. }
  destruct (variant_at s def name) as [old|] eqn:Hold.
  { exfalso. specialize (Hcount def name).
    rewrite Hrec, decide_True, Hold in Hcount by done. simpl in Hcount. lia. }
  destruct Hspec as [-> Hstep]. apply IH; [done| |].
  - intros md' Hin. apply Hkeys. by apply list_elem_of_further.
  - intros m v. specialize (Hcount m v). rewrite Hstep.
    rewrite Hrec in Hcount.
    destruct (decide ((m, v) = (def, name))) as [[= -> ->]|Hne].
    + rewrite decide_True by done. simpl in Hcount. lia.
    + rewrite decide_False; [done|]. intros [-> ->]. done.
Qed.

Lemma variant_initialize_unfold reg :
  VariantManager.initialize (VariantManager.init reg)
  = for_each VariantManager.add_variant (findContainersMetadata reg "variant")
      (VariantManager.init reg).
Proof. reflexivity. Qed.

Lemma variant_initialize_ok reg self :
  VariantManager.initialize (VariantManager.init reg) = (Ok tt, self) →
  let l := findContainersMetadata reg "variant" in
  VariantManager._container_registry self = reg
  ∧ (∀ md, md ∈ l → variant_stored md →
           is_Some (variant_key md) ∧ is_Some (md !! "hardware_type"))
  ∧ (∀ m v, variant_at self m v
            = (λ md, VariantManager.mkVariantDict md None)
                <$> head (variants_at (m, v) l))
  ∧ (∀ m v, (length (variants_at (m, v) l) ≤ 1)%nat)
  ∧ (∀ m, is_Some (VariantManager._machine_to_variant_dict_map self !! m)
          ↔ Exists (variant_of_machine m) l).
Proof.
  rewrite variant_initialize_unfold. intros H. cbv zeta.
  apply variant_loop_ok in H as (Hreg & Hkeys & Htab & Hcount & Hdom);
    [|done].
  split; [done|]. split; [done|]. split; [|split].
  - intros m v. rewrite Htab. by destruct (head _).
  - intros m v. specialize (Hcount m v). lia.
  - intros m. rewrite Hdom. simpl. rewrite lookup_empty. split; [|by right].
    intros [[? ?]|?]; done.
Qed.

(** X12. After a successful [VariantManager.initialize], the entry of a
    machine and a variant name holds the metadata of the stored record of
    the list with that [definition] and [name] and no container; there is at
    most one such record, and without one there is no entry. *)
Theorem variant_table_holds_records reg self :
  VariantManager.initialize (VariantManager.init reg) = (Ok tt, self) →
  ∀ m v,
    variant_at self m v
    = (λ md, VariantManager.mkVariantDict md None)
        <$> head (variants_at (m, v) (findContainersMetadata reg "variant"))
    ∧ (length (variants_at (m, v) (findContainersMetadata reg "variant"))
       ≤ 1)%nat.
Proof.
  intros H m v. apply variant_initialize_ok in H as (_ & _ & ? & ? & _).
  by split.
Qed.

Lemma getVariantMetadata_entry self m v t :
  VariantManager.getVariantMetadata self m v t
  = match VariantManager._machine_to_variant_dict_map self !! m with
    | None => Raise KeyError
    | Some _ => Ok (VariantManager.metadata <$> variant_at self m v)
    end.
Proof.
  unfold VariantManager.getVariantMetadata, variant_at.
  destruct (_ !! m) as [md|]; simpl; [|done]. by destruct (md !! v).
Qed.

(** X13. After a successful [VariantManager.initialize],
    [getVariantMetadata] raises [KeyError] for a machine that no stored
    record of the list has as [definition]; for any other machine it
    returns the stored record with that [definition] and the queried
    [name], or [None] when there is none. *)
Theorem getVariantMetadata_after_initialize reg self m v t :
  VariantManager.initialize (VariantManager.init reg) = (Ok tt, self) →
  VariantManager.getVariantMetadata self m v t
  = if decide (Exists (variant_of_machine m)
                 (findContainersMetadata reg "variant"))
    then Ok (head (variants_at (m, v) (findContainersMetadata reg "variant")))
    else Raise KeyError.
Proof.
  intros H. apply variant_initialize_ok in H as (_ & _ & Htab & _ & Hdom).
  rewrite getVariantMetadata_entry. specialize (Hdom m).
  destruct (VariantManager._machine_to_variant_dict_map self !! m) as [md|].
  - rewrite decide_True by (apply Hdom; by eexists).
    rewrite Htab. by destruct (head _).
  - rewrite decide_False; [done|]. intros He. apply Hdom in He as [? ?].
    done.
Qed.

(** X14. After a successful [VariantManager.initialize], [getVariant]
    raises [KeyError] for a machine without stored records and returns
    [None] for a name without a stored record of that machine; for the
    stored record of the machine and the name it returns the first container
    that the registry has for the id of the record, and raises
    [RuntimeError] when the registry has none. *)
Theorem getVariant_after_initialize reg self m v t :
  VariantManager.initialize (VariantManager.init reg) = (Ok tt, self) →
  if decide (Exists (variant_of_machine m)
               (findContainersMetadata reg "variant"))
  then match head (variants_at (m, v) (findContainersMetadata reg "variant"))
       with
       | None => VariantManager.getVariant self m v t = (Ok None, self)
       | Some md =>
           ∃ id, md !! "id" = Some id
                 ∧ (VariantManager.getVariant self m v t).1
                   = match instance_containers reg id with
                     | [] => Raise RuntimeError
                     | c :: _ => Ok (Some c)
                     end
       end
  else VariantManager.getVariant self m v t = (Raise KeyError, self).
Proof.
  intros H. apply variant_initialize_ok in H as (Hreg & _ & Htab & _ & Hdom).
  specialize (Hdom m). specialize (Htab m v). unfold variant_at in Htab.
  unfold VariantManager.getVariant.
  destruct (VariantManager._machine_to_variant_dict_map self !! m)
    as [dict|] eqn:Hm; simpl in Htab.
  - rewrite decide_True by (apply Hdom; by eexists). rewrite Htab.
    destruct (head (variants_at (m, v) _)) as [md|] eqn:Hhead; simpl; [|done].
    apply head_Some_elem_of in Hhead. unfold variants_at in Hhead.
    apply list_elem_of_filter in Hhead as [[(id & Hid & _) _] _].
    exists id. split; [done|]. rewrite Hid, Hreg. simpl.
    by destruct (instance_containers reg id).
  - rewrite decide_False; [done|]. intros He. apply Hdom in He as [? ?].
    done.
Qed.

(** X15. [VariantManager.initialize] succeeds exactly on a list of records
    that all have an id, whose stored records all have a [name], a
    [definition] and a [hardware_type], and in which no two stored records
    have the same [definition] and [name]; the [hardware_type] must be
    there but is not part of the key. *)
Theorem variant_initialize_succeeds_iff reg :
  let l := findContainersMetadata reg "variant" in
  (VariantManager.initialize (VariantManager.init reg)).1 = Ok tt
  ↔ Forall (λ md, is_Some (md !! "id")) l
    ∧ (∀ md, md ∈ l → variant_stored md →
             is_Some (variant_key md) ∧ is_Some (md !! "hardware_type"))
    ∧ (∀ m v, (length (variants_at (m, v) l) ≤ 1)%nat).
Proof.
  cbv zeta. split.
  - intros Hok.
    destruct (VariantManager.initialize _) as [r self] eqn:Hinit.
    simpl in Hok. subst r.
    pose proof (variant_initialize_ok _ _ Hinit) as (_ & Hkeys & _ & Hc & _).
    split; [|done]. rewrite variant_initialize_unfold in Hinit.
    clear Hkeys Hc. revert Hinit.
    generalize (VariantManager.init reg).
    induction (findContainersMetadata reg "variant") as [|md l IH];
      intros s H; [done|]. simpl in H.
    apply bind_inv in H as [([] & s1 & H1 & H2)|(e & H1 & [=])].
    constructor; [|by eapply IH].
    unfold VariantManager.add_variant, bind, getitem, raise in H1.
    by destruct (md !! "id").
  - intros (Hids & Hkeys & Hcount). rewrite variant_initialize_unfold.
    apply variant_loop_total; try done.
    intros m v. specialize (Hcount m v). unfold variant_at. simpl.
    rewrite lookup_empty. simpl. lia.
Qed.

(** X16. [VariantManager.initialize], also when it raises, makes no call
    of [findInstanceContainers] and leaves the registry as it is; every
    entry of the table holds the metadata of a stored record of the list,
    under the [definition] and the [name] of that record, and no
    container. *)
Theorem variant_initialize_loads_nothing reg r self :
  VariantManager.initialize (VariantManager.init reg) = (r, self) →
  VariantManager._container_registry self = reg
  ∧ ∀ m v entry,
      variant_at self m v = Some entry →
      ∃ md, md ∈ findContainersMetadata reg "variant"
            ∧ variant_stored md
            ∧ variant_key md = Some (m, v)
            ∧ entry = VariantManager.mkVariantDict md None.
Proof.
  rewrite variant_initialize_unfold. intros H.
  assert (VariantManager._exclude_variant_id_list self = ["empty_variant"]
          ∧ VariantManager._container_registry self = reg
          ∧ ∀ m v entry,
              variant_at self m v = Some entry →
              ∃ md, md ∈ findContainersMetadata reg "variant"
                    ∧ variant_stored md
                    ∧ variant_key md = Some (m, v)
                    ∧ entry = VariantManager.mkVariantDict md None)
    as (_ & ? & ?); [|done].
  eapply (for_each_preserves_elem
            (λ s, VariantManager._exclude_variant_id_list s
                  = ["empty_variant"]
                  ∧ VariantManager._container_registry s = reg
                  ∧ ∀ m v entry,
                      variant_at s m v = Some entry →
                      ∃ md, md ∈ findContainersMetadata reg "variant"
                            ∧ variant_stored md
                            ∧ variant_key md = Some (m, v)
                            ∧ entry = VariantManager.mkVariantDict md None));
    [| |exact H].
  - intros md s r0 s1 Hin (Hex & Hreg & Hall) Hbody.
    pose proof (add_variant_spec md s Hex) as Hspec. cbv zeta in Hspec.
    rewrite Hbody in Hspec. simpl in Hspec.
    destruct Hspec as (Hex1 & Hreg1 & Hspec).
    split; [done|]. split; [congruence|].
    destruct (md !! "id") as [id|] eqn:Hid; [|by inversion Hspec; subst].
    destruct (decide (id = "empty_variant")); [by inversion Hspec; subst|].
    destruct (variant_key md) as [[def name]|] eqn:Hkey;
      [|by inversion Hspec; subst].
    destruct Hspec as [_ Hspec].
    destruct (md !! "hardware_type") as [ht|].
    + destruct (variant_at s def name) as [old|].
      * destruct Hspec as [_ Hsame]. intros m v e. rewrite Hsame. apply Hall.
      * destruct Hspec as [_ Hstep]. intros m v e. rewrite Hstep.
        case_decide as Heq; [|apply Hall]. destruct Heq as [-> ->].
        intros [= <-]. exists md. repeat split; try done. by exists id.
    + destruct Hspec as [_ Hsame]. intros m v e. rewrite Hsame. apply Hall.
  - split; [done|]. split; [done|]. intros m v e. unfold variant_at. simpl.
    by rewrite lookup_empty.
Qed.

(** X17. Calls of [getVariant] never change what [getVariantMetadata]
    returns, whatever happens to the registry in between. *)
Theorem getVariantMetadata_is_stable self self' m v t :
  variant_later self self' →
  VariantManager.getVariantMetadata self' m v t
  = VariantManager.getVariantMetadata self m v t.
Proof.
  intros Hlater. apply variant_later_cache_le in Hlater as [Hdom Hle].
  rewrite !getVariantMetadata_entry.
  specialize (Hdom m). specialize (Hle m v).
  destruct (VariantManager._machine_to_variant_dict_map self !! m) as [d1|];
    destruct (VariantManager._machine_to_variant_dict_map self' !! m)
      as [d2|].
  - f_equal. destruct Hle as [e1 e2 [Hmd _]|]; simpl; [by rewrite Hmd|done].
  - destruct Hdom as [Hd _]. by destruct Hd.
  - destruct Hdom as [_ Hd]. by destruct Hd.
  - done.
Qed.

Lemma for_each_app {A S} (body : A → M S unit) l1 l2 s :
  for_each body (l1 ++ l2)%list s
  = match for_each body l1 s with
    | (Ok _, s1) => for_each body l2 s1
    | (Raise e, s1) => (Raise e, s1)
    end.
Proof.
  revert s. induction l1 as [|x l1 IH]; intros s; simpl; [done|].
  unfold bind. destruct (body x s) as [[[]|e] s1]; [apply IH|done].
Qed.

(** X18. A stored variant record with a [name] and a [definition] but no
    [hardware_type] makes [VariantManager.initialize] raise [KeyError] after
    the dict of its machine was created: when the records before it were
    stored without an error, the machine of the record has a dict
    afterwards, so [getVariantMetadata] for that machine does not raise,
    and the record itself is in no entry. *)
Theorem missing_hardware_type reg (l1 : list Metadata) md l2 def name s1 :
  findContainersMetadata reg "variant" = (l1 ++ md :: l2)%list →
  for_each VariantManager.add_variant l1 (VariantManager.init reg)
  = (Ok tt, s1) →
  variant_stored md →
  variant_key md = Some (def, name) →
  md !! "hardware_type" = None →
  let out := VariantManager.initialize (VariantManager.init reg) in
  out.1 = Raise KeyError
  ∧ (∀ m v, variant_at out.2 m v = variant_at s1 m v)
  ∧ ∀ v t, VariantManager.getVariantMetadata out.2 def v t
           = Ok (VariantManager.metadata <$> variant_at s1 def v).
Proof.
  intros Hl H1 (id & Hid & Hne) Hkey Hht. cbv zeta.
  rewrite variant_initialize_unfold, Hl, for_each_app, H1. simpl.
  unfold bind.
  assert (VariantManager._exclude_variant_id_list s1 = ["empty_variant"])
    as Hex.
  { eapply (for_each_preserves
              (λ s, VariantManager._exclude_variant_id_list s
                    = ["empty_variant"])); [| |exact H1]; [|reflexivity].
    intros x s r s' Hs Hbody.
    destruct (add_variant_spec x s Hs) as [Hs' _]. by rewrite Hbody in Hs'. }
  pose proof (add_variant_spec md s1 Hex) as Hspec. cbv zeta in Hspec.
  destruct (VariantManager.add_variant md s1) as [r s2] eqn:Hbody.
  simpl in Hspec. destruct Hspec as (_ & _ & Hspec).
  rewrite Hid, decide_False, Hkey, Hht in Hspec by done.
  destruct Hspec as (Hdom & -> & Hsame). simpl.
  split; [done|]. split; [done|]. intros v t.
  rewrite getVariantMetadata_entry.
  destruct (Hdom def) as [_ [dict ->]]; [by left|]. by rewrite Hsame.
Qed.

(** ** Which diameters select a bucket *)

Lemma Qfloor_unique (x : Q) (z : Z) :
  (inject_Z z <= x)%Q → (x < inject_Z (z + 1))%Q → Qfloor x = z.
Proof.
  intros Hlo Hhi.
  pose proof (Qfloor_le x) as Hf1. pose proof (Qlt_floor x) as Hf2.
  assert (inject_Z (Qfloor x) < inject_Z (z + 1))%Q as H1
    by (eapply Qle_lt_trans; eauto).
  assert (inject_Z z < inject_Z (Qfloor x + 1))%Q as H2
    by (eapply Qle_lt_trans; eauto).
  rewrite <-Zlt_Qlt in H1, H2. lia.
Qed.

Lemma round_spec (x : Q) (n : Z) :
  round x = n
  ↔ (inject_Z n - (1 # 2) < x ∧ x < inject_Z n + (1 # 2))%Q
    ∨ (Z.even n = true
       ∧ (x == inject_Z n - (1 # 2) ∨ x == inject_Z n + (1 # 2))%Q).
Proof.
  assert (∀ z, inject_Z (z + 1) == inject_Z z + 1)%Q as Hplus
    by (intros; rewrite inject_Z_plus; reflexivity).
  assert (∀ z, inject_Z (z - 1) == inject_Z z - 1)%Q as Hminus.
  { intros z. unfold Z.sub. rewrite inject_Z_plus. reflexivity. }
  split.
  - intros <-. unfold round.
    pose proof (Qfloor_le x) as Hlo. pose proof (Qlt_floor x) as Hhi.
    set (f := Qfloor x) in *. rewrite Hplus in Hhi.
    destruct (Qcompare (x - inject_Z f) (1 # 2)) eqn:Hc.
    + apply Qeq_alt in Hc. destruct (Z.even f) eqn:Hev.
      * right. split; [done|]. right. lra.
      * right. split.
        -- rewrite Z.even_add, Hev. done.
        -- left. rewrite Hplus. lra.
    + change (x - inject_Z f < 1 # 2)%Q in Hc. left. lra.
    + apply Qgt_alt in Hc. left. rewrite Hplus. lra.
  - intros [[Hlo Hhi]|[Hev [Heq|Heq]]]; unfold round.
    + destruct (Qlt_le_dec x (inject_Z n)) as [Hlt|Hge].
      * assert (Qfloor x = n - 1)%Z as ->.
        { apply Qfloor_unique; [rewrite Hminus; lra|].
          replace (n - 1 + 1)%Z with n by lia. done. }
        assert (Qcompare (x - inject_Z (n - 1)) (1 # 2) = Gt) as ->.
        { apply Qgt_alt. rewrite Hminus. lra. }
        lia.
      * assert (Qfloor x = n) as ->.
        { apply Qfloor_unique; [done|]. rewrite Hplus. lra. }
        assert (Qcompare (x - inject_Z n) (1 # 2) = Lt) as ->.
        { change (x - inject_Z n < 1 # 2)%Q. lra. }
        done.
    + assert (Qfloor x = n - 1)%Z as ->.
      { apply Qfloor_unique; [rewrite Hminus; lra|].
        replace (n - 1 + 1)%Z with n by lia. lra. }
      assert (Qcompare (x - inject_Z (n - 1)) (1 # 2) = Eq) as ->.
      { apply Qeq_alt. rewrite Hminus. lra. }
      assert (Z.even (n - 1) = false) as ->.
      { rewrite Z.even_sub, Hev. done. }
      lia.
    + assert (Qfloor x = n) as ->.
      { apply Qfloor_unique; [lra|]. rewrite Hplus. lra. }
      assert (Qcompare (x - inject_Z n) (1 # 2) = Eq) as ->.
      { apply Qeq_alt. lra. }
      by rewrite Hev.
Qed.

Lemma bucket_key_spec (d : float) (n : Z) :
  str (round d) = str n
  ↔ (inject_Z n - (1 # 2) < d ∧ d < inject_Z n + (1 # 2))%Q
    ∨ (Z.even n = true
       ∧ (d == inject_Z n - (1 # 2) ∨ d == inject_Z n + (1 # 2))%Q).
Proof.
  rewrite <-round_spec. unfold str. split; [|by intros ->].
  apply (inj pretty).
Qed.

(** X19. A diameter selects the bucket of the integer [n] exactly when it
    is less than 1/2 away from [n], or exactly 1/2 away and [n] is even: the
    bucket "3" holds the diameters strictly between 2.5 and 3.5, and the
    bucket "2" those from 1.5 up to 2.5, both ends included. *)
Theorem bucket_of_diameter (d : float) (n : Z) :
  str (round d) = str n
  ↔ (inject_Z n - (1 # 2) < d ∧ d < inject_Z n + (1 # 2))%Q
    ∨ (Z.even n = true
       ∧ (d == inject_Z n - (1 # 2) ∨ d == inject_Z n + (1 # 2))%Q).
Proof. exact (bucket_key_spec d n). Qed.

Example bucket_3_and_2 (d : float) :
  (str (round d) = "3" ↔ ((5 # 2) < d ∧ d < (7 # 2))%Q)
  ∧ (str (round d) = "2" ↔ ((3 # 2) <= d ∧ d <= (5 # 2))%Q).
Proof.
  split.
  - change "3" with (str 3). rewrite bucket_key_spec. simpl.
    unfold inject_Z. split; [intros [?|[? _]]; [lra|done]|intros; left; lra].
  - change "2" with (str 2). rewrite bucket_key_spec.
    unfold inject_Z. split.
    + intros [?|[_ [?|?]]]; lra.
    + intros [Hlo Hhi].
      destruct (Qlt_le_dec (3 # 2) d) as [H1|H1];
        destruct (Qlt_le_dec d (5 # 2)) as [H2|H2].
      * left. lra.
      * right. split; [done|]. right. lra.
      * right. split; [done|]. left. lra.
      * lra.
Qed.

(** ** The properties on the sample data *)

Lemma sample_initialize_eq l :
  (sample_initialize l).1 = Ok tt →
  MaterialManager.initialize
    (MaterialManager.init (sample_registry l [] sample_containers))
  = (Ok tt, (sample_initialize l).2).
Proof. intros H. by apply pair_with_result. Qed.

Lemma sample_manager_eq :
  MaterialManager.initialize
    (MaterialManager.init
       (sample_registry sample_materials [] sample_containers))
  = (Ok tt, sample_manager).
Proof. apply sample_initialize_eq. vm_compute. reflexivity. Qed.

Lemma sample_variant_manager_eq :
  VariantManager.initialize
    (VariantManager.init
       (sample_registry [] [ultimaker3_aa04] sample_containers))
  = (Ok tt, sample_variant_manager).
Proof. apply pair_with_result. vm_compute. reflexivity. Qed.

Lemma tree_leaves_are_records_witness :
  ∃ md, md ∈ sample_materials
        ∧ stored md
        ∧ place_of sample_manager md = Some sample_variant_path
        ∧ MaterialManager.MaterialNode_init (Some generic_pla_um3_aa04)
          = MaterialManager.MaterialNode_init (Some md).
Proof.
  apply (tree_leaves_are_records _ _ _ sample_manager_eq sample_variant_path).
  vm_compute. reflexivity.
Defined.

Lemma initialize_loads_nothing_witness :
  find_calls (MaterialManager._container_registry sample_manager) = [].
Proof.
  rewrite (proj1 (initialize_loads_nothing _ _ _ sample_manager_eq)).
  reflexivity.
Defined.

Lemma tree_holds_last_record_witness :
  node_at_path sample_manager sample_variant_path
  = (λ md, MaterialManager.MaterialNode_init (Some md))
      <$> last (records_in sample_variant_path sample_materials).
Proof. apply (tree_holds_last_record _ _ sample_manager_eq). Defined.

Lemma variant_places_are_unique_witness :
  (length (records_in sample_variant_path sample_materials) ≤ 1)%nat.
Proof. apply (variant_places_are_unique _ _ sample_manager_eq). Defined.

Lemma stored_records_have_a_place_witness :
  is_Some (place_in sample_materials generic_pla_um3_aa04).
Proof.
  apply (stored_records_have_a_place _ _ sample_manager_eq).
  - apply list_elem_of_further, list_elem_of_here.
  - exists "generic_pla_um3_aa04". split; [reflexivity|discriminate].
Defined.

Lemma getMaterial_after_initialize_witness :
  match resolve_in sample_materials "ultimaker2_plus" (Some "AA 0.4")
          float_2_85 "generic_pla" with
  | None =>
      MaterialManager.getMaterial sample_manager "ultimaker2_plus"
        (Some "AA 0.4") float_2_85 "generic_pla" = (Ok None, sample_manager)
  | Some md =>
      ∃ id, md !! "id" = Some id
            ∧ (MaterialManager.getMaterial sample_manager "ultimaker2_plus"
                 (Some "AA 0.4") float_2_85 "generic_pla").1
              = match instance_containers
                        (sample_registry sample_materials [] sample_containers)
                        id with
                | [] => Raise RuntimeError
                | c :: _ => Ok (Some c)
                end
  end.
Proof.
  apply (getMaterial_after_initialize _ _ "ultimaker2_plus" (Some "AA 0.4")
           float_2_85 "generic_pla" sample_manager_eq).
Defined.

Example resolve_in_sample :
  resolve_in sample_materials "ultimaker2_plus" (Some "AA 0.4") float_2_85
    "generic_pla" = Some generic_pla
  ∧ resolve_in sample_materials "ultimaker3" (Some "AA 0.4") float_2_84
      "generic_pla" = Some generic_pla_um3_aa04
  ∧ resolve_in sample_materials "ultimaker3" None float_2_85 "generic_pla"
    = None
  ∧ resolve_in sample_materials "ultimaker3" (Some "AA 0.4") float_1_75
      "generic_pla" = None.
Proof. repeat split; compute_done. Qed.

Lemma getAvailableMaterials_after_initialize_witness :
  ∃ dict,
    MaterialManager.getAvailableMaterials sample_manager "ultimaker3"
      (Some "AA 0.4") float_2_85 = Some dict
    ∧ ∀ rid,
        dict !! rid
        = Some
            <$> (machine_in sample_materials (str (round float_2_85))
                   "ultimaker3"
                   ≫= λ mk, Some "AA 0.4" ≫= λ v,
                     last (records_in (str (round float_2_85), mk, Some v, rid)
                             sample_materials)).
Proof.
  apply (getAvailableMaterials_after_initialize _ _ "ultimaker3"
           (Some "AA 0.4") float_2_85 sample_manager_eq).
Defined.

Lemma initialize_succeeds_iff_witness :
  (sample_initialize sample_materials).1 = Ok tt
  ∧ ∀ d m v k,
      (length (records_in (d, m, Some v, k) sample_materials) ≤ 1)%nat.
Proof.
  assert ((sample_initialize sample_materials).1 = Ok tt) as H
    by (vm_compute; reflexivity).
  split; [exact H|].
  apply (proj1 (initialize_succeeds_iff
                  (sample_registry sample_materials [] sample_containers)) H).
Defined.

Lemma getAvailableMaterials_is_stable_witness :
  MaterialManager.getAvailableMaterials
    (MaterialManager.getMaterial sample_manager "ultimaker3" (Some "AA 0.4")
       float_2_85 "generic_pla").2 "ultimaker3" (Some "AA 0.4") float_2_85
  = MaterialManager.getAvailableMaterials sample_manager "ultimaker3"
      (Some "AA 0.4") float_2_85.
Proof.
  apply getAvailableMaterials_is_stable.
  apply later_getMaterial, later_now.
Defined.

Lemma listed_material_is_found_witness :
  ∃ leaf,
    material_node_of sample_manager "ultimaker3" (Some "AA 0.4") float_2_85
      "generic_pla" = Some leaf
    ∧ MaterialManager.metadata leaf = Some generic_pla_um3_aa04
    ∧ (MaterialManager.getMaterial sample_manager "ultimaker3"
         (Some "AA 0.4") float_2_85 "generic_pla").1
      = found (MaterialManager._getContainerOnNode
                 (MaterialManager._container_registry sample_manager) leaf).1.1
    ∧ (MaterialManager.getMaterial sample_manager "ultimaker3"
         (Some "AA 0.4") float_2_85 "generic_pla").1 ≠ Ok None.
Proof.
  apply (listed_material_is_found sample_manager "ultimaker3" (Some "AA 0.4")
           float_2_85 {[ "generic_pla" := Some generic_pla_um3_aa04 ]}).
  - compute_done.
  - compute_done.
Defined.

Lemma variant_table_holds_records_witness :
  variant_at sample_variant_manager "ultimaker3" "AA 0.4"
  = (λ md, VariantManager.mkVariantDict md None)
      <$> head (variants_at ("ultimaker3", "AA 0.4") [ultimaker3_aa04])
  ∧ (length (variants_at ("ultimaker3", "AA 0.4") [ultimaker3_aa04]) ≤ 1)%nat.
Proof.
  apply (variant_table_holds_records _ _ sample_variant_manager_eq).
Defined.

Lemma getVariantMetadata_after_initialize_witness :
  VariantManager.getVariantMetadata sample_variant_manager "ultimaker3"
    "AA 0.4" None
  = if decide (Exists (variant_of_machine "ultimaker3") [ultimaker3_aa04])
    then Ok (head (variants_at ("ultimaker3", "AA 0.4") [ultimaker3_aa04]))
    else Raise KeyError.
Proof.
  apply (getVariantMetadata_after_initialize _ _ "ultimaker3" "AA 0.4" None
           sample_variant_manager_eq).
Defined.

Lemma getVariant_after_initialize_witness :
  if decide (Exists (variant_of_machine "ultimaker2") [ultimaker3_aa04])
  then match head (variants_at ("ultimaker2", "AA 0.4") [ultimaker3_aa04])
       with
       | None =>
           VariantManager.getVariant sample_variant_manager "ultimaker2"
             "AA 0.4" None = (Ok None, sample_variant_manager)
       | Some md =>
           ∃ id, md !! "id" = Some id
                 ∧ (VariantManager.getVariant sample_variant_manager
                      "ultimaker2" "AA 0.4" None).1
                   = match instance_containers
                             (sample_registry [] [ultimaker3_aa04]
                                sample_containers) id with
                     | [] => Raise RuntimeError
                     | c :: _ => Ok (Some c)
                     end
       end
  else VariantManager.getVariant sample_variant_manager "ultimaker2"
         "AA 0.4" None = (Raise KeyError, sample_variant_manager).
Proof.
  apply (getVariant_after_initialize _ _ "ultimaker2" "AA 0.4" None
           sample_variant_manager_eq).
Defined.

Lemma variant_initialize_succeeds_iff_witness :
  (sample_variant_initialize [ultimaker3_aa04]).1 = Ok tt
  ∧ ∀ m v, (length (variants_at (m, v) [ultimaker3_aa04]) ≤ 1)%nat.
Proof.
  assert ((sample_variant_initialize [ultimaker3_aa04]).1 = Ok tt) as H
    by (vm_compute; reflexivity).
  split; [exact H|].
  apply (proj1 (variant_initialize_succeeds_iff
                  (sample_registry [] [ultimaker3_aa04] sample_containers)) H).
Defined.

Lemma variant_initialize_loads_nothing_witness :
  find_calls (VariantManager._container_registry sample_variant_manager) = [].
Proof.
  rewrite (proj1 (variant_initialize_loads_nothing _ _ _
                    sample_variant_manager_eq)).
  reflexivity.
Defined.

Lemma getVariantMetadata_is_stable_witness :
  VariantManager.getVariantMetadata
    (VariantManager.getVariant sample_variant_manager "ultimaker3" "AA 0.4"
       None).2 "ultimaker3" "AA 0.4" None
  = VariantManager.getVariantMetadata sample_variant_manager "ultimaker3"
      "AA 0.4" None.
Proof.
  apply getVariantMetadata_is_stable. apply vlater_getVariant, vlater_now.
Defined.

Lemma missing_hardware_type_witness :
  (VariantManager.initialize
     (VariantManager.init
        (sample_registry [] [ultimaker3_aa04; ultimaker3_bb08_untyped]
           sample_containers))).1 = Raise KeyError.
Proof.
  refine (proj1 (missing_hardware_type
                   (sample_registry []
                      [ultimaker3_aa04; ultimaker3_bb08_untyped]
                      sample_containers)
                   [ultimaker3_aa04] ultimaker3_bb08_untyped []
                   "ultimaker3" "BB 0.8"
                   (for_each VariantManager.add_variant [ultimaker3_aa04]
                      (VariantManager.init
                         (sample_registry []
                            [ultimaker3_aa04; ultimaker3_bb08_untyped]
                            sample_containers))).2 _ _ _ _ _)).
  - reflexivity.
  - apply pair_with_result. vm_compute. reflexivity.
  - exists "ultimaker3_bb08". split; [reflexivity|discriminate].
  - reflexivity.
  - reflexivity.
Defined.
